(** * HRMS hr-operations-service: payroll, leave and attendance rules

    A shallow embedding of the three services of
    [hrms-platform/services/hr-operations-service] (payrollService.ts,
    leaveService.ts, attendanceService.ts) and of the Mongoose models they
    save (payroll.ts, leaveRequest.ts, attendance.ts), followed by the
    properties the specification states about them.

    Modelling conventions.
    - A JavaScript [Date] is its [getTime()] value: an integer number of
      milliseconds since the epoch ([Z]).
    - [hoursWorked] is computed as the code computes it, in IEEE-754
      binary64: every operation gives the exact result rounded to the
      nearest double ([double]).  Money amounts, rates and sums of hours
      are exact rationals ([Q]), each formula being the code's own
      expression; NaN and infinities are not modelled.
    - A Mongoose collection is the list of its documents in insertion order; a
      document's [_id] is its position.  A stored document has a value at
      every path its schema requires.  A document made by [new Model(...)]
      may not: [save] validates it first ([validated]), then runs the
      schema's [pre('save')] hook and enforces the schema's unique index.
      Of the schema's validators only [required] is part of the model.
    - [async] functions become functions from the collection(s) they read to
      a [result] carrying the new collection; a thrown error is [Throw].
    - The clock, the host's time zone and the employee service reached over
      HTTP are the fields of a [Host], passed explicitly. *)

From Stdlib Require Import ZArith QArith Qround Qminmax Qabs Qpower String Ascii Lia Lqa.
From stdpp Require Import base tactics option list gmap strings sorting.

Local Open Scope Z_scope.

(** ** Errors and results *)

Inductive error : Type :=
| AppError (message : string) (statusCode : Z)
| MongoError (message : string)
| ValidationError (message : string).

Inductive result (A : Type) : Type :=
| Ok (a : A)
| Throw (e : error).

Arguments Ok {A} a.
Arguments Throw {A} e.

#[global] Instance result_ret : MRet result := λ A a, Ok a.
#[global] Instance result_bind : MBind result := λ A B f m,
  match m with
  | Ok a => f a
  | Throw e => Throw e
  end.

(** [catch (error) { if (error instanceof AppError) throw error;
                     throw new AppError(message, 500); }] *)
Definition rethrow {A} (message : string) (m : result A) : result A :=
  match m with
  | Throw (MongoError _) | Throw (ValidationError _) =>
      Throw (AppError message 500)
  | _ => m
  end.

(** ** JavaScript numbers *)

(** [Math.round] rounds halves upwards; [Math.ceil] is used on a count of
    days and its result kept as an integer. *)
Definition Math_round (x : Q) : Q := inject_Z (Qfloor (x + (1 # 2))).

(** *** Binary64 arithmetic

    A finite double is [m * 2^e] with [|m| < 2^53].  An operation on
    doubles gives the exact result rounded to the nearest double, a tie
    going to the even significand.  The exponent is left unbounded: the
    numbers rounded here (milliseconds, hours, hundredths of hours) are 0
    or far from the subnormal and the overflow range. *)

Definition pow2 (e : Z) : Q := ((2 # 1) ^ e)%Q.

(** [floor (log2 q)] for [q > 0]: the quotient of numerator and
    denominator lies between [2^(k-1)] and [2^(k+1)]. *)
Definition ilog2 (q : Q) : Z :=
  let k := Z.log2 (Qnum q) - Z.log2 (Z.pos (Qden q)) in
  if Qle_bool (pow2 k) q then k else k - 1.

(** The nearest integer, a tie going to the even one. *)
Definition round_half_even (q : Q) : Z :=
  let f := Qfloor q in
  match (q - inject_Z f ?= 1 # 2)%Q with
  | Lt => f
  | Gt => f + 1
  | Eq => if Z.even f then f else f + 1
  end.

(** The double nearest to [q]: the significand is [q] scaled to 53 bits
    and rounded. *)
Definition double (q : Q) : Q :=
  if Qeq_bool q 0 then 0%Q
  else
    let e := ilog2 (Qabs q) - 52 in
    (inject_Z (round_half_even (q / pow2 e)) * pow2 e)%Q.

(** [x - y], [x * y] and [x / y] on numbers. *)
Definition js_sub (x y : Q) : Q := double (x - y).
Definition js_mul (x y : Q) : Q := double (x * y).
Definition js_div (x y : Q) : Q := double (x / y).
Definition Math_ceil (x : Q) : Z := Qceiling x.
Definition Math_max (x y : Q) : Q := Qmax x y.
Definition Math_min (x y : Q) : Q := Qmin x y.

(** [x || 0] on a property that is a number or undefined. *)
Definition or0 (x : option Z) : Z := default 0 x.

(** ** Strings: [toLowerCase] (ASCII letters) and [includes] *)

Definition lower_ascii (c : ascii) : ascii :=
  let n := nat_of_ascii c in
  if (65 <=? n)%nat && (n <=? 90)%nat then ascii_of_nat (n + 32) else c.

Fixpoint toLowerCase (s : string) : string :=
  match s with
  | EmptyString => EmptyString
  | String c s' => String (lower_ascii c) (toLowerCase s')
  end.

Fixpoint includes (needle s : string) : bool :=
  if String.prefix needle s then true
  else match s with
       | EmptyString => false
       | String _ s' => includes needle s'
       end.

(** ** Dates and the host's calendar *)

Definition MS_PER_HOUR : Z := 1000 * 60 * 60.
Definition MS_PER_DAY : Z := 1000 * 60 * 60 * 24.

(** What the services ask of the local time zone. *)
Record Calendar : Type := {
  (** [moment(t).utcOffset()], minutes east of UTC *)
  utcOffset : Z → Z;
  (** [moment(t).startOf('day').valueOf()] *)
  startOfDay : Z → Z;
  (** [new Date(t).getFullYear()], [moment(t).year()] *)
  getFullYear : Z → Z;
  (** [new Date(year, monthIndex, day).getTime()] *)
  newDate : Z → Z → Z → Z
}.

(** moment's [isLeapYear]:
    [(year % 4 === 0 && year % 100 !== 0) || year % 400 === 0]. *)
Definition isLeapYear (year : Z) : bool :=
  ((Z.rem year 4 =? 0) && negb (Z.rem year 100 =? 0)) || (Z.rem year 400 =? 0).

(** moment's [absFloor]: truncation toward zero. *)
Definition absFloor (x : Q) : Z :=
  if Qle_bool 0 x then Qfloor x else Qceiling x.

(** [moment(this).diff(moment(that), 'days')]:
    [absFloor((this - that - zoneDelta) / 864e5)] with
    [zoneDelta = (that.utcOffset() - this.utcOffset()) * 6e4]. *)
Definition diff_days (cal : Calendar) (this that : Z) : Z :=
  let zoneDelta := (utcOffset cal that - utcOffset cal this) * 60000 in
  absFloor (inject_Z (this - that - zoneDelta) / inject_Z 86400000).

(** *** The calendar of a host running in UTC *)

(** Days since 1970-01-01 of the proleptic Gregorian date [y]-[m]-[d]
    ([m] from 1 to 12). *)
Definition days_from_civil (y m d : Z) : Z :=
  let y' := if m <=? 2 then y - 1 else y in
  let era := y' / 400 in
  let yoe := y' - era * 400 in
  let doy := (153 * (if 2 <? m then m - 3 else m + 9) + 2) / 5 + d - 1 in
  let doe := yoe * 365 + yoe / 4 - yoe / 100 + doy in
  era * 146097 + doe - 719468.

(** The Gregorian year of day number [z] (days since 1970-01-01). *)
Definition year_of_days (z : Z) : Z :=
  let z' := z + 719468 in
  let era := z' / 146097 in
  let doe := z' - era * 146097 in
  let yoe := (doe - doe / 1460 + doe / 36524 - doe / 146096) / 365 in
  let doy := doe - (365 * yoe + yoe / 4 - yoe / 100) in
  let mp := (5 * doy + 2) / 153 in
  let m := if mp <? 10 then mp + 3 else mp - 9 in
  yoe + era * 400 + (if m <=? 2 then 1 else 0).

Definition utc : Calendar := {|
  utcOffset := λ _, 0;
  startOfDay := λ t, t - t mod MS_PER_DAY;
  getFullYear := λ t, year_of_days (t / MS_PER_DAY);
  (* the Date constructor reads a year from 0 to 99 as 1900 + year *)
  newDate := λ year monthIndex day,
    let year' := if (0 <=? year) && (year <=? 99) then 1900 + year else year in
    days_from_civil year' (monthIndex + 1) day * MS_PER_DAY
|}.

(** ** The host: clock, time zone and the employee service *)

Record Employee : Type := {
  salary : Q;
  position : string
}.

Record Host : Type := {
  (** [new Date()], [moment()] *)
  clock : Z;
  zone : Calendar;
  (** [GET /api/employees/:id]; [None] when the request fails *)
  directory : Z → option Employee
}.

Definition validateEmployee (host : Host) (employeeId : Z) : result unit :=
  match directory host employeeId with
  | Some _ => Ok tt
  | None => Throw (AppError "Invalid employee ID" 400)
  end.

Definition getEmployeeData (host : Host) (employeeId : Z) : result Employee :=
  match directory host employeeId with
  | Some employee => Ok employee
  | None => Throw (AppError "Failed to fetch employee data" 500)
  end.

Definition checkHRPermission (host : Host) (userId : Z) : bool :=
  match directory host userId with
  | Some employee =>
      includes "hr" (toLowerCase (position employee))
      || String.eqb (toLowerCase (position employee)) "admin"
  | None => false
  end.

(** ** Mongoose documents *)

(** A schema gives its [pre('save')] hook (which sees the stored version of
    the document, if any, to answer [isModified]) and its unique index. *)
Class Schema (D : Type) : Type := {
  pre_save : option D → D → D;
  unique_clash : D → D → Prop;
  unique_clash_dec :: RelDecision unique_clash
}.

(** [Model.findById(id)] *)
Definition findById {D} (coll : list D) (id : nat) : option D := coll !! id.

(** [Model.findOne(filter)]: the first matching document. *)
Definition findOne {D} (P : D → Prop) `{!∀ d, Decision (P d)}
    (coll : list D) : option (nat * D) :=
  list_find P coll.

(** What [save] does first, through Mongoose's own pre('save') hook,
    registered before the schema's: the document is validated, and a path
    that the schema requires and that is undefined fails the save with a
    ValidationError.  [defined] gives the document once every required
    path has a value. *)
Definition validated {N D} (defined : N → option D) (doc : N) : result D :=
  match defined doc with
  | Some d => Ok d
  | None => Throw (ValidationError "Validation failed: a required path is undefined")
  end.

(** The rest of [doc.save()], on a document that passed validation: the
    schema's pre('save') hook and the write.  [slot] is [None] for a
    document made by [new Model(...)] and the document's [_id]
    otherwise. *)
Definition save {D} `{Schema D} (coll : list D) (slot : option nat) (doc : D)
    : result (list D * D) :=
  let doc' := pre_save (slot ≫= findById coll) doc in
  let others := match slot with Some i => delete i coll | None => coll end in
  if decide (Exists (unique_clash doc') others)
  then Throw (MongoError "E11000 duplicate key error")
  else Ok (match slot with Some i => <[i:=doc']> coll | None => coll ++ [doc'] end,
           doc').

(** ** Attendance (models/attendance.ts, services/attendanceService.ts) *)

Module Attendance.

Inductive Status : Type := present | absent | late | half_day | holiday.

#[global] Instance Status_eq_dec : EqDecision Status.
Proof. solve_decision. Defined.

Record IAttendance : Type := mkAttendance {
  employeeId : Z;
  date : Z;
  checkIn : option Z;
  checkOut : option Z;
  status : Status;
  notes : option string;
  location : option string;
  isRemote : bool;
  hoursWorked : option Q
}.

Definition set_hoursWorked (h : option Q) (a : IAttendance) : IAttendance :=
  mkAttendance (employeeId a) (date a) (checkIn a) (checkOut a) (status a)
               (notes a) (location a) (isRemote a) h.

Definition set_checkOut (t : option Z) (a : IAttendance) : IAttendance :=
  mkAttendance (employeeId a) (date a) (checkIn a) t (status a)
               (notes a) (location a) (isRemote a) (hoursWorked a).

(** [Math.round((diffTime / (1000 * 60 * 60)) * 100) / 100], every
    operation rounded to a double. *)
Definition roundedHours (diffTime : Q) : Q :=
  js_div (Math_round (js_mul (js_div diffTime (inject_Z (1000 * 60 * 60))) 100)) 100.

(** [AttendanceSchema.pre('save')] *)
Definition calculateHours (a : IAttendance) : IAttendance :=
  match checkIn a, checkOut a with
  | Some ci, Some co =>
      let diffTime := js_sub (inject_Z co) (inject_Z ci) in
      set_hoursWorked (Some (roundedHours diffTime)) a
  | _, _ => a
  end.

(** [AttendanceSchema.index({ employeeId: 1, date: 1 }, { unique: true })] *)
Definition same_day (a b : IAttendance) : Prop :=
  employeeId a = employeeId b ∧ date a = date b.

#[global] Instance same_day_dec : RelDecision same_day.
Proof. intros a b. unfold same_day. apply _. Defined.

#[global] Instance schema : Schema IAttendance := {|
  pre_save := λ _, calculateHours;
  unique_clash := same_day
|}.

(** The [attendanceData] of [checkIn], assigned onto an existing document
    or given to [new Attendance]. *)
Record CheckInData : Type := {
  d_employeeId : Z;
  d_date : Z;
  d_checkIn : Z;
  d_status : Status;
  d_location : option string;
  d_isRemote : bool
}.

(** [Object.assign(existingAttendance, attendanceData)] *)
Definition assign (a : IAttendance) (d : CheckInData) : IAttendance :=
  mkAttendance (d_employeeId d) (d_date d) (Some (d_checkIn d)) (checkOut a)
               (d_status d) (notes a) (d_location d) (d_isRemote d)
               (hoursWorked a).

(** [new Attendance(attendanceData)] *)
Definition new_Attendance (d : CheckInData) : IAttendance :=
  mkAttendance (d_employeeId d) (d_date d) (Some (d_checkIn d)) None
               (d_status d) None (d_location d) (d_isRemote d) None.

End Attendance.

Module AttendanceService.

Import Attendance.

Definition checkIn (host : Host) (coll : list IAttendance)
    (employeeId : Z) (location : option string) (isRemote : bool)
    : result (list IAttendance * IAttendance) :=
  let today := startOfDay (zone host) (clock host) in
  let now := clock host in
  let existingAttendance :=
    findOne (λ a, Attendance.employeeId a = employeeId ∧ date a = today) coll in
  match existingAttendance with
  | Some (_, mkAttendance _ _ (Some _) _ _ _ _ _ _) =>
      Throw (AppError "You have already checked in today" 400)
  | _ =>
      let workStartTime := startOfDay (zone host) (clock host) + 9 * MS_PER_HOUR in
      let isLate := workStartTime <? now in
      let attendanceData :=
        {| d_employeeId := employeeId;
           d_date := today;
           d_checkIn := now;
           d_status := if isLate then late else present;
           d_location := location;
           d_isRemote := isRemote |} in
      match existingAttendance with
      | Some (id, existing) => save coll (Some id) (assign existing attendanceData)
      | None => save coll None (new_Attendance attendanceData)
      end
  end.

Definition checkOut (host : Host) (coll : list IAttendance) (employeeId : Z)
    : result (list IAttendance * IAttendance) :=
  let today := startOfDay (zone host) (clock host) in
  let now := clock host in
  match findOne (λ a, Attendance.employeeId a = employeeId ∧ date a = today) coll with
  | None => Throw (AppError "No check-in record found for today" 400)
  | Some (id, attendance) =>
      match Attendance.checkIn attendance, Attendance.checkOut attendance with
      | None, _ => Throw (AppError "You must check in before checking out" 400)
      | Some _, Some _ => Throw (AppError "You have already checked out today" 400)
      | Some _, None => save coll (Some id) (set_checkOut (Some now) attendance)
      end
  end.

End AttendanceService.

(** ** Leave requests (models/leaveRequest.ts, services/leaveService.ts) *)

Module LeaveRequest.

Inductive LeaveType : Type :=
  annual | sick | maternity | paternity | personal | emergency.

Inductive Status : Type := pending | approved | rejected | cancelled.

#[global] Instance LeaveType_eq_dec : EqDecision LeaveType.
Proof. solve_decision. Defined.

#[global] Instance Status_eq_dec : EqDecision Status.
Proof. solve_decision. Defined.

(** The string a leave type is in the source; the key of [used]. *)
Definition leaveType_name (t : LeaveType) : string :=
  match t with
  | annual => "annual"
  | sick => "sick"
  | maternity => "maternity"
  | paternity => "paternity"
  | personal => "personal"
  | emergency => "emergency"
  end.

(** A stored leave request.  [daysRequested] is integer valued
    ([Math.ceil(...) + 1]) and kept in [Z]. *)
Record ILeaveRequest : Type := mkLeaveRequest {
  employeeId : Z;
  leaveType : LeaveType;
  startDate : Z;
  endDate : Z;
  reason : string;
  status : Status;
  approverId : option Z;
  approverComments : option string;
  attachments : option (list string);
  daysRequested : Z
}.

(** [z.infer<typeof leaveRequestSchema>], dates parsed. *)
Record LeaveRequestInput : Type := {
  in_employeeId : Z;
  in_leaveType : LeaveType;
  in_startDate : Z;
  in_endDate : Z;
  in_reason : string;
  in_status : Status;
  in_approverId : option Z;
  in_approverComments : option string;
  in_attachments : option (list string)
}.

(** [leaveRequestSchema.partial()]: every key may be absent. *)
Record LeaveRequestUpdate : Type := mkUpdate {
  up_employeeId : option Z;
  up_leaveType : option LeaveType;
  up_startDate : option Z;
  up_endDate : option Z;
  up_reason : option string;
  up_status : option Status;
  up_approverId : option Z;
  up_approverComments : option string;
  up_attachments : option (list string)
}.

Definition set_daysRequested (n : Z) (r : ILeaveRequest) : ILeaveRequest :=
  mkLeaveRequest (employeeId r) (leaveType r) (startDate r) (endDate r)
                 (reason r) (status r) (approverId r) (approverComments r)
                 (attachments r) n.

(** [this.isModified(path)]: a new document has every path it was built
    with modified; a loaded one those whose value was changed. *)
Definition isModified {A} `{EqDecision A} (path : ILeaveRequest → A)
    (stored : option ILeaveRequest) (doc : ILeaveRequest) : bool :=
  match stored with
  | None => true
  | Some old => bool_decide (path old ≠ path doc)
  end.

(** [LeaveRequestSchema.pre('save')] *)
Definition calculateDays (stored : option ILeaveRequest) (doc : ILeaveRequest)
    : ILeaveRequest :=
  if isModified startDate stored doc || isModified endDate stored doc then
    let diffTime := Z.abs (endDate doc - startDate doc) in
    set_daysRequested
      (Math_ceil (inject_Z diffTime / inject_Z (1000 * 60 * 60 * 24)) + 1) doc
  else doc.

(** The schema declares no unique index. *)
#[global] Instance schema : Schema ILeaveRequest := {|
  pre_save := calculateDays;
  unique_clash := λ _ _, False;
  unique_clash_dec := λ _ _, False_dec
|}.

(** A document as [new LeaveRequest(...)] makes it: the paths of the
    input, with [employeeId] set apart, and [daysRequested], which the
    input does not carry, undefined. *)
Record NewLeaveRequest : Type := {
  given : LeaveRequestInput;
  new_employeeId : Z;
  new_daysRequested : option Z
}.

(** [new LeaveRequest({ ...leaveData, employeeId, startDate, endDate })] *)
Definition new_LeaveRequest (leaveData : LeaveRequestInput) (employeeId' : Z)
    : NewLeaveRequest :=
  {| given := leaveData;
     new_employeeId := employeeId';
     new_daysRequested := None |}.

(** [daysRequested: { type: Number, required: true }]; the other required
    paths have a value in every input. *)
Definition defined (doc : NewLeaveRequest) : option ILeaveRequest :=
  daysRequested' ← new_daysRequested doc;
  Some (mkLeaveRequest (new_employeeId doc) (in_leaveType (given doc))
          (in_startDate (given doc)) (in_endDate (given doc))
          (in_reason (given doc)) (in_status (given doc))
          (in_approverId (given doc)) (in_approverComments (given doc))
          (in_attachments (given doc)) daysRequested').

(** [Object.assign(leaveRequest, updateData)] *)
Definition assign (r : ILeaveRequest) (u : LeaveRequestUpdate) : ILeaveRequest :=
  mkLeaveRequest
    (default (employeeId r) (up_employeeId u))
    (default (leaveType r) (up_leaveType u))
    (default (startDate r) (up_startDate u))
    (default (endDate r) (up_endDate u))
    (default (reason r) (up_reason u))
    (default (status r) (up_status u))
    (match up_approverId u with Some a => Some a | None => approverId r end)
    (match up_approverComments u with Some c => Some c | None => approverComments r end)
    (match up_attachments u with Some l => Some l | None => attachments r end)
    (daysRequested r).

Definition set_up_approverId (a : Z) (u : LeaveRequestUpdate) : LeaveRequestUpdate :=
  mkUpdate (up_employeeId u) (up_leaveType u) (up_startDate u) (up_endDate u)
           (up_reason u) (up_status u) (Some a) (up_approverComments u)
           (up_attachments u).

End LeaveRequest.

Module LeaveService.

Import LeaveRequest.

(** The filter of the overlap query of [createLeaveRequest]. *)
Definition overlaps (employeeId : Z) (leaveData : LeaveRequestInput)
    (r : ILeaveRequest) : Prop :=
  LeaveRequest.employeeId r = employeeId
  ∧ (status r = pending ∨ status r = approved)
  ∧ startDate r ≤ in_endDate leaveData
  ∧ in_startDate leaveData ≤ endDate r.

#[global] Instance overlaps_dec employeeId leaveData r :
  Decision (overlaps employeeId leaveData r).
Proof. unfold overlaps. apply _. Defined.

Definition createLeaveRequest (host : Host) (coll : list ILeaveRequest)
    (employeeId : Z) (leaveData : LeaveRequestInput)
    : result (list ILeaveRequest * ILeaveRequest) :=
  rethrow "Failed to create leave request"
    (_ ← validateEmployee host employeeId;
     match findOne (overlaps employeeId leaveData) coll with
     | Some _ =>
         Throw (AppError "You have an overlapping leave request for these dates" 400)
     | None =>
         leaveRequest ← validated defined (new_LeaveRequest leaveData employeeId);
         save coll None leaveRequest
     end).

Definition updateLeaveRequest (host : Host) (coll : list ILeaveRequest)
    (requestId : nat) (updateData : LeaveRequestUpdate) (userId : Z)
    : result (list ILeaveRequest * option ILeaveRequest) :=
  match findById coll requestId with
  | None => Ok (coll, None)
  | Some leaveRequest =>
      if bool_decide (employeeId leaveRequest ≠ userId)
         && negb (checkHRPermission host userId)
      then Throw (AppError "You can only update your own leave requests" 403)
      else
        updateData' ←
          match up_status updateData with
          | Some approved | Some rejected =>
              if checkHRPermission host userId
              then Ok (set_up_approverId userId updateData)
              else Throw (AppError
                            "Only HR managers can approve or reject leave requests" 403)
          | _ => Ok updateData
          end;
        '(coll', saved) ← save coll (Some requestId) (assign leaveRequest updateData');
        Ok (coll', Some saved)
  end.

(** The query of [getLeaveBalance]. *)
Definition counted (host : Host) (employeeId : Z) (r : ILeaveRequest) : Prop :=
  let currentYear := getFullYear (zone host) (clock host) in
  let startOfYear := newDate (zone host) currentYear 0 1 in
  let endOfYear := newDate (zone host) currentYear 11 31 in
  LeaveRequest.employeeId r = employeeId
  ∧ status r = approved
  ∧ startOfYear ≤ startDate r
  ∧ endDate r ≤ endOfYear.

#[global] Instance counted_dec host employeeId r :
  Decision (counted host employeeId r).
Proof. unfold counted. apply _. Defined.

Record LeaveBalance : Type := {
  annual : Z;
  sick : Z;
  personal : Z;
  used : gmap string Z
}.

(** The reducer: [acc[leave.leaveType] = (acc[leave.leaveType] || 0)
    + leave.daysRequested]. *)
Definition addUsed (acc : gmap string Z) (leave : ILeaveRequest) : gmap string Z :=
  <[leaveType_name (leaveType leave) :=
      or0 (acc !! leaveType_name (leaveType leave)) + daysRequested leave]> acc.

Definition getLeaveBalance (host : Host) (coll : list ILeaveRequest)
    (employeeId : Z) : LeaveBalance :=
  let approvedLeaves := filter (counted host employeeId) coll in
  let used := foldl addUsed ∅ approvedLeaves in
  {| annual := 21 - or0 (used !! "annual");
     sick := 10 - or0 (used !! "sick");
     personal := 5 - or0 (used !! "personal");
     used := used |}.

End LeaveService.

(** ** Payroll (models/payroll.ts, services/payrollService.ts) *)

Module Payroll.

Inductive Status : Type := draft | processed | paid | cancelled.

#[global] Instance Status_eq_dec : EqDecision Status.
Proof. solve_decision. Defined.

Record Deductions : Type := {
  tax : Q;
  insurance : Q;
  retirement : Q;
  other : Q
}.

(** A stored payroll record. *)
Record IPayroll : Type := mkPayroll {
  employeeId : Z;
  payPeriodStart : Z;
  payPeriodEnd : Z;
  baseSalary : Q;
  overtimeHours : Q;
  overtimeRate : Q;
  bonuses : Q;
  deductions : Deductions;
  grossPay : Q;
  totalDeductions : Q;
  netPay : Q;
  status : Status;
  paymentDate : option Z;
  notes : option string
}.

(** [z.infer<typeof payrollSchema>], dates parsed. *)
Record PayrollInput : Type := {
  in_employeeId : Z;
  in_payPeriodStart : Z;
  in_payPeriodEnd : Z;
  in_baseSalary : Q;
  in_overtimeHours : Q;
  in_overtimeRate : Q;
  in_bonuses : Q;
  in_deductions : Deductions;
  in_status : Status;
  in_paymentDate : option Z;
  in_notes : option string
}.

(** [payrollSchema.partial()]: every key may be absent. *)
Record PayrollUpdate : Type := {
  up_employeeId : option Z;
  up_payPeriodStart : option Z;
  up_payPeriodEnd : option Z;
  up_baseSalary : option Q;
  up_overtimeHours : option Q;
  up_overtimeRate : option Q;
  up_bonuses : option Q;
  up_deductions : option Deductions;
  up_status : option Status;
  up_paymentDate : option Z;
  up_notes : option string
}.

(** [PayrollSchema.pre('save')] *)
Definition calculatePay (p : IPayroll) : IPayroll :=
  let overtimePay := (overtimeHours p * overtimeRate p)%Q in
  let grossPay' := (baseSalary p + overtimePay + bonuses p)%Q in
  let totalDeductions' :=
    (tax (deductions p) + insurance (deductions p)
     + retirement (deductions p) + other (deductions p))%Q in
  let netPay' := (grossPay' - totalDeductions')%Q in
  mkPayroll (employeeId p) (payPeriodStart p) (payPeriodEnd p) (baseSalary p)
            (overtimeHours p) (overtimeRate p) (bonuses p) (deductions p)
            grossPay' totalDeductions' netPay'
            (status p) (paymentDate p) (notes p).

(** [PayrollSchema.index({ employeeId: 1, payPeriodStart: 1, payPeriodEnd: 1 },
    { unique: true })] *)
Definition same_period (a b : IPayroll) : Prop :=
  employeeId a = employeeId b
  ∧ payPeriodStart a = payPeriodStart b
  ∧ payPeriodEnd a = payPeriodEnd b.

#[global] Instance same_period_dec : RelDecision same_period.
Proof. intros a b. unfold same_period. apply _. Defined.

#[global] Instance schema : Schema IPayroll := {|
  pre_save := λ _, calculatePay;
  unique_clash := same_period
|}.

(** A document as [new Payroll(...)] makes it: the paths of the input, and
    [grossPay], [totalDeductions] and [netPay], which the input does not
    carry, undefined. *)
Record NewPayroll : Type := {
  given : PayrollInput;
  new_grossPay : option Q;
  new_totalDeductions : option Q;
  new_netPay : option Q
}.

(** [new Payroll({ ...payrollData, payPeriodStart, payPeriodEnd, paymentDate })] *)
Definition new_Payroll (payrollData : PayrollInput) : NewPayroll :=
  {| given := payrollData;
     new_grossPay := None;
     new_totalDeductions := None;
     new_netPay := None |}.

(** [grossPay], [totalDeductions] and [netPay] are
    [{ type: Number, required: true }]; the other required paths have a
    value in every input. *)
Definition defined (doc : NewPayroll) : option IPayroll :=
  grossPay' ← new_grossPay doc;
  totalDeductions' ← new_totalDeductions doc;
  netPay' ← new_netPay doc;
  Some (mkPayroll (in_employeeId (given doc)) (in_payPeriodStart (given doc))
          (in_payPeriodEnd (given doc)) (in_baseSalary (given doc))
          (in_overtimeHours (given doc)) (in_overtimeRate (given doc))
          (in_bonuses (given doc)) (in_deductions (given doc))
          grossPay' totalDeductions' netPay'
          (in_status (given doc)) (in_paymentDate (given doc))
          (in_notes (given doc))).

(** [Object.assign(payroll, updateData)], followed by the three date
    assignments of [updatePayroll], which set the same values again. *)
Definition assign (p : IPayroll) (u : PayrollUpdate) : IPayroll :=
  mkPayroll
    (default (employeeId p) (up_employeeId u))
    (default (payPeriodStart p) (up_payPeriodStart u))
    (default (payPeriodEnd p) (up_payPeriodEnd u))
    (default (baseSalary p) (up_baseSalary u))
    (default (overtimeHours p) (up_overtimeHours u))
    (default (overtimeRate p) (up_overtimeRate u))
    (default (bonuses p) (up_bonuses u))
    (default (deductions p) (up_deductions u))
    (grossPay p) (totalDeductions p) (netPay p)
    (default (status p) (up_status u))
    (match up_paymentDate u with Some d => Some d | None => paymentDate p end)
    (match up_notes u with Some n => Some n | None => notes p end).

Definition set_status (s : Status) (p : IPayroll) : IPayroll :=
  mkPayroll (employeeId p) (payPeriodStart p) (payPeriodEnd p) (baseSalary p)
            (overtimeHours p) (overtimeRate p) (bonuses p) (deductions p)
            (grossPay p) (totalDeductions p) (netPay p)
            s (paymentDate p) (notes p).

Definition set_paymentDate (d : option Z) (p : IPayroll) : IPayroll :=
  mkPayroll (employeeId p) (payPeriodStart p) (payPeriodEnd p) (baseSalary p)
            (overtimeHours p) (overtimeRate p) (bonuses p) (deductions p)
            (grossPay p) (totalDeductions p) (netPay p)
            (status p) d (notes p).

End Payroll.

Module PayrollService.

Import Payroll.

(** The filter of the duplicate query of [createPayroll]. *)
Definition samePeriodAs (payrollData : PayrollInput) (p : IPayroll) : Prop :=
  employeeId p = in_employeeId payrollData
  ∧ payPeriodStart p = in_payPeriodStart payrollData
  ∧ payPeriodEnd p = in_payPeriodEnd payrollData.

#[global] Instance samePeriodAs_dec payrollData p :
  Decision (samePeriodAs payrollData p).
Proof. unfold samePeriodAs. apply _. Defined.

Definition createPayroll (host : Host) (coll : list IPayroll)
    (payrollData : PayrollInput) : result (list IPayroll * IPayroll) :=
  rethrow "Failed to create payroll"
    (_ ← validateEmployee host (in_employeeId payrollData);
     match findOne (samePeriodAs payrollData) coll with
     | Some _ =>
         Throw (AppError "Payroll already exists for this employee and period" 400)
     | None =>
         payroll ← validated defined (new_Payroll payrollData);
         save coll None payroll
     end).

Record HoursData : Type := {
  totalHours : Q;
  regularHours : Q;
  hd_overtimeHours : Q
}.

(** The query of [calculateHoursWorked]. *)
Definition workedInPeriod (employeeId : Z) (startDate endDate : Z)
    (a : Attendance.IAttendance) : Prop :=
  Attendance.employeeId a = employeeId
  ∧ (startDate ≤ Attendance.date a ∧ Attendance.date a ≤ endDate)
  ∧ Attendance.hoursWorked a ≠ None.

#[global] Instance workedInPeriod_dec employeeId startDate endDate a :
  Decision (workedInPeriod employeeId startDate endDate a).
Proof.
  unfold workedInPeriod.
  destruct (Attendance.hoursWorked a); apply _.
Defined.

Definition calculateHoursWorked (attendances : list Attendance.IAttendance)
    (employeeId : Z) (startDate endDate : Z) : HoursData :=
  let attendance := filter (workedInPeriod employeeId startDate endDate) attendances in
  let totalHours :=
    foldl (λ sum record, (sum + default 0 (Attendance.hoursWorked record))%Q)
          0%Q attendance in
  let workingDays := Z.of_nat (length attendance) in
  let regularHours := Math_min totalHours (inject_Z (workingDays * 8)) in
  let overtimeHours := Math_max 0 (totalHours - regularHours) in
  {| totalHours := totalHours;
     regularHours := regularHours;
     hd_overtimeHours := overtimeHours |}.

Definition calculateBaseSalary (host : Host) (annualSalary : Q)
    (startDate endDate : Z) : Q :=
  let daysInPeriod := diff_days (zone host) endDate startDate + 1 in
  let daysInYear :=
    if isLeapYear (getFullYear (zone host) (clock host)) then 366 else 365 in
  ((annualSalary / inject_Z daysInYear) * inject_Z daysInPeriod)%Q.

Definition calculateDeductions (grossPay : Q) : Deductions :=
  {| tax := (grossPay * (22 # 100))%Q;
     insurance := (grossPay * (5 # 100))%Q;
     retirement := (grossPay * (6 # 100))%Q;
     other := 0%Q |}.

(** The [payrollData] that [generatePayroll] works out and hands to
    [createPayroll]. *)
Definition generatedPayrollData (host : Host)
    (attendances : list Attendance.IAttendance) (employee : Employee)
    (employeeId : Z) (payPeriodStart payPeriodEnd : Z) : PayrollInput :=
  let hoursData :=
    calculateHoursWorked attendances employeeId payPeriodStart payPeriodEnd in
  let baseSalary :=
    calculateBaseSalary host (salary employee) payPeriodStart payPeriodEnd in
  let overtimeHours := Math_max 0 (totalHours hoursData - regularHours hoursData) in
  let overtimeRate := ((salary employee / 2080) * (3 # 2))%Q in
  let deductions := calculateDeductions (baseSalary + overtimeHours * overtimeRate) in
  {| in_employeeId := employeeId;
     in_payPeriodStart := payPeriodStart;
     in_payPeriodEnd := payPeriodEnd;
     in_baseSalary := baseSalary;
     in_overtimeHours := overtimeHours;
     in_overtimeRate := overtimeRate;
     in_bonuses := 0;
     in_deductions := deductions;
     in_status := draft;
     in_paymentDate := None;
     in_notes := None |}.

Definition generatePayroll (host : Host)
    (attendances : list Attendance.IAttendance) (coll : list IPayroll)
    (employeeId : Z) (payPeriodStart payPeriodEnd : Z)
    : result (list IPayroll * IPayroll) :=
  rethrow "Failed to generate payroll"
    (employee ← getEmployeeData host employeeId;
     createPayroll host coll
       (generatedPayrollData host attendances employee employeeId
          payPeriodStart payPeriodEnd)).

Definition updatePayroll (host : Host) (coll : list IPayroll)
    (payrollId : nat) (updateData : PayrollUpdate) (userId : Z)
    : result (list IPayroll * option IPayroll) :=
  match findById coll payrollId with
  | None => Ok (coll, None)
  | Some payroll =>
      if negb (checkHRPermission host userId)
      then Throw (AppError "Only HR managers can update payroll records" 403)
      else if decide (status payroll = paid)
      then Throw (AppError "Cannot update paid payroll records" 400)
      else
        '(coll', saved) ← save coll (Some payrollId) (assign payroll updateData);
        Ok (coll', Some saved)
  end.

Definition processPayroll (host : Host) (coll : list IPayroll)
    (payrollId : nat) (userId : Z)
    : result (list IPayroll * option IPayroll) :=
  match findById coll payrollId with
  | None => Ok (coll, None)
  | Some payroll =>
      if negb (checkHRPermission host userId)
      then Throw (AppError "Only HR managers can process payroll" 403)
      else if decide (status payroll ≠ draft)
      then Throw (AppError "Only draft payrolls can be processed" 400)
      else
        '(coll', saved) ← save coll (Some payrollId) (set_status processed payroll);
        Ok (coll', Some saved)
  end.

Definition markPayrollAsPaid (host : Host) (coll : list IPayroll)
    (payrollId : nat) (userId : Z) (paymentDate : option Z)
    : result (list IPayroll * option IPayroll) :=
  match findById coll payrollId with
  | None => Ok (coll, None)
  | Some payroll =>
      if negb (checkHRPermission host userId)
      then Throw (AppError "Only HR managers can mark payroll as paid" 403)
      else if decide (status payroll ≠ processed)
      then Throw (AppError "Only processed payrolls can be marked as paid" 400)
      else
        let payroll' :=
          set_paymentDate
            (Some (match paymentDate with Some d => d | None => clock host end))
            (set_status paid payroll) in
        '(coll', saved) ← save coll (Some payrollId) payroll';
        Ok (coll', Some saved)
  end.

End PayrollService.

(** ** Further operations of the services *)

(** *** attendanceService.ts: updateAttendance, markAbsent,
    calculateAttendanceSummary *)

Module AttendanceRecords.

Import Attendance.

(** [attendanceSchema.partial()]: every key may be absent. *)
Record AttendanceUpdate : Type := mkAttendanceUpdate {
  up_employeeId : option Z;
  up_date : option Z;
  up_checkIn : option Z;
  up_checkOut : option Z;
  up_status : option Status;
  up_notes : option string;
  up_location : option string;
  up_isRemote : option bool
}.

(** [Object.assign(attendance, updateData)], followed by the three date
    assignments of [updateAttendance], which set the same values again. *)
Definition assignUpdate (a : IAttendance) (u : AttendanceUpdate) : IAttendance :=
  mkAttendance
    (default (employeeId a) (up_employeeId u))
    (default (date a) (up_date u))
    (match up_checkIn u with Some t => Some t | None => checkIn a end)
    (match up_checkOut u with Some t => Some t | None => checkOut a end)
    (default (status a) (up_status u))
    (match up_notes u with Some n => Some n | None => notes a end)
    (match up_location u with Some l => Some l | None => location a end)
    (default (isRemote a) (up_isRemote u))
    (hoursWorked a).

(** The branch on [attendance.employeeId !== userId] is empty in the source:
    the update goes ahead for every caller. *)
Definition updateAttendance (coll : list IAttendance) (attendanceId : nat)
    (updateData : AttendanceUpdate) (userId : Z)
    : result (list IAttendance * option IAttendance) :=
  match findById coll attendanceId with
  | None => Ok (coll, None)
  | Some attendance =>
      '(coll', saved) ← save coll (Some attendanceId) (assignUpdate attendance updateData);
      Ok (coll', Some saved)
  end.

(** [existingAttendance.status = 'absent'; existingAttendance.notes = reason] *)
Definition set_absent (reason : option string) (a : IAttendance) : IAttendance :=
  mkAttendance (employeeId a) (date a) (checkIn a) (checkOut a) absent
               reason (location a) (isRemote a) (hoursWorked a).

Definition markAbsent (host : Host) (coll : list IAttendance)
    (employeeId : Z) (date : Z) (reason : option string)
    : result (list IAttendance * IAttendance) :=
  let targetDate := startOfDay (zone host) date in
  match findOne (λ a, Attendance.employeeId a = employeeId
                      ∧ Attendance.date a = targetDate) coll with
  | Some (id, existingAttendance) =>
      save coll (Some id) (set_absent reason existingAttendance)
  | None =>
      save coll None
        (mkAttendance employeeId targetDate None None absent reason None false None)
  end.

Record Summary : Type := mkSummary {
  totalDays : Z;
  presentDays : Z;
  absentDays : Z;
  lateDays : Z;
  totalHours : Q
}.

(** The reducer of [calculateAttendanceSummary]; [if (record.hoursWorked)]
    passes for a number other than 0. *)
Definition addRecord (summary : Summary) (record : IAttendance) : Summary :=
  let totalDays' := totalDays summary + 1 in
  let presentDays' :=
    match status record with
    | present | late => presentDays summary + 1
    | _ => presentDays summary
    end in
  let lateDays' :=
    match status record with
    | late => lateDays summary + 1
    | _ => lateDays summary
    end in
  let absentDays' :=
    match status record with
    | absent => absentDays summary + 1
    | _ => absentDays summary
    end in
  let totalHours' :=
    match hoursWorked record with
    | Some h => if Qeq_bool h 0 then totalHours summary
                else (totalHours summary + h)%Q
    | None => totalHours summary
    end in
  mkSummary totalDays' presentDays' absentDays' lateDays' totalHours'.

Definition calculateAttendanceSummary (attendance : list IAttendance) : Summary :=
  foldl addRecord (mkSummary 0 0 0 0 0) attendance.

(** [moment(t).startOf('month')] and [moment(t).endOf('month')] in the
    host's zone. *)
Record MonthCalendar : Type := {
  startOfMonth : Z → Z;
  endOfMonth : Z → Z
}.

Record AttendancePage : Type := {
  attendance : list IAttendance;
  total : Z;
  page : positive;
  totalPages : Z;
  summary : Summary
}.

(** The filter of [getAttendanceByEmployee]. *)
Definition inDates (employeeId : Z) (from upto : Z) (a : IAttendance) : Prop :=
  Attendance.employeeId a = employeeId
  ∧ from ≤ Attendance.date a ∧ Attendance.date a ≤ upto.

#[global] Instance inDates_dec employeeId from upto a :
  Decision (inDates employeeId from upto a).
Proof. unfold inDates. apply _. Defined.

(** [.sort({ date: -1 })] *)
Definition newerFirst (a b : IAttendance) : Prop :=
  Attendance.date b ≤ Attendance.date a.

#[global] Instance newerFirst_dec : RelDecision newerFirst.
Proof. intros a b. unfold newerFirst. apply _. Defined.

#[global] Instance newerFirst_trans : Transitive newerFirst.
Proof. intros a b c. unfold newerFirst. lia. Qed.

#[global] Instance newerFirst_total : Total newerFirst.
Proof. intros a b. unfold newerFirst. lia. Qed.

(** The date filter of [getAttendanceByEmployee]: the given range, or else
    the current month. *)
Definition dateFilter (host : Host) (months : MonthCalendar)
    (startDate endDate : option Z) : Z * Z :=
  match startDate, endDate with
  | Some s, Some e => (s, e)
  | _, _ => (startOfMonth months (clock host), endOfMonth months (clock host))
  end.

(** [page] and [limit] range over the positive integers; the store refuses
    a negative skip and reads a limit of 0 as no limit.  The records of one
    employee have distinct dates under the unique index, which fixes the
    order of the sort. *)
Definition getAttendanceByEmployee (host : Host) (months : MonthCalendar)
    (coll : list IAttendance) (employeeId : Z)
    (startDate endDate : option Z) (page limit : positive) : AttendancePage :=
  let skip := ((Pos.to_nat page - 1) * Pos.to_nat limit)%nat in
  let dateFilter := dateFilter host months startDate endDate in
  let matching := filter (inDates employeeId dateFilter.1 dateFilter.2) coll in
  let attendance :=
    take (Pos.to_nat limit) (drop skip (merge_sort newerFirst matching)) in
  let total := Z.of_nat (length matching) in
  {| attendance := attendance;
     total := total;
     page := page;
     totalPages := Math_ceil (inject_Z total / inject_Z (Z.pos limit));
     summary := calculateAttendanceSummary matching |}.

End AttendanceRecords.

(** *** leaveService.ts: deleteLeaveRequest *)

Module LeaveDeletion.

Import LeaveRequest.

(** [LeaveRequest.findByIdAndDelete(requestId)] takes the document out of
    the list, so the documents after it move up one position. *)
Definition deleteLeaveRequest (coll : list ILeaveRequest) (requestId : nat)
    (userId : Z) : result (list ILeaveRequest * bool) :=
  match findById coll requestId with
  | None => Ok (coll, false)
  | Some leaveRequest =>
      if bool_decide (employeeId leaveRequest ≠ userId)
         || bool_decide (status leaveRequest ≠ pending)
      then Throw (AppError "You can only delete your own pending leave requests" 403)
      else Ok (delete requestId coll, true)
  end.

End LeaveDeletion.

(** *** payrollService.ts: getPayrollSummary *)

Module PayrollReports.

(** The string a status is in the source; the key of [statusBreakdown]. *)
Definition status_name (s : Payroll.Status) : string :=
  match s with
  | Payroll.draft => "draft"
  | Payroll.processed => "processed"
  | Payroll.paid => "paid"
  | Payroll.cancelled => "cancelled"
  end.

Record PayrollSummary : Type := {
  totalPayrolls : Z;
  totalGrossPay : Q;
  totalNetPay : Q;
  totalDeductions : Q;
  statusBreakdown : gmap string Z;
  averagePay : Q
}.

(** The accumulator of the reducer: the four keys it is started with. *)
Record Totals : Type := mkTotals {
  acc_totalGrossPay : Q;
  acc_totalNetPay : Q;
  acc_totalDeductions : Q;
  acc_statusBreakdown : gmap string Z
}.

Definition addPayroll (acc : Totals) (payroll : Payroll.IPayroll) : Totals :=
  mkTotals
    (acc_totalGrossPay acc + Payroll.grossPay payroll)%Q
    (acc_totalNetPay acc + Payroll.netPay payroll)%Q
    (acc_totalDeductions acc + Payroll.totalDeductions payroll)%Q
    (<[status_name (Payroll.status payroll) :=
         or0 (acc_statusBreakdown acc !! status_name (Payroll.status payroll)) + 1]>
       (acc_statusBreakdown acc)).

(** The query of [getPayrollSummary]. *)
Definition inRange (startDate endDate : Z) (p : Payroll.IPayroll) : Prop :=
  startDate ≤ Payroll.payPeriodStart p ∧ Payroll.payPeriodEnd p ≤ endDate.

#[global] Instance inRange_dec startDate endDate p :
  Decision (inRange startDate endDate p).
Proof. unfold inRange. apply _. Defined.

Definition getPayrollSummary (coll : list Payroll.IPayroll) (startDate endDate : Z)
    : PayrollSummary :=
  let payrolls := filter (inRange startDate endDate) coll in
  let summary := foldl addPayroll (mkTotals 0 0 0 ∅) payrolls in
  {| totalPayrolls := Z.of_nat (length payrolls);
     totalGrossPay := acc_totalGrossPay summary;
     totalNetPay := acc_totalNetPay summary;
     totalDeductions := acc_totalDeductions summary;
     statusBreakdown := acc_statusBreakdown summary;
     averagePay :=
       if 0 <? Z.of_nat (length payrolls)
       then (acc_totalNetPay summary / inject_Z (Z.of_nat (length payrolls)))%Q
       else 0%Q |}.

End PayrollReports.

(** *** middleware/auth.ts: restrictTo *)

Module Auth.

(** [req.user], as [protect] fills it in from the employee service. *)
Record RequestUser : Type := {
  id : Z;
  email : string;
  firstName : string;
  lastName : string;
  department : string;
  position : string
}.

Definition restrictTo (roles : list string) (user : option RequestUser)
    : result unit :=
  match user with
  | Some u =>
      if bool_decide (toLowerCase (position u) ∈ roles)
      then Ok tt
      else Throw (AppError "You do not have permission to perform this action" 403)
  | None => Throw (AppError "You do not have permission to perform this action" 403)
  end.

End Auth.

(** ** Vocabulary of the specification *)

Module PayrollSpec.

Import Payroll.

(** The three derived amounts of a payroll record agree with its inputs. *)
Definition amounts_agree (p : IPayroll) : Prop :=
  grossPay p = (baseSalary p + overtimeHours p * overtimeRate p + bonuses p)%Q
  ∧ totalDeductions p =
      (tax (deductions p) + insurance (deductions p)
       + retirement (deductions p) + other (deductions p))%Q
  ∧ netPay p = (grossPay p - totalDeductions p)%Q.

(** The operations of the payroll service that save a record. *)
Inductive Operation : Type :=
| CreatePayroll (payrollData : PayrollInput)
| GeneratePayroll (employeeId : Z) (payPeriodStart payPeriodEnd : Z)
| UpdatePayroll (payrollId : nat) (updateData : PayrollUpdate) (userId : Z)
| ProcessPayroll (payrollId : nat) (userId : Z)
| MarkPayrollAsPaid (payrollId : nat) (userId : Z) (paymentDate : option Z).

Definition perform (host : Host) (attendances : list Attendance.IAttendance)
    (coll : list IPayroll) (op : Operation)
    : result (list IPayroll * option IPayroll) :=
  match op with
  | CreatePayroll payrollData =>
      '(coll', p) ← PayrollService.createPayroll host coll payrollData;
      Ok (coll', Some p)
  | GeneratePayroll employeeId payPeriodStart payPeriodEnd =>
      '(coll', p) ← PayrollService.generatePayroll host attendances coll
                      employeeId payPeriodStart payPeriodEnd;
      Ok (coll', Some p)
  | UpdatePayroll payrollId updateData userId =>
      PayrollService.updatePayroll host coll payrollId updateData userId
  | ProcessPayroll payrollId userId =>
      PayrollService.processPayroll host coll payrollId userId
  | MarkPayrollAsPaid payrollId userId paymentDate =>
      PayrollService.markPayrollAsPaid host coll payrollId userId paymentDate
  end.

Definition sumQ (l : list Q) : Q := foldr Qplus 0%Q l.

(** The attendance records of an employee dated within a pay period. *)
Definition inPeriod (employeeId : Z) (start finish : Z)
    (a : Attendance.IAttendance) : Prop :=
  Attendance.employeeId a = employeeId
  ∧ start ≤ Attendance.date a ∧ Attendance.date a ≤ finish.

#[global] Instance inPeriod_dec employeeId start finish a :
  Decision (inPeriod employeeId start finish a).
Proof. unfold inPeriod. apply _. Defined.


End PayrollSpec.

Module CalendarSpec.

(** The Gregorian rule, with the mathematical remainder. *)
Definition leap (year : Z) : Prop :=
  (year mod 4 = 0 ∧ year mod 100 ≠ 0) ∨ year mod 400 = 0.

Definition daysInYear (year : Z) : Z :=
  if decide (leap year) then 366 else 365.

(** Whole days from [start] to [finish] on the local wall clock (a change
    of UTC offset between the two is taken out), both ends counted. *)
Definition daysInclusive (cal : Calendar) (start finish : Z) : Z :=
  Z.quot (finish - start + (utcOffset cal finish - utcOffset cal start) * 60000)
         MS_PER_DAY
  + 1.

End CalendarSpec.

Module LeaveSpec.

Import LeaveRequest.

(** [k] is the ceiling of [ms] milliseconds counted in days. *)
Definition ceil_days (ms k : Z) : Prop :=
  (k - 1) * MS_PER_DAY < ms ∧ ms ≤ k * MS_PER_DAY.

(** [daysRequested = ceil(|endDate - startDate| in days) + 1]. *)
Definition days_counted (r : ILeaveRequest) : Prop :=
  ∃ k, ceil_days (Z.abs (endDate r - startDate r)) k ∧ daysRequested r = k + 1.

Definition active (r : ILeaveRequest) : Prop :=
  status r = pending ∨ status r = approved.

Definition ranges_overlap (a b : ILeaveRequest) : Prop :=
  startDate a ≤ endDate b ∧ startDate b ≤ endDate a.

(** No employee holds two pending or approved requests with overlapping
    ranges. *)
Definition no_overlap (coll : list ILeaveRequest) : Prop :=
  ∀ i j a b,
    i ≠ j → coll !! i = Some a → coll !! j = Some b →
    employeeId a = employeeId b → active a → active b →
    ¬ ranges_overlap a b.

Definition sumZ (l : list Z) : Z := foldr Z.add 0 l.

(** A request lies within the current year as [getLeaveBalance] bounds
    it: from [new Date(year, 0, 1)] to [new Date(year, 11, 31)]. *)
Definition withinYear (host : Host) (r : ILeaveRequest) : Prop :=
  newDate (zone host) (getFullYear (zone host) (clock host)) 0 1 ≤ startDate r
  ∧ endDate r ≤ newDate (zone host) (getFullYear (zone host) (clock host)) 11 31.

(** A request lies within the host's current calendar year: from the
    first instant of 1 January to the last of 31 December. *)
Definition inCalendarYear (host : Host) (r : ILeaveRequest) : Prop :=
  newDate (zone host) (getFullYear (zone host) (clock host)) 0 1 ≤ startDate r
  ∧ endDate r < newDate (zone host) (getFullYear (zone host) (clock host) + 1) 0 1.

Definition approvedOfType (host : Host) (employeeId' : Z) (t : LeaveType)
    (r : ILeaveRequest) : Prop :=
  employeeId r = employeeId' ∧ status r = approved ∧ leaveType r = t
  ∧ withinYear host r.

#[global] Instance approvedOfType_dec host employeeId' t r :
  Decision (approvedOfType host employeeId' t r).
Proof. unfold approvedOfType, withinYear. apply _. Defined.

(** Days of approved leave of one type taken by an employee in the
    current year. *)
Definition approvedDays (host : Host) (coll : list ILeaveRequest)
    (employeeId' : Z) (t : LeaveType) : Z :=
  sumZ (daysRequested <$> filter (approvedOfType host employeeId' t) coll).

End LeaveSpec.

Module AttendanceSpec.

Import Attendance.

(** The unique index on (employeeId, date) holds of the collection. *)
Definition unique_days (coll : list IAttendance) : Prop :=
  ∀ i j a b, coll !! i = Some a → coll !! j = Some b → same_day a b → i = j.

(** The employee's record of the current day. *)
Definition today's (host : Host) (employeeId' : Z) (a : IAttendance) : Prop :=
  employeeId a = employeeId' ∧ date a = startOfDay (zone host) (clock host).

Definition checkedInToday (host : Host) (coll : list IAttendance)
    (employeeId' : Z) : Prop :=
  ∃ a, a ∈ coll ∧ today's host employeeId' a ∧ is_Some (checkIn a).

(** A check-in of the current day that has no check-out yet. *)
Definition openToday (host : Host) (coll : list IAttendance)
    (employeeId' : Z) (checkedIn : Z) : Prop :=
  ∃ a, a ∈ coll ∧ today's host employeeId' a
       ∧ checkIn a = Some checkedIn ∧ checkOut a = None.

(** The number [n / 100]: the double nearest to it. *)
Definition hundredth (n : Z) : Q := js_div (inject_Z n) 100.

(** [h] is [x] rounded to two decimals, halves upwards. *)
Definition rounded2 (x h : Q) : Prop :=
  ∃ n : Z, h = hundredth n
           ∧ (x * 100 - (1 # 2) < inject_Z n)%Q
           ∧ (inject_Z n <= x * 100 + (1 # 2))%Q.

(** [h] is a multiple of 0.01 nearest to [x]: as [rounded2], but an [x]
    halfway between two hundredths may go either way. *)
Definition nearest2 (x h : Q) : Prop :=
  ∃ n : Z, h = hundredth n
           ∧ (x * 100 - (1 # 2) <= inject_Z n)%Q
           ∧ (inject_Z n <= x * 100 + (1 # 2))%Q.

Definition elapsedHours (checkedIn checkedOut : Z) : Q :=
  (inject_Z (checkedOut - checkedIn) / 3600000)%Q.

(** The stamps are less than 2^51 ms (some 71000 years) apart. *)
Definition near (checkedIn checkedOut : Z) : Prop :=
  Z.abs (checkedOut - checkedIn) < 2 ^ 51.

(** The time of day on the local wall clock, in milliseconds since
    midnight, and whether it is past 09:00. *)
Definition timeOfDay (cal : Calendar) (t : Z) : Z :=
  (t + utcOffset cal t * 60000) mod MS_PER_DAY.

Definition after_nine (cal : Calendar) (t : Z) : Prop :=
  9 * MS_PER_HOUR < timeOfDay cal t.

End AttendanceSpec.

(** ** Sample data for the worked examples *)

(** The instant [y]-[m]-[d]T[hh]:[mm]:00.000Z. *)
Definition utc_time (y m d hh mm : Z) : Z :=
  days_from_civil y m d * MS_PER_DAY + hh * MS_PER_HOUR + mm * 60000.

Definition staff (id : Z) : option Employee :=
  if id =? 1 then Some {| salary := 75000; position := "Software Engineer" |}
  else if id =? 2 then Some {| salary := 90000; position := "HR Manager" |}
  else None.

(** A host in UTC whose clock reads [t]. *)
Definition host_at (t : Z) : Host :=
  {| clock := t; zone := utc; directory := staff |}.

(** The host on 1 February 2023. *)
Definition february_2023 : Host := host_at (utc_time 2023 2 1 10 0).

(** A draft payroll on record, with the amounts the hook gives it, and an
    update that carries a status and nothing else. *)
Definition draft_payroll : Payroll.IPayroll :=
  Payroll.calculatePay
    (Payroll.mkPayroll 1 (utc_time 2023 1 1 0 0) (utc_time 2023 1 15 0 0)
       3000 0 0 0
       {| Payroll.tax := 660; Payroll.insurance := 150;
          Payroll.retirement := 180; Payroll.other := 0 |}
       0 0 0 Payroll.draft None None).

(** An update that grants a bonus of 250. *)
Definition a_bonus : Payroll.PayrollUpdate :=
  {| Payroll.up_employeeId := None;
     Payroll.up_payPeriodStart := None;
     Payroll.up_payPeriodEnd := None;
     Payroll.up_baseSalary := None;
     Payroll.up_overtimeHours := None;
     Payroll.up_overtimeRate := None;
     Payroll.up_bonuses := Some 250%Q;
     Payroll.up_deductions := None;
     Payroll.up_status := None;
     Payroll.up_paymentDate := None;
     Payroll.up_notes := None |}.

Definition only_status (s : Payroll.Status) : Payroll.PayrollUpdate :=
  {| Payroll.up_employeeId := None;
     Payroll.up_payPeriodStart := None;
     Payroll.up_payPeriodEnd := None;
     Payroll.up_baseSalary := None;
     Payroll.up_overtimeHours := None;
     Payroll.up_overtimeRate := None;
     Payroll.up_bonuses := None;
     Payroll.up_deductions := None;
     Payroll.up_status := Some s;
     Payroll.up_paymentDate := None;
     Payroll.up_notes := None |}.

(** Leave of employee 1 in January 2024: an input from day [d1] to day [d2],
    the request it is on record as, and an update that moves a request to
    those days. *)
Definition january_2024 : Host := host_at (utc_time 2024 1 5 8 0).

Definition leave_jan (d1 d2 : Z) : LeaveRequest.LeaveRequestInput :=
  {| LeaveRequest.in_employeeId := 1;
     LeaveRequest.in_leaveType := LeaveRequest.annual;
     LeaveRequest.in_startDate := utc_time 2024 1 d1 0 0;
     LeaveRequest.in_endDate := utc_time 2024 1 d2 0 0;
     LeaveRequest.in_reason := "family visit abroad";
     LeaveRequest.in_status := LeaveRequest.pending;
     LeaveRequest.in_approverId := None;
     LeaveRequest.in_approverComments := None;
     LeaveRequest.in_attachments := None |}.

Definition on_record (d1 d2 : Z) : LeaveRequest.ILeaveRequest :=
  LeaveRequest.calculateDays None
    (LeaveRequest.mkLeaveRequest 1 LeaveRequest.annual
       (utc_time 2024 1 d1 0 0) (utc_time 2024 1 d2 0 0)
       "family visit abroad" LeaveRequest.pending None None None 0).



Definition move_to (d1 d2 : Z) : LeaveRequest.LeaveRequestUpdate :=
  LeaveRequest.mkUpdate None None
    (Some (utc_time 2024 1 d1 0 0)) (Some (utc_time 2024 1 d2 0 0))
    None None None None None.

(** Monday 4 March 2024 at 09:15 and at 17:42, UTC. *)
Definition monday_0915 : Host := host_at (utc_time 2024 3 4 9 15).
Definition monday_1742 : Host := host_at (utc_time 2024 3 4 17 42).

(** The same Monday at 09:00:00, at 09:00:18, at 10:00:18 and at 10:00:54,
    UTC. *)
Definition monday_0900 : Host := host_at (utc_time 2024 3 4 9 0).
Definition monday_090018 : Host := host_at (utc_time 2024 3 4 9 0 + 18000).
Definition monday_100018 : Host := host_at (utc_time 2024 3 4 10 0 + 18000).
Definition monday_100054 : Host := host_at (utc_time 2024 3 4 10 0 + 54000).

(** The calendar of a host in Berlin in 2024: an hour east of UTC, and two
    hours from 31 March 01:00 UTC to 27 October 01:00 UTC.  Midnight on the
    wall clock is never within an hour of a change of offset. *)
Definition berlin_offset (t : Z) : Z :=
  if (utc_time 2024 3 31 1 0 <=? t) && (t <? utc_time 2024 10 27 1 0)
  then 120 else 60.

Definition berlin_midnight (wall : Z) : Z :=
  wall - berlin_offset (wall - 60 * 60000) * 60000.

Definition berlin_2024 : Calendar := {|
  utcOffset := berlin_offset;
  startOfDay := λ t,
    let wall := t + berlin_offset t * 60000 in
    berlin_midnight (wall - wall mod MS_PER_DAY);
  getFullYear := λ t, year_of_days ((t + berlin_offset t * 60000) / MS_PER_DAY);
  newDate := λ year monthIndex day,
    let year' := if (0 <=? year) && (year <=? 99) then 1900 + year else year in
    berlin_midnight (days_from_civil year' (monthIndex + 1) day * MS_PER_DAY)
|}.

(** Sunday 31 March 2024 in Berlin, the day the clocks go from 02:00 to
    03:00, at 09:15 on the wall clock (07:15 UTC). *)
Definition berlin_0915 : Host :=
  {| clock := utc_time 2024 3 31 7 15; zone := berlin_2024; directory := staff |}.

(** The record of employee 1's check-in at 09:15 that Monday. *)
Definition checked_in_0915 : Attendance.IAttendance :=
  Attendance.calculateHours
    (Attendance.new_Attendance
       {| Attendance.d_employeeId := 1;
          Attendance.d_date := startOfDay utc (clock monday_0915);
          Attendance.d_checkIn := clock monday_0915;
          Attendance.d_status := Attendance.late;
          Attendance.d_location := None;
          Attendance.d_isRemote := false |}).

(** A closed attendance record of employee 1 for a day of January 2023
    with [h] hours worked. *)
Definition worked (day : Z) (h : Q) : Attendance.IAttendance :=
  Attendance.mkAttendance 1 (utc_time 2023 1 day 0 0)
    (Some (utc_time 2023 1 day 8 0)) (Some (utc_time 2023 1 day 18 0))
    Attendance.present None None false (Some h).

(** An approved leave of employee 1 from 30 December 2024 to 2 January
    2025, and the clock in mid 2024 and mid 2025. *)
Definition new_year_leave : LeaveRequest.ILeaveRequest :=
  LeaveRequest.calculateDays None
    (LeaveRequest.mkLeaveRequest 1 LeaveRequest.annual
       (utc_time 2024 12 30 0 0) (utc_time 2025 1 2 0 0)
       "new year abroad" LeaveRequest.approved (Some 2) None None 0).

Definition june_2024 : Z := utc_time 2024 6 1 0 0.
Definition june_2025 : Z := utc_time 2025 6 1 0 0.

(** An approved leave of employee 1 from 10 to 12 January 2024. *)
Definition approved_jan : LeaveRequest.ILeaveRequest :=
  LeaveRequest.calculateDays None
    (LeaveRequest.mkLeaveRequest 1 LeaveRequest.annual
       (utc_time 2024 1 10 0 0) (utc_time 2024 1 12 0 0)
       "family visit abroad" LeaveRequest.approved (Some 2) None None 0).

(** The host on 3 March 2025. *)
Definition march_2025 : Host := host_at (utc_time 2025 3 3 10 0).

(** An approved leave of employee 1 on 31 December 2024, from 09:00 to
    17:00. *)
Definition last_day_leave : LeaveRequest.ILeaveRequest :=
  LeaveRequest.calculateDays None
    (LeaveRequest.mkLeaveRequest 1 LeaveRequest.annual
       (utc_time 2024 12 31 9 0) (utc_time 2024 12 31 17 0)
       "moving to a new flat" LeaveRequest.approved (Some 2) None None 0).

(** The same leave on 30 December 2024. *)
Definition day_before_last_leave : LeaveRequest.ILeaveRequest :=
  LeaveRequest.calculateDays None
    (LeaveRequest.mkLeaveRequest 1 LeaveRequest.annual
       (utc_time 2024 12 30 9 0) (utc_time 2024 12 30 17 0)
       "moving to a new flat" LeaveRequest.approved (Some 2) None None 0).

(** ** Vocabulary of the further properties *)

Module StoreSpec.

(** The schema's unique index holds of a collection: no two documents
    clash. *)
Definition unique_index {D} `{Schema D} (coll : list D) : Prop :=
  ∀ i j a b, coll !! i = Some a → coll !! j = Some b → unique_clash a b → i = j.

End StoreSpec.

Module AttendanceOps.

Import Attendance.

(** The operations of the attendance service that save a record, each with
    the host it runs on. *)
Inductive Operation : Type :=
| CheckIn (host : Host) (employeeId : Z) (location : option string) (isRemote : bool)
| CheckOut (host : Host) (employeeId : Z)
| UpdateAttendance (attendanceId : nat)
    (updateData : AttendanceRecords.AttendanceUpdate) (userId : Z)
| MarkAbsent (host : Host) (employeeId : Z) (date : Z) (reason : option string).

Definition perform (coll : list IAttendance) (op : Operation)
    : result (list IAttendance * option IAttendance) :=
  match op with
  | CheckIn host employeeId location isRemote =>
      '(coll', a) ← AttendanceService.checkIn host coll employeeId location isRemote;
      Ok (coll', Some a)
  | CheckOut host employeeId =>
      '(coll', a) ← AttendanceService.checkOut host coll employeeId;
      Ok (coll', Some a)
  | UpdateAttendance attendanceId updateData userId =>
      AttendanceRecords.updateAttendance coll attendanceId updateData userId
  | MarkAbsent host employeeId date reason =>
      '(coll', a) ← AttendanceRecords.markAbsent host coll employeeId date reason;
      Ok (coll', Some a)
  end.

(** A record with both stamps (less than 2^51 ms apart) has the hours
    between them to two decimals: a multiple of 0.01 nearest to them. *)
Definition hours_agree (a : IAttendance) : Prop :=
  ∀ checkedIn checkedOut,
    checkIn a = Some checkedIn → checkOut a = Some checkedOut →
    AttendanceSpec.near checkedIn checkedOut →
    ∃ h, hoursWorked a = Some h
         ∧ AttendanceSpec.nearest2 (AttendanceSpec.elapsedHours checkedIn checkedOut) h.

(** The record markAbsent makes when the day has none. *)
Definition absent_record (employeeId' target : Z) (reason : option string)
    : IAttendance :=
  mkAttendance employeeId' target None None absent reason None false None.

End AttendanceOps.

Module ReportSpec.

Import Attendance.

(** How many records of a list satisfy [P]. *)
Definition count (P : IAttendance → Prop) `{!∀ a, Decision (P a)}
    (l : list IAttendance) : Z :=
  Z.of_nat (length (filter P l)).

(** The employee was there: on time or late. *)
Definition attended (a : IAttendance) : Prop :=
  status a = present ∨ status a = late.

#[global] Instance attended_dec a : Decision (attended a).
Proof. unfold attended. apply _. Defined.

(** The hours of a record, none counting as 0. *)
Definition hours (a : IAttendance) : Q := default 0%Q (hoursWorked a).

End ReportSpec.

Module LeaveOps.

Import LeaveRequest.

(** An update leaves the employee, the type and the dates of a request as
    they are. *)
Definition keeps_request (u : LeaveRequestUpdate) : Prop :=
  up_employeeId u = None ∧ up_leaveType u = None
  ∧ up_startDate u = None ∧ up_endDate u = None.

End LeaveOps.

(** ** Sample data for the further examples *)

(** The body of a request that approves or rejects a leave request, and a
    second one that names another approver. *)
Definition decision (s : LeaveRequest.Status) : LeaveRequest.LeaveRequestUpdate :=
  LeaveRequest.mkUpdate None None None None None (Some s) None None None.

Definition decision_by (s : LeaveRequest.Status) (approver : Z)
    : LeaveRequest.LeaveRequestUpdate :=
  LeaveRequest.mkUpdate None None None None None (Some s) (Some approver) None None.

Definition sample_payroll_input : Payroll.PayrollInput :=
  {| Payroll.in_employeeId := 1;
     Payroll.in_payPeriodStart := utc_time 2023 1 1 0 0;
     Payroll.in_payPeriodEnd := utc_time 2023 1 15 0 0;
     Payroll.in_baseSalary := 3000;
     Payroll.in_overtimeHours := 0;
     Payroll.in_overtimeRate := 0;
     Payroll.in_bonuses := 0;
     Payroll.in_deductions :=
       {| Payroll.tax := 660; Payroll.insurance := 150;
          Payroll.retirement := 180; Payroll.other := 0 |};
     Payroll.in_status := Payroll.draft;
     Payroll.in_paymentDate := None;
     Payroll.in_notes := None |}.

(** A second draft payroll of employee 1, for 16 to 31 January 2023, and
    an update that moves a payroll to 1 to 15 January. *)
Definition second_half_payroll : Payroll.IPayroll :=
  Payroll.calculatePay
    (Payroll.mkPayroll 1 (utc_time 2023 1 16 0 0) (utc_time 2023 1 31 0 0)
       3200 0 0 0
       {| Payroll.tax := 704; Payroll.insurance := 160;
          Payroll.retirement := 192; Payroll.other := 0 |}
       0 0 0 Payroll.draft None None).


Definition first_half_period : Payroll.PayrollUpdate :=
  {| Payroll.up_employeeId := None;
     Payroll.up_payPeriodStart := Some (utc_time 2023 1 1 0 0);
     Payroll.up_payPeriodEnd := Some (utc_time 2023 1 15 0 0);
     Payroll.up_baseSalary := None;
     Payroll.up_overtimeHours := None;
     Payroll.up_overtimeRate := None;
     Payroll.up_bonuses := None;
     Payroll.up_deductions := None;
     Payroll.up_status := None;
     Payroll.up_paymentDate := None;
     Payroll.up_notes := None |}.

(** An update that records a check-out at 17:42 that Monday. *)
Definition left_at_1742 : AttendanceRecords.AttendanceUpdate :=
  AttendanceRecords.mkAttendanceUpdate None None None (Some (clock monday_1742))
    None None None None.


(** An update that moves an attendance record to day [d] of January 2023. *)
Definition dated (d : Z) : AttendanceRecords.AttendanceUpdate :=
  AttendanceRecords.mkAttendanceUpdate None (Some (utc_time 2023 1 d 0 0))
    None None None None None None.
(** * Properties *)

(** ** Saving a document *)

Section Save.

Context {D : Type} `{Schema D}.

Lemma save_new_inv (coll : list D) (doc : D) (coll' : list D) (saved : D) :
  save coll None doc = Ok (coll', saved) →
  saved = pre_save None doc ∧ coll' = coll ++ [saved].
Proof.
  unfold save. cbn. case_decide; [discriminate|].
  intros [= <- <-]. done.
Qed.

Lemma save_existing_inv (coll : list D) (i : nat) (doc : D)
    (coll' : list D) (saved : D) :
  save coll (Some i) doc = Ok (coll', saved) →
  saved = pre_save (coll !! i) doc ∧ coll' = <[i:=saved]> coll.
Proof.
  unfold save. cbn. case_decide; [discriminate|].
  intros [= <- <-]. done.
Qed.

Lemma save_existing_elem (coll : list D) (i : nat) (doc : D)
    (coll' : list D) (saved : D) :
  is_Some (coll !! i) →
  save coll (Some i) doc = Ok (coll', saved) → coll' !! i = Some saved.
Proof.
  intros Hi Hs. apply save_existing_inv in Hs as [_ ->].
  apply list_lookup_insert_eq. by apply lookup_lt_is_Some.
Qed.

End Save.

Lemma bind_Ok {A B} (m : result A) (f : A → result B) (b : B) :
  m ≫= f = Ok b → ∃ a, m = Ok a ∧ f a = Ok b.
Proof. destruct m; cbn; [eauto | discriminate]. Qed.

(** ** Payroll *)

Section PayrollFacts.

Import Payroll PayrollService PayrollSpec.

Lemma calculatePay_agrees (p : IPayroll) : amounts_agree (calculatePay p).
Proof. by repeat split. Qed.

(** A new payroll never passes validation: the three amounts are
    undefined when [save] validates, before the hook that computes them. *)
Lemma new_Payroll_invalid (payrollData : PayrollInput) :
  validated defined (new_Payroll payrollData)
  = Throw (ValidationError "Validation failed: a required path is undefined").
Proof. done. Qed.

(** So createPayroll ends in one of three errors. *)
Lemma createPayroll_outcome host coll payrollData :
  createPayroll host coll payrollData
  = match directory host (in_employeeId payrollData) with
    | None => Throw (AppError "Invalid employee ID" 400)
    | Some _ =>
        match findOne (samePeriodAs payrollData) coll with
        | Some _ =>
            Throw (AppError "Payroll already exists for this employee and period" 400)
        | None => Throw (AppError "Failed to create payroll" 500)
        end
    end.
Proof.
  unfold createPayroll, validateEmployee.
  destruct (directory host _); [|done]. cbn.
  by destruct (findOne _ coll) as [[]|].
Qed.

Lemma createPayroll_fails host coll payrollData :
  ∃ message statusCode,
    createPayroll host coll payrollData = Throw (AppError message statusCode).
Proof.
  rewrite createPayroll_outcome.
  destruct (directory host _); [|eauto].
  destruct (findOne _ coll) as [[]|]; eauto.
Qed.

Lemma generatePayroll_outcome host attendances coll employeeId' start finish :
  generatePayroll host attendances coll employeeId' start finish
  = match directory host employeeId' with
    | None => Throw (AppError "Failed to fetch employee data" 500)
    | Some employee =>
        createPayroll host coll
          (generatedPayrollData host attendances employee employeeId' start finish)
    end.
Proof.
  unfold generatePayroll, getEmployeeData.
  destruct (directory host employeeId') as [employee|]; [|done]. cbn.
  by destruct (createPayroll_fails host coll
                 (generatedPayrollData host attendances employee employeeId' start finish))
    as (message & statusCode & ->).
Qed.

Lemma generatePayroll_fails host attendances coll employeeId' start finish :
  ∃ message statusCode,
    generatePayroll host attendances coll employeeId' start finish
    = Throw (AppError message statusCode).
Proof.
  rewrite generatePayroll_outcome.
  destruct (directory host employeeId'); [apply createPayroll_fails|eauto].
Qed.

Lemma saved_existing_inv (coll : list IPayroll) i doc coll' (r : option IPayroll) :
  is_Some (coll !! i) →
  (save coll (Some i) doc ≫= λ '(c, saved), Ok (c, Some saved)) = Ok (coll', r) →
  r = Some (calculatePay doc) ∧ coll' = <[i:=calculatePay doc]> coll
  ∧ coll' !! i = Some (calculatePay doc).
Proof.
  intros Hi ([c s] & Hs & Hr)%bind_Ok. cbn in Hr. injection Hr as <- <-.
  pose proof (save_existing_elem _ _ _ _ _ Hi Hs) as He.
  apply save_existing_inv in Hs as [-> ->]. done.
Qed.

(** The three operations on a record on file share their shape: look the
    record up, ask for HR permission, test the status, save. *)
Ltac saved_in_place payrollId :=
  unfold findById;
  destruct (_ !! payrollId) eqn:?; [|discriminate];
  destruct (negb _); [discriminate|];
  case_decide; [discriminate|];
  let Hs := fresh "Hs" in
  intros Hs; apply saved_existing_inv in Hs as ([= ->] & -> & _); [|by eauto];
  eexists _, payrollId; eauto.

(** What a successful operation saved, and where: createPayroll and
    generatePayroll save nothing, the others save in place. *)
Lemma perform_saved host attendances coll op coll' p :
  perform host attendances coll op = Ok (coll', Some p) →
  ∃ doc i, p = calculatePay doc ∧ is_Some (coll !! i) ∧ coll' = <[i:=p]> coll.
Proof.
  destruct op as [data|e start finish| | |]; cbn.
  - by destruct (createPayroll_fails host coll data) as (? & ? & ->).
  - by destruct (generatePayroll_fails host attendances coll e start finish)
      as (? & ? & ->).
  - unfold updatePayroll. saved_in_place payrollId.
  - unfold processPayroll. saved_in_place payrollId.
  - unfold markPayrollAsPaid. saved_in_place payrollId.
Qed.

(** C1. Whenever createPayroll, generatePayroll, updatePayroll,
    processPayroll or markPayrollAsPaid saves a payroll record, the saved
    record has grossPay = baseSalary + overtimeHours * overtimeRate +
    bonuses, totalDeductions = tax + insurance + retirement + other and
    netPay = grossPay - totalDeductions; the record is in the collection
    afterwards, and a collection whose records all satisfy the three
    equations keeps satisfying them. *)
Theorem payroll_amounts_on_save host attendances coll op coll' p :
  perform host attendances coll op = Ok (coll', Some p) →
  amounts_agree p
  ∧ p ∈ coll'
  ∧ (Forall amounts_agree coll → Forall amounts_agree coll').
Proof.
  intros (doc & i & -> & Hi & ->)%perform_saved.
  split; [apply calculatePay_agrees|].
  split.
  - apply list_elem_of_lookup. exists i.
    apply list_lookup_insert_eq. by apply lookup_lt_is_Some.
  - intros Hall. apply Forall_insert; [done|]. apply calculatePay_agrees.
Qed.

Lemma payroll_amounts_on_save_witness :
  ∃ coll' p,
    perform february_2023 [] [draft_payroll] (UpdatePayroll 0 a_bonus 2)
    = Ok (coll', Some p)
    ∧ grossPay p = (3000 + 0 * 0 + 250)%Q
    ∧ amounts_agree p
    ∧ p ∈ coll'
    ∧ (Forall amounts_agree [draft_payroll] → Forall amounts_agree coll').
Proof.
  eexists _, _. split; [vm_compute; reflexivity|]. split; [reflexivity|].
  apply (payroll_amounts_on_save february_2023 [] [draft_payroll]
           (UpdatePayroll 0 a_bonus 2)).
  vm_compute. reflexivity.
Defined.

End PayrollFacts.

Section CalendarFacts.

Import CalendarSpec.

Lemma rem_zero_iff (a b : Z) : Z.rem a b = 0 ↔ a mod b = 0.
Proof.
  destruct (decide (b = 0)) as [->|Hb].
  - by rewrite Z.rem_0_r_ext, Z.mod_0_r.
  - rewrite Z.rem_divide, Z.mod_divide by done. done.
Qed.

Lemma isLeapYear_leap (year : Z) : isLeapYear year = true ↔ leap year.
Proof.
  unfold isLeapYear, leap.
  rewrite orb_true_iff, andb_true_iff, negb_true_iff.
  rewrite !Z.eqb_eq, Z.eqb_neq, !rem_zero_iff. done.
Qed.

Lemma isLeapYear_daysInYear (year : Z) :
  (if isLeapYear year then 366 else 365) = daysInYear year.
Proof.
  unfold daysInYear. case_decide as Hd.
  - apply isLeapYear_leap in Hd. by rewrite Hd.
  - destruct (isLeapYear year) eqn:E; [|done]. by apply isLeapYear_leap in E.
Qed.

Lemma absFloor_quot (n d : Z) :
  0 < d → absFloor (inject_Z n / inject_Z d) = Z.quot n d.
Proof.
  intros Hd. unfold absFloor.
  assert (Hdq : (0 < inject_Z d)%Q) by (unfold Qlt; cbn; lia).
  destruct (Qle_bool 0 (inject_Z n / inject_Z d)) eqn:Hs.
  - apply Qle_bool_iff in Hs.
    assert (0 ≤ n) as Hn.
    { enough (0 <= inject_Z n)%Q as Hq by (unfold Qle in Hq; cbn in Hq; lia).
      apply (Qmult_le_r _ _ (/ inject_Z d)).
      - by apply Qinv_lt_0_compat.
      - by rewrite Qmult_0_l. }
    rewrite <- Zdiv_Qdiv. symmetry. apply Z.quot_div_nonneg; lia.
  - assert (¬ (0 <= inject_Z n / inject_Z d)%Q) as Hneg.
    { intros Hle%Qle_bool_iff. congruence. }
    assert (n < 0) as Hn.
    { apply Z.lt_nge. intros Hn. apply Hneg.
      apply Qle_shift_div_l; [done|]. rewrite Qmult_0_l. unfold Qle; cbn; lia. }
    unfold Qceiling.
    rewrite (Qfloor_comp _ (inject_Z (- n) / inject_Z d)).
    + rewrite <- Zdiv_Qdiv.
      rewrite <- (Z.opp_involutive n) at 2. rewrite Z.quot_opp_l by lia.
      f_equal. symmetry. apply Z.quot_div_nonneg; lia.
    + rewrite inject_Z_opp. unfold Qdiv. ring.
Qed.

Lemma diff_days_inclusive (cal : Calendar) (start finish : Z) :
  diff_days cal finish start + 1 = daysInclusive cal start finish.
Proof.
  unfold diff_days, daysInclusive. rewrite absFloor_quot by done.
  do 2 f_equal. unfold MS_PER_DAY. lia.
Qed.

(** On the UTC calendar 31 December is the day before 1 January of the
    next year (years from 100 on, which the [Date] constructor reads as
    given). *)
Lemma utc_new_year (year : Z) :
  100 ≤ year →
  newDate utc year 11 31 + MS_PER_DAY = newDate utc (year + 1) 0 1.
Proof.
  intros Hy. cbn [newDate utc].
  assert ((0 <=? year) && (year <=? 99) = false) as -> by lia.
  assert ((0 <=? year + 1) && (year + 1 <=? 99) = false) as -> by lia.
  unfold days_from_civil.
  change (11 + 1 <=? 2) with false. change (0 + 1 <=? 2) with true.
  change (2 <? 11 + 1) with true. change (2 <? 0 + 1) with false.
  cbv iota. replace (year + 1 - 1) with year by lia.
  change ((153 * (11 + 1 - 3) + 2) / 5) with 275.
  change ((153 * (0 + 1 + 9) + 2) / 5) with 306.
  lia.
Qed.

End CalendarFacts.

Section PayrollGeneration.

Import Payroll PayrollService PayrollSpec CalendarSpec.

Lemma calculateBaseSalary_formula host annualSalary start finish :
  (calculateBaseSalary host annualSalary start finish
   == annualSalary
      / inject_Z (daysInYear (getFullYear (zone host) (clock host)))
      * inject_Z (daysInclusive (zone host) start finish))%Q.
Proof.
  unfold calculateBaseSalary.
  by rewrite isLeapYear_daysInYear, diff_days_inclusive.
Qed.

(** C2. calculateBaseSalary, by which generatePayroll works out the base
    salary, gives annualSalary / daysInYear * daysInPeriod, with
    daysInPeriod the number of whole days from payPeriodStart to
    payPeriodEnd plus one; but daysInYear is 366 or 365 as the year read
    off the clock when the payroll is generated is a leap year or not, not
    as the year of the period is.  For 1 to 15 January 2023, worked out in
    February 2023 at an annual salary of 75000, this is 75000 / 365 * 15,
    within half a cent of 3082.19.  For 1 to 15 February 2024, in a year
    of 366 days, worked out in March 2025, it is 75000 / 365 * 15 all the
    same, and not 75000 / 366 * 15. *)
Theorem calculateBaseSalary_divides_by_clock_year :
  (∀ host annualSalary start finish,
     calculateBaseSalary host annualSalary start finish
     == annualSalary
        / inject_Z (daysInYear (getFullYear (zone host) (clock host)))
        * inject_Z (daysInclusive (zone host) start finish))%Q
  ∧ (∀ host attendances employee employeeId' start finish,
       in_baseSalary (generatedPayrollData host attendances employee
                        employeeId' start finish)
       = calculateBaseSalary host (salary employee) start finish)
  ∧ (calculateBaseSalary february_2023 75000
       (utc_time 2023 1 1 0 0) (utc_time 2023 1 15 0 0) == 75000 / 365 * 15
     ∧ Qabs (calculateBaseSalary february_2023 75000
               (utc_time 2023 1 1 0 0) (utc_time 2023 1 15 0 0) - 3082.19)
       < 0.005)%Q
  ∧ getFullYear utc (utc_time 2024 2 1 0 0) = 2024
  ∧ getFullYear utc (utc_time 2024 2 15 0 0) = 2024
  ∧ daysInYear 2024 = 366
  ∧ daysInclusive utc (utc_time 2024 2 1 0 0) (utc_time 2024 2 15 0 0) = 15
  ∧ (calculateBaseSalary march_2025 75000
       (utc_time 2024 2 1 0 0) (utc_time 2024 2 15 0 0) == 75000 / 365 * 15)%Q
  ∧ ¬ (calculateBaseSalary march_2025 75000
         (utc_time 2024 2 1 0 0) (utc_time 2024 2 15 0 0) == 75000 / 366 * 15)%Q.
Proof.
  split; [apply calculateBaseSalary_formula|].
  split; [done|].
  split; [split; by vm_compute|].
  do 4 (split; [by vm_compute|]).
  split; by vm_compute.
Qed.





End PayrollGeneration.

Section PayrollLifecycle.

Import Payroll PayrollService PayrollSpec.

(** The three operations on an existing record change it only for a
    caller [checkHRPermission] accepts. *)
Lemma lifecycle_requires_hr host coll payrollId userId updateData paymentDate' coll' p :
  updatePayroll host coll payrollId updateData userId = Ok (coll', Some p)
  ∨ processPayroll host coll payrollId userId = Ok (coll', Some p)
  ∨ markPayrollAsPaid host coll payrollId userId paymentDate' = Ok (coll', Some p) →
  checkHRPermission host userId = true.
Proof.
  unfold updatePayroll, processPayroll, markPayrollAsPaid.
  destruct (findById coll payrollId); [|intros [?|[?|?]]; discriminate].
  destruct (checkHRPermission host userId); [done|].
  cbn. intros [?|[?|?]]; discriminate.
Qed.

(** No operation goes through on a paid record. *)
Lemma paid_is_final host coll payrollId userId updateData paymentDate' p :
  findById coll payrollId = Some p → status p = paid →
  (∃ e, updatePayroll host coll payrollId updateData userId = Throw e)
  ∧ (∃ e, processPayroll host coll payrollId userId = Throw e)
  ∧ (∃ e, markPayrollAsPaid host coll payrollId userId paymentDate' = Throw e).
Proof.
  intros Hp Hs. unfold updatePayroll, processPayroll, markPayrollAsPaid.
  rewrite Hp, Hs.
  destruct (checkHRPermission host userId); cbn;
    repeat case_decide; try congruence; repeat split; eauto.
Qed.

Lemma processPayroll_step host coll payrollId userId coll' p :
  processPayroll host coll payrollId userId = Ok (coll', Some p) →
  ∃ old, findById coll payrollId = Some old
         ∧ status old = draft ∧ status p = processed
         ∧ findById coll' payrollId = Some p.
Proof.
  unfold processPayroll, findById.
  destruct (coll !! payrollId) as [old|] eqn:Ho; [|discriminate].
  destruct (negb _); [discriminate|]. case_decide as Hs; [discriminate|].
  intros ([= ->] & _ & Hl)%saved_existing_inv; [|by eauto].
  exists old. split; [done|]. split; [|done].
  by destruct (decide (status old = draft)).
Qed.

Lemma markPayrollAsPaid_step host coll payrollId userId paymentDate' coll' p :
  markPayrollAsPaid host coll payrollId userId paymentDate' = Ok (coll', Some p) →
  ∃ old, findById coll payrollId = Some old
         ∧ status old = processed ∧ status p = paid
         ∧ findById coll' payrollId = Some p.
Proof.
  unfold markPayrollAsPaid, findById.
  destruct (coll !! payrollId) as [old|] eqn:Ho; [|discriminate].
  destruct (negb _); [discriminate|]. case_decide as Hs; [discriminate|].
  intros ([= ->] & _ & Hl)%saved_existing_inv; [|by eauto].
  exists old. split; [done|]. split; [|done].
  by destruct (decide (status old = processed)).
Qed.

(** C4 (fails on updatePayroll). An HR caller's updatePayroll whose update
    carries a status writes it onto any record that is not paid: a draft
    record becomes paid without having been processed, and a processed
    record goes back to draft. *)
Theorem updatePayroll_leaves_the_lifecycle :
  checkHRPermission february_2023 2 = true
  ∧ status draft_payroll = draft
  ∧ (∃ p, updatePayroll february_2023 [draft_payroll] 0 (only_status paid) 2
          = Ok ([p], Some p)
          ∧ status p = paid)
  ∧ (∃ p, updatePayroll february_2023 [set_status processed draft_payroll] 0
            (only_status draft) 2
          = Ok ([p], Some p)
          ∧ status p = draft).
Proof.
  split; [by vm_compute|]. split; [done|].
  split; eexists; (split; [vm_compute; reflexivity|done]).
Qed.

End PayrollLifecycle.

(** ** Leave requests *)

Section LeaveDays.

Import LeaveRequest LeaveService LeaveSpec.

Lemma Math_ceil_days (ms : Z) :
  ceil_days ms (Math_ceil (inject_Z ms / inject_Z (1000 * 60 * 60 * 24))).
Proof.
  unfold Math_ceil, Qceiling.
  rewrite (Qfloor_comp _ (inject_Z (- ms) / inject_Z (1000 * 60 * 60 * 24))).
  - rewrite <- Zdiv_Qdiv. unfold ceil_days, MS_PER_DAY.
    change (1000 * 60 * 60 * 24) with 86400000.
    pose proof (Z.div_mod (- ms) 86400000).
    pose proof (Z.mod_pos_bound (- ms) 86400000). lia.
  - rewrite inject_Z_opp. unfold Qdiv. ring.
Qed.

Lemma calculateDays_new (doc : ILeaveRequest) :
  days_counted (calculateDays None doc).
Proof. eexists. split; [apply Math_ceil_days|done]. Qed.

Lemma calculateDays_loaded (old doc : ILeaveRequest) :
  days_counted old → daysRequested doc = daysRequested old →
  days_counted (calculateDays (Some old) doc).
Proof.
  intros (k & Hk & Hd) Hsame. unfold calculateDays, isModified.
  destruct (bool_decide (startDate old ≠ startDate doc)) eqn:Hs; cbn.
  { eexists. split; [apply Math_ceil_days|done]. }
  destruct (bool_decide (endDate old ≠ endDate doc)) eqn:He; cbn.
  { eexists. split; [apply Math_ceil_days|done]. }
  apply bool_decide_eq_false in Hs, He.
  apply dec_stable in Hs, He.
  exists k. rewrite <- Hs, <- He, Hsame. done.
Qed.

(** A new leave request never passes validation: [daysRequested] is
    undefined when [save] validates, before the hook that computes it.  So
    createLeaveRequest ends in one of three errors. *)
Lemma createLeaveRequest_outcome host coll employeeId' leaveData :
  createLeaveRequest host coll employeeId' leaveData
  = match directory host employeeId' with
    | None => Throw (AppError "Invalid employee ID" 400)
    | Some _ =>
        match findOne (overlaps employeeId' leaveData) coll with
        | Some _ =>
            Throw (AppError "You have an overlapping leave request for these dates" 400)
        | None => Throw (AppError "Failed to create leave request" 500)
        end
    end.
Proof.
  unfold createLeaveRequest, validateEmployee.
  destruct (directory host _); [|done]. cbn.
  by destruct (findOne _ coll) as [[]|].
Qed.







(** On dates a whole number of days apart this is the count of days with
    both ends included. *)
Lemma days_counted_whole_days (r : ILeaveRequest) (k : Z) :
  days_counted r → 0 ≤ k → endDate r - startDate r = k * MS_PER_DAY →
  daysRequested r = k + 1.
Proof.
  intros (k' & [Hlo Hhi] & ->) Hk Hd. rewrite Hd in *.
  unfold MS_PER_DAY in *. lia.
Qed.



End LeaveDays.

Section LeaveOverlap.

Import LeaveRequest LeaveService LeaveSpec.

(** createLeaveRequest refuses a request that meets a pending or approved
    one of the same employee. *)
Lemma createLeaveRequest_rejects_overlap host coll employeeId' leaveData r :
  r ∈ coll → overlaps employeeId' leaveData r →
  is_Some (directory host employeeId') →
  createLeaveRequest host coll employeeId' leaveData
  = Throw (AppError "You have an overlapping leave request for these dates" 400).
Proof.
  intros Hin Hov [e He]. unfold createLeaveRequest, validateEmployee.
  rewrite He. cbn. unfold findOne.
  destruct (list_find _ coll) as [[]|] eqn:Hf; [done|].
  apply list_find_None in Hf. rewrite Forall_forall in Hf.
  by destruct (Hf r Hin).
Qed.

(** C6 (fails on updateLeaveRequest). updateLeaveRequest makes no overlap
    query: with pending requests of employee 1 for 10-12 and 20-22 January
    on record, the employee's update moving the second to 11-21 January is
    saved, and the two pending requests then overlap; createLeaveRequest
    refuses the same dates. *)
Theorem updateLeaveRequest_allows_overlap :
  no_overlap [on_record 10 12; on_record 20 22]
  ∧ (∃ r, updateLeaveRequest january_2024 [on_record 10 12; on_record 20 22]
            1 (move_to 11 21) 1
          = Ok ([on_record 10 12; r], Some r)
          ∧ employeeId r = employeeId (on_record 10 12)
          ∧ active r ∧ active (on_record 10 12)
          ∧ ranges_overlap (on_record 10 12) r
          ∧ ¬ no_overlap [on_record 10 12; r])
  ∧ createLeaveRequest january_2024 [on_record 10 12] 1 (leave_jan 11 21)
    = Throw (AppError "You have an overlapping leave request for these dates" 400).
Proof.
  split; [|split].
  - intros [|[|]] [|[|]] a b Hij Ha Hb _ _ _; try done;
      injection Ha as <-; injection Hb as <-.
    all: intros [H1 H2]; vm_compute in H1, H2; first [by apply H1 | by apply H2].
  - eexists. split; [vm_compute; reflexivity|].
    assert (ranges_overlap (on_record 10 12)
              (calculateDays (Some (on_record 20 22))
                 (assign (on_record 20 22) (move_to 11 21)))) as Hov.
    { by vm_compute. }
    split; [done|]. split; [by left|]. split; [by left|]. split; [exact Hov|].
    intros Hno.
    eapply (Hno 0%nat 1%nat);
      [done | reflexivity | reflexivity | done | by left | by left | exact Hov].
  - by vm_compute.
Qed.

End LeaveOverlap.

Section LeaveBalanceFacts.

Import LeaveRequest LeaveService LeaveSpec.

Lemma leaveType_name_inj (t1 t2 : LeaveType) :
  leaveType_name t1 = leaveType_name t2 → t1 = t2.
Proof. by destruct t1, t2. Qed.

Lemma used_lookup (t : LeaveType) (l : list ILeaveRequest) (acc : gmap string Z) :
  or0 (foldl addUsed acc l !! leaveType_name t)
  = or0 (acc !! leaveType_name t)
    + sumZ (daysRequested <$> filter (λ r, leaveType r = t) l).
Proof.
  revert acc. induction l as [|a l IH]; intros acc.
  - rewrite filter_nil. cbn. by rewrite Z.add_0_r.
  - cbn [foldl]. rewrite IH, filter_cons. unfold addUsed at 1.
    destruct (decide (leaveType a = t)) as [->|Hne].
    + rewrite lookup_insert_eq, fmap_cons. cbn. by rewrite Z.add_assoc.
    + rewrite lookup_insert_ne; [done|].
      intros Heq%leaveType_name_inj. done.
Qed.

Lemma counted_of_type host employeeId' t (coll : list ILeaveRequest) :
  filter (λ r, leaveType r = t) (filter (counted host employeeId') coll)
  = filter (approvedOfType host employeeId' t) coll.
Proof.
  rewrite list_filter_filter. apply list_filter_iff.
  intros r. unfold counted, approvedOfType, withinYear. tauto.
Qed.

Lemma remaining_of_type host coll employeeId' t :
  or0 (used (getLeaveBalance host coll employeeId') !! leaveType_name t)
  = approvedDays host coll employeeId' t.
Proof.
  cbn. rewrite used_lookup, counted_of_type, lookup_empty. done.
Qed.

(** getLeaveBalance returns, for annual, sick and personal leave, the
    allocation (21, 10 and 5 days) less the sum of daysRequested over the
    employee's approved requests of that type within the window of its
    query: startDate from [new Date(year, 0, 1)] and endDate up to
    [new Date(year, 11, 31)]; an employee with no approved request gets
    annual 21, sick 10 and personal 5, with nothing used. *)
Lemma getLeaveBalance_counts_window host coll employeeId' :
  annual (getLeaveBalance host coll employeeId')
  = 21 - approvedDays host coll employeeId' LeaveRequest.annual
  ∧ sick (getLeaveBalance host coll employeeId')
    = 10 - approvedDays host coll employeeId' LeaveRequest.sick
  ∧ personal (getLeaveBalance host coll employeeId')
    = 5 - approvedDays host coll employeeId' LeaveRequest.personal
  ∧ ((∀ r, r ∈ coll → employeeId r = employeeId' → status r ≠ approved) →
     getLeaveBalance host coll employeeId'
     = {| annual := 21; sick := 10; personal := 5; used := ∅ |}).
Proof.
  repeat split.
  - by rewrite <- remaining_of_type.
  - by rewrite <- remaining_of_type.
  - by rewrite <- remaining_of_type.
  - intros Hnone. unfold getLeaveBalance.
    replace (filter (counted host employeeId') coll) with (@nil ILeaveRequest); [done|].
    destruct (filter (counted host employeeId') coll) as [|r l] eqn:Hf; [done|].
    assert (r ∈ filter (counted host employeeId') coll)
      as [(He & Hs & _) Hin]%list_elem_of_filter by (rewrite Hf; left).
    by destruct (Hnone r).
Qed.

(** A request outside the window of the current year does not enter the
    balance. *)
Lemma getLeaveBalance_skips host coll1 coll2 r employeeId' :
  ¬ withinYear host r →
  getLeaveBalance host (coll1 ++ r :: coll2) employeeId'
  = getLeaveBalance host (coll1 ++ coll2) employeeId'.
Proof.
  intros Hout. unfold getLeaveBalance.
  rewrite !filter_app, filter_cons_False; [done|].
  intros (_ & _ & Hw). by apply Hout.
Qed.

(** C10. getLeaveBalance counts an approved request toward the current
    year's usage only if its startDate is on or after 1 January
    ([new Date(year, 0, 1)]) and its endDate is on or before 31 December
    ([new Date(year, 11, 31)]) of that year: every request it sums meets
    both bounds, and a request missing one leaves the balance as it is
    without it.  So a request that starts before 1 January of the
    following year and ends on or after it changes the balance of
    neither year. *)
Theorem getLeaveBalance_year_window :
  (∀ host (coll : list ILeaveRequest) employeeId' r,
     r ∈ filter (counted host employeeId') coll → withinYear host r)
  ∧ (∀ host coll1 coll2 r employeeId',
       ¬ withinYear host r →
       getLeaveBalance host (coll1 ++ r :: coll2) employeeId'
       = getLeaveBalance host (coll1 ++ coll2) employeeId')
  ∧ (∀ cal dir year thisYear nextYear coll1 coll2 r employeeId',
       getFullYear cal thisYear = year →
       getFullYear cal nextYear = year + 1 →
       newDate cal year 11 31 < newDate cal (year + 1) 0 1 →
       startDate r < newDate cal (year + 1) 0 1 →
       newDate cal (year + 1) 0 1 ≤ endDate r →
       getLeaveBalance {| clock := thisYear; zone := cal; directory := dir |}
                       (coll1 ++ r :: coll2) employeeId'
       = getLeaveBalance {| clock := thisYear; zone := cal; directory := dir |}
                         (coll1 ++ coll2) employeeId'
       ∧ getLeaveBalance {| clock := nextYear; zone := cal; directory := dir |}
                         (coll1 ++ r :: coll2) employeeId'
         = getLeaveBalance {| clock := nextYear; zone := cal; directory := dir |}
                           (coll1 ++ coll2) employeeId').
Proof.
  split; [|split].
  - intros host coll employeeId' r [(_ & _ & Hw) _]%list_elem_of_filter.
    exact Hw.
  - apply getLeaveBalance_skips.
  - intros * Hthis Hnext Hcal Hstart Hend.
    split; apply getLeaveBalance_skips; unfold withinYear; cbn;
      rewrite ?Hthis, ?Hnext; lia.
Qed.

(** Three approved days of annual leave in the current year leave 18. *)
Example getLeaveBalance_after_three_days :
  annual (getLeaveBalance january_2024 [approved_jan; on_record 20 22] 1) = 18
  ∧ sick (getLeaveBalance january_2024 [approved_jan; on_record 20 22] 1) = 10
  ∧ personal (getLeaveBalance january_2024 [approved_jan; on_record 20 22] 1) = 5.
Proof. by vm_compute. Qed.

(** C7 (fails on the last day of the year). The query of getLeaveBalance
    ends the year at [new Date(year, 11, 31)], the first instant of 31
    December.  An approved annual leave of employee 1 on 31 December 2024
    from 09:00 to 17:00, with daysRequested 2, lies within 2024 and is
    not counted: the balance read in June 2024 has nothing used and 21
    days of annual leave left, not 19.  The same leave a day earlier is
    counted. *)
Theorem getLeaveBalance_leaves_out_31_December :
  employeeId last_day_leave = 1
  ∧ status last_day_leave = approved
  ∧ leaveType last_day_leave = LeaveRequest.annual
  ∧ daysRequested last_day_leave = 2
  ∧ inCalendarYear (host_at june_2024) last_day_leave
  ∧ ¬ counted (host_at june_2024) 1 last_day_leave
  ∧ getLeaveBalance (host_at june_2024) [last_day_leave] 1
    = {| annual := 21; sick := 10; personal := 5; used := ∅ |}
  ∧ inCalendarYear (host_at june_2024) day_before_last_leave
  ∧ daysRequested day_before_last_leave = 2
  ∧ annual (getLeaveBalance (host_at june_2024) [day_before_last_leave] 1) = 19.
Proof.
  do 4 (split; [reflexivity|]).
  split; [split; by vm_compute|].
  split; [intros (_ & _ & _ & Hend); by vm_compute in Hend|].
  split; [by vm_compute|].
  split; [split; by vm_compute|].
  split; by vm_compute.
Qed.

Lemma getLeaveBalance_year_window_witness :
  getFullYear utc june_2024 = 2024
  ∧ getFullYear utc june_2025 = 2024 + 1
  ∧ newDate utc 2024 11 31 < newDate utc (2024 + 1) 0 1
  ∧ startDate new_year_leave < newDate utc (2024 + 1) 0 1
  ∧ newDate utc (2024 + 1) 0 1 ≤ endDate new_year_leave
  ∧ getLeaveBalance (host_at june_2024) ([] ++ new_year_leave :: []) 1
    = getLeaveBalance (host_at june_2024) ([] ++ []) 1
  ∧ getLeaveBalance (host_at june_2025) ([] ++ new_year_leave :: []) 1
    = getLeaveBalance (host_at june_2025) ([] ++ []) 1.
Proof.
  assert (getFullYear utc june_2024 = 2024) as H1 by (vm_compute; reflexivity).
  assert (getFullYear utc june_2025 = 2024 + 1) as H2 by (vm_compute; reflexivity).
  assert (newDate utc 2024 11 31 < newDate utc (2024 + 1) 0 1) as H3
    by (vm_compute; reflexivity).
  assert (startDate new_year_leave < newDate utc (2024 + 1) 0 1) as H4
    by (vm_compute; reflexivity).
  assert (newDate utc (2024 + 1) 0 1 ≤ endDate new_year_leave) as H5
    by (vm_compute; discriminate).
  repeat (split; [assumption|]).
  exact (proj2 (proj2 getLeaveBalance_year_window) utc staff 2024
           june_2024 june_2025 [] [] new_year_leave 1 H1 H2 H3 H4 H5).
Defined.

End LeaveBalanceFacts.

(** ** Binary64 rounding *)

Section DoubleFacts.

Lemma pow2_pos (e : Z) : (0 < pow2 e)%Q.
Proof. apply Qpower_0_lt. reflexivity. Qed.

Lemma pow2_add (a b : Z) : (pow2 (a + b) == pow2 a * pow2 b)%Q.
Proof. apply Qpower_plus. discriminate. Qed.

Lemma pow2_inject (n : Z) : 0 ≤ n → (pow2 n == inject_Z (2 ^ n))%Q.
Proof. intros Hn. unfold pow2. by rewrite Zpower_Qpower. Qed.

(** [ilog2] does not overshoot. *)
Lemma ilog2_le (q : Q) : (0 < q)%Q → (pow2 (ilog2 q) <= q)%Q.
Proof.
  intros Hq. unfold ilog2.
  destruct (Qle_bool _ q) eqn:Hb; [by apply Qle_bool_iff|]. clear Hb.
  destruct q as [n d]. cbn [Qnum Qden].
  assert (0 < n) as Hn by (unfold Qlt in Hq; cbn in Hq; lia).
  pose proof (Z.log2_spec n Hn) as [Hlo _].
  pose proof (Z.log2_spec (Z.pos d) eq_refl) as [_ Hhi].
  pose proof (Z.log2_nonneg n) as Ha. pose proof (Z.log2_nonneg (Z.pos d)) as Hb.
  set (a := Z.log2 n) in *. set (b := Z.log2 (Z.pos d)) in *.
  assert (pow2 (a - b - 1) * pow2 (Z.succ b) == pow2 a)%Q as Hsplit.
  { rewrite <- pow2_add. by replace (a - b - 1 + Z.succ b) with a by lia. }
  pose proof (pow2_inject a Ha) as Hpa.
  pose proof (pow2_inject (Z.succ b) ltac:(lia)) as Hpb.
  pose proof (pow2_pos (a - b - 1)) as Hp.
  set (p := pow2 (a - b - 1)) in *.
  set (pa := pow2 a) in *. set (pb := pow2 (Z.succ b)) in *.
  assert (0 < 2 ^ Z.succ b) as Hpos2 by lia.
  set (A := 2 ^ a) in *. set (B := 2 ^ Z.succ b) in *.
  assert (p * inject_Z B == inject_Z A)%Q as Hs.
  { rewrite <- Hpa, <- Hpb. exact Hsplit. }
  clearbody p A B. clear Hsplit Hpa Hpb pa pb.
  destruct p as [pn pd]. unfold Qle, Qeq, Qmult, Qlt, inject_Z in *. cbn in *. nia.
Qed.

Lemma round_half_even_close (q : Q) :
  (q - (1 # 2) <= inject_Z (round_half_even q) <= q + (1 # 2))%Q.
Proof.
  unfold round_half_even.
  pose proof (Qfloor_le q) as Hlo. pose proof (Qlt_floor q) as Hhi.
  rewrite inject_Z_plus in Hhi. change (inject_Z 1) with 1%Q in Hhi.
  destruct (Qcompare_spec (q - inject_Z (Qfloor q)) (1 # 2)) as [He|Hl|Hg].
  - destruct (Z.even _); rewrite ?inject_Z_plus; change (inject_Z 1) with 1%Q;
      split; lra.
  - split; lra.
  - rewrite inject_Z_plus. change (inject_Z 1) with 1%Q. split; lra.
Qed.

(** [double q] is within half a unit in the last place of [q], and that
    unit [p] is at most [|q| / 2^52]. *)
Lemma double_near (q : Q) :
  ¬ (q == 0)%Q →
  ∃ p : Q, (0 < p ∧ p * inject_Z (2 ^ 52) <= Qabs q
            ∧ q - p * (1 # 2) <= double q <= q + p * (1 # 2))%Q.
Proof.
  intros Hz. unfold double.
  destruct (Qeq_bool q 0) eqn:Hb; [by apply Qeq_bool_eq in Hb|]. clear Hb.
  assert (0 < Qabs q)%Q as Hpos.
  { destruct (Q_dec q 0) as [[Hlt|Hgt]|Heq]; [| |done].
    - pose proof (Qabs_neg q ltac:(lra)). lra.
    - pose proof (Qabs_pos q ltac:(lra)). lra. }
  pose proof (ilog2_le (Qabs q) Hpos) as Hl.
  set (e := ilog2 (Qabs q) - 52) in *.
  assert (pow2 (ilog2 (Qabs q)) == pow2 e * pow2 52)%Q as He.
  { rewrite <- pow2_add. unfold e.
    by replace (ilog2 (Qabs q) - 52 + 52) with (ilog2 (Qabs q)) by lia. }
  pose proof (pow2_pos e) as Hpe.
  pose proof (round_half_even_close (q / pow2 e)) as [Hlo Hhi].
  set (m := inject_Z (round_half_even (q / pow2 e))) in *.
  assert (q / pow2 e * pow2 e == q)%Q as Hs by (field; lra).
  assert (pow2 52 == inject_Z (2 ^ 52))%Q as H52 by (by apply pow2_inject).
  set (s := (q / pow2 e)%Q) in *. set (p := pow2 e) in *.
  set (l := pow2 (ilog2 (Qabs q))) in *. set (p52 := pow2 52) in *.
  exists p. split; [done|]. split.
  { assert (p * p52 == p * inject_Z (2 ^ 52))%Q as Hpp
      by (apply Qmult_comp; [reflexivity|exact H52]).
    apply (Qle_trans _ l); [|exact Hl]. rewrite He, Hpp. apply Qle_refl. }
  assert ((m - s) * p <= (1 # 2) * p)%Q as H1 by (apply Qmult_le_compat_r; lra).
  assert ((s - m) * p <= (1 # 2) * p)%Q as H2 by (apply Qmult_le_compat_r; lra).
  split; lra.
Qed.

(** The relative error of a rounding is at most 2^-53. *)
Lemma double_pos (q : Q) :
  (0 <= q)%Q →
  (q * (1 - (1 # 2 ^ 53)) <= double q <= q * (1 + (1 # 2 ^ 53)))%Q.
Proof.
  intros Hq. change (1 # 2 ^ 53)%Q with (1 # 9007199254740992)%Q.
  destruct (Qeq_dec q 0) as [Hz|Hz].
  { unfold double. rewrite (proj2 (Qeq_bool_iff q 0) Hz). split; lra. }
  destruct (double_near q Hz) as (p & Hp & Hbig & Hlo & Hhi).
  pose proof (Qabs_pos q Hq) as Ha.
  change (inject_Z (2 ^ 52)) with (4503599627370496 # 1)%Q in Hbig.
  split; lra.
Qed.

Lemma double_neg (q : Q) :
  (q <= 0)%Q →
  (q * (1 + (1 # 2 ^ 53)) <= double q <= q * (1 - (1 # 2 ^ 53)))%Q.
Proof.
  intros Hq. change (1 # 2 ^ 53)%Q with (1 # 9007199254740992)%Q.
  destruct (Qeq_dec q 0) as [Hz|Hz].
  { unfold double. rewrite (proj2 (Qeq_bool_iff q 0) Hz). split; lra. }
  destruct (double_near q Hz) as (p & Hp & Hbig & Hlo & Hhi).
  pose proof (Qabs_neg q Hq) as Ha.
  change (inject_Z (2 ^ 52)) with (4503599627370496 # 1)%Q in Hbig.
  split; lra.
Qed.

Lemma inject_Z_lt_inv (a b : Z) : (inject_Z a < inject_Z b)%Q → a < b.
Proof. unfold Qlt. cbn. lia. Qed.

(** The hundredths of hours that [roundedHours] rounds, for stamps [d]
    milliseconds apart. *)
Lemma hundredths_close (x : Q) (d : Z) :
  (x == inject_Z d)%Q → Z.abs d < 2 ^ 51 →
  (inject_Z d - 1
   < js_mul (js_div (double x) (inject_Z (1000 * 60 * 60))) 100 * 36000
   < inject_Z d + 1)%Q.
Proof.
  intros Hx Hd. unfold js_mul, js_div.
  change (inject_Z (1000 * 60 * 60)) with (3600000 # 1)%Q.
  assert (- inject_Z (2 ^ 51) < inject_Z d < inject_Z (2 ^ 51))%Q as [Hlo Hhi].
  { split; [rewrite <- inject_Z_opp|]; rewrite <- Zlt_Qlt; lia. }
  change (inject_Z (2 ^ 51)) with (2251799813685248 # 1)%Q in *.
  set (dq := inject_Z d) in *. clearbody dq. clear Hd.
  set (d0 := double x).
  set (a0 := (d0 / (3600000 # 1))%Q).
  assert (a0 * (3600000 # 1) == d0)%Q as Ha0 by (unfold a0; field).
  set (a := double a0).
  set (b := double (a * 100)).
  destruct (Qlt_le_dec x 0) as [Hneg|Hpos].
  - pose proof (double_neg x ltac:(lra)) as [H1 H2]. fold d0 in H1, H2.
    change (1 # 2 ^ 53)%Q with (1 # 9007199254740992)%Q in *.
    assert (a0 <= 0)%Q as Ha0n by lra.
    pose proof (double_neg a0 Ha0n) as [H3 H4]. fold a in H3, H4.
    change (1 # 2 ^ 53)%Q with (1 # 9007199254740992)%Q in *.
    assert (a * 100 <= 0)%Q as Han by lra.
    pose proof (double_neg (a * 100) Han) as [H5 H6]. fold b in H5, H6.
    change (1 # 2 ^ 53)%Q with (1 # 9007199254740992)%Q in *.
    split; lra.
  - pose proof (double_pos x Hpos) as [H1 H2]. fold d0 in H1, H2.
    change (1 # 2 ^ 53)%Q with (1 # 9007199254740992)%Q in *.
    assert (0 <= a0)%Q as Ha0n by lra.
    pose proof (double_pos a0 Ha0n) as [H3 H4]. fold a in H3, H4.
    change (1 # 2 ^ 53)%Q with (1 # 9007199254740992)%Q in *.
    assert (0 <= a * 100)%Q as Han by lra.
    pose proof (double_pos (a * 100) Han) as [H5 H6]. fold b in H5, H6.
    change (1 # 2 ^ 53)%Q with (1 # 9007199254740992)%Q in *.
    split; lra.
Qed.

End DoubleFacts.

(** ** Attendance *)

Section AttendanceFacts.

Import Attendance AttendanceService AttendanceSpec.

Lemma calculateHours_keeps (a : IAttendance) :
  employeeId (calculateHours a) = employeeId a
  ∧ date (calculateHours a) = date a
  ∧ Attendance.checkIn (calculateHours a) = Attendance.checkIn a
  ∧ Attendance.checkOut (calculateHours a) = Attendance.checkOut a
  ∧ status (calculateHours a) = status a.
Proof.
  unfold calculateHours.
  destruct (Attendance.checkIn a) eqn:Hci, (Attendance.checkOut a) eqn:Hco;
    cbn; by rewrite ?Hci, ?Hco.
Qed.

Lemma elem_of_delete (coll : list IAttendance) (i : nat) (x : IAttendance) :
  x ∈ delete i coll → ∃ j, j ≠ i ∧ coll !! j = Some x.
Proof.
  intros [j Hj]%list_elem_of_lookup. rewrite list_lookup_delete in Hj.
  destruct (decide (j < i)%nat); [exists j | exists (S j)]; (split; [lia | done]).
Qed.

(** Saving a loaded document under the key it was found by cannot clash. *)
Lemma no_clash_existing coll i a doc :
  unique_days coll → coll !! i = Some a → same_day doc a →
  ¬ Exists (same_day doc) (delete i coll).
Proof.
  intros Hu Ha [Hd1 Hd2] (x & (j & Hj & Hx)%elem_of_delete & [Hx1 Hx2])%Exists_exists.
  apply Hj. apply (Hu j i x a Hx Ha). split; congruence.
Qed.

Lemma found_is_the_one host coll employeeId' i a b :
  unique_days coll →
  coll !! i = Some a → today's host employeeId' a →
  b ∈ coll → today's host employeeId' b → b = a.
Proof.
  intros Hu Ha [Ha1 Ha2] [j Hb]%list_elem_of_lookup [Hb1 Hb2].
  assert (j = i) as -> by (apply (Hu j i b a Hb Ha); split; congruence).
  congruence.
Qed.

Lemma save_existing_ok coll i a doc :
  unique_days coll → coll !! i = Some a → same_day doc a →
  save coll (Some i) doc
  = Ok (<[i:=calculateHours doc]> coll, calculateHours doc).
Proof.
  intros Hu Ha [Hd1 Hd2]. unfold save. cbn [pre_save unique_clash schema].
  rewrite decide_False; [done|].
  apply (no_clash_existing _ _ a); [done..|].
  destruct (calculateHours_keeps doc) as (He & Hd & _).
  split; congruence.
Qed.

Lemma save_new_ok coll doc :
  (∀ x, x ∈ coll → ¬ same_day doc x) →
  save coll None doc = Ok (coll ++ [calculateHours doc], calculateHours doc).
Proof.
  intros Hfree. unfold save. cbn [pre_save unique_clash schema].
  rewrite decide_False; [done|].
  intros (x & Hx & [Hx1 Hx2])%Exists_exists. apply (Hfree x Hx).
  destruct (calculateHours_keeps doc) as (He & Hd & _).
  split; congruence.
Qed.

Lemma isLate_decide (a b : Z) :
  (if a <? b then late else present) = (if decide (a < b) then late else present).
Proof. case_decide; by destruct (Z.ltb_spec0 a b). Qed.

Lemma checkIn_spec host coll employeeId' location' isRemote' :
  unique_days coll →
  (checkedInToday host coll employeeId' →
   checkIn host coll employeeId' location' isRemote'
   = Throw (AppError "You have already checked in today" 400))
  ∧ (¬ checkedInToday host coll employeeId' →
     ∃ coll' a,
       checkIn host coll employeeId' location' isRemote' = Ok (coll', a)
       ∧ a ∈ coll'
       ∧ today's host employeeId' a
       ∧ Attendance.checkIn a = Some (clock host)
       ∧ status a =
           if decide (startOfDay (zone host) (clock host) + 9 * MS_PER_HOUR
                      < clock host)
           then late else present).
Proof.
  intros Hu. unfold checkIn, findOne.
  change (λ a, employeeId a = employeeId'
               ∧ date a = startOfDay (zone host) (clock host))
    with (today's host employeeId').
  destruct (list_find _ coll) as [[i a]|] eqn:Hf.
  - apply list_find_Some in Hf as (Hi & Ha & _).
    assert (a ∈ coll) as Hin by (apply list_elem_of_lookup; eauto).
    destruct a as [e d [ci|] co st n l r h].
    { split; [done|]. intros []. exists (mkAttendance e d (Some ci) co st n l r h).
      repeat split; try done; apply Ha. }
    split.
    { intros (b & Hb & Hbt & Hbc).
      rewrite (found_is_the_one _ _ _ _ _ _ Hu Hi Ha Hb Hbt) in Hbc.
      by destruct Hbc. }
    intros _. erewrite save_existing_ok; [|done|exact Hi|].
    2: { destruct Ha as [Ha1 Ha2]. cbn in Ha1, Ha2. split; cbn; congruence. }
    eexists _, _. split; [reflexivity|].
    split.
    { apply list_elem_of_lookup. exists i.
      apply list_lookup_insert_eq. by eapply lookup_lt_Some. }
    match goal with |- context [ calculateHours ?x ] =>
      destruct (calculateHours_keeps x) as (He & Hd & Hci & _ & Hst) end.
    split; [by split|]. split; [done|].
    rewrite Hst. apply isLate_decide.
  - apply list_find_None in Hf. rewrite Forall_forall in Hf.
    split.
    { intros (b & Hb & Hbt & _). by destruct (Hf b Hb). }
    intros _. erewrite save_new_ok.
    2: { intros x Hx [Hx1 Hx2]. apply (Hf x Hx). cbn in Hx1, Hx2.
         split; congruence. }
    eexists _, _. split; [reflexivity|].
    split; [set_solver|].
    match goal with |- context [ calculateHours ?x ] =>
      destruct (calculateHours_keeps x) as (He & Hd & Hci & _ & Hst) end.
    split; [by split|]. split; [done|].
    rewrite Hst. apply isLate_decide.
Qed.

(** checkIn fails with an error when a check-in of the employee for the
    current day is on record; otherwise it records the check-in, with
    status late when more than nine hours have gone by since the start of
    the day and present when not.  In UTC a check-in at 09:15 is late. *)
Lemma checkIn_once_and_nine_hours :
  (∀ host coll employeeId' location' isRemote',
     unique_days coll →
     (checkedInToday host coll employeeId' →
      checkIn host coll employeeId' location' isRemote'
      = Throw (AppError "You have already checked in today" 400))
     ∧ (¬ checkedInToday host coll employeeId' →
        ∃ coll' a,
          checkIn host coll employeeId' location' isRemote' = Ok (coll', a)
          ∧ a ∈ coll'
          ∧ today's host employeeId' a
          ∧ Attendance.checkIn a = Some (clock host)
          ∧ status a =
              if decide (startOfDay (zone host) (clock host) + 9 * MS_PER_HOUR
                         < clock host)
              then late else present))
  ∧ (∃ a, checkIn monday_0915 [] 1 None false = Ok ([a], a)
          ∧ clock monday_0915
            = startOfDay utc (clock monday_0915) + 9 * MS_PER_HOUR + 15 * 60000
          ∧ status a = late).
Proof.
  split; [apply checkIn_spec|].
  eexists. split; [vm_compute; reflexivity|]. by vm_compute.
Qed.

(** C8 (fails on a day the clocks change). checkIn takes 09:00 to be
    nine hours after the start of the day.  In Berlin on 31 March 2024,
    when the clocks go from 02:00 to 03:00, that is 10:00 on the wall
    clock: a check-in at 09:15 that day is saved with status present, not
    late. *)
Theorem checkIn_late_by_elapsed_hours :
  utcOffset (zone berlin_0915) (clock berlin_0915) = 120
  ∧ timeOfDay (zone berlin_0915) (clock berlin_0915)
    = 9 * MS_PER_HOUR + 15 * 60000
  ∧ after_nine (zone berlin_0915) (clock berlin_0915)
  ∧ startOfDay (zone berlin_0915) (clock berlin_0915) = utc_time 2024 3 30 23 0
  ∧ timeOfDay (zone berlin_0915)
      (startOfDay (zone berlin_0915) (clock berlin_0915) + 9 * MS_PER_HOUR)
    = 10 * MS_PER_HOUR
  ∧ ∃ a, checkIn berlin_0915 [] 1 None false = Ok ([a], a)
         ∧ Attendance.checkIn a = Some (clock berlin_0915)
         ∧ status a = present.
Proof.
  do 2 (split; [by vm_compute|]).
  split; [by vm_compute|].
  do 2 (split; [by vm_compute|]).
  eexists. split; [vm_compute; reflexivity|]. by vm_compute.
Qed.

(** What the hook stores is a multiple of 0.01 nearest to the hours
    between the stamps. *)
Lemma roundedHours_nearest2 (checkedIn checkedOut : Z) :
  near checkedIn checkedOut →
  nearest2 (elapsedHours checkedIn checkedOut)
           (roundedHours (js_sub (inject_Z checkedOut) (inject_Z checkedIn))).
Proof.
  intros Hd. unfold near in Hd. unfold roundedHours, js_sub, Math_round.
  set (d := checkedOut - checkedIn) in *.
  assert (inject_Z checkedOut - inject_Z checkedIn == inject_Z d)%Q as Hx.
  { unfold d, Z.sub. rewrite inject_Z_plus, inject_Z_opp. reflexivity. }
  pose proof (hundredths_close _ d Hx Hd) as [Hlo Hhi].
  set (b := js_mul _ 100) in *.
  exists (Qfloor (b + (1 # 2))). split; [reflexivity|].
  pose proof (Qfloor_le (b + (1 # 2))) as Hk1.
  pose proof (Qlt_floor (b + (1 # 2))) as Hk2.
  rewrite inject_Z_plus in Hk2. change (inject_Z 1) with 1%Q in Hk2.
  set (k := Qfloor (b + (1 # 2))) in *. clearbody k b.
  assert (inject_Z (36000 * k) < inject_Z (d + 18001))%Q as H1.
  { rewrite inject_Z_mult, inject_Z_plus.
    change (inject_Z 36000) with (36000 # 1)%Q.
    change (inject_Z 18001) with (18001 # 1)%Q.
    set (kq := inject_Z k) in *. set (dq := inject_Z d) in *.
    clearbody kq dq. lra. }
  assert (inject_Z d < inject_Z (36000 * k + 18001))%Q as H2.
  { rewrite inject_Z_plus, inject_Z_mult.
    change (inject_Z 36000) with (36000 # 1)%Q.
    change (inject_Z 18001) with (18001 # 1)%Q.
    set (kq := inject_Z k) in *. set (dq := inject_Z d) in *.
    clearbody kq dq. lra. }
  apply inject_Z_lt_inv in H1, H2.
  unfold elapsedHours. fold d.
  assert (inject_Z d <= inject_Z (36000 * k + 18000))%Q as H3
    by (rewrite <- Zle_Qle; lia).
  assert (inject_Z (36000 * k) <= inject_Z (d + 18000))%Q as H4
    by (rewrite <- Zle_Qle; lia).
  rewrite inject_Z_plus, inject_Z_mult in H3.
  rewrite inject_Z_plus, inject_Z_mult in H4.
  change (inject_Z 36000) with (36000 # 1)%Q in H3, H4.
  change (inject_Z 18000) with (18000 # 1)%Q in H3, H4.
  set (kq := inject_Z k) in *. set (dq := inject_Z d) in *. clearbody kq dq.
  assert (dq / 3600000 * 100 * 36000 == dq)%Q as Hq by field.
  set (x := (dq / 3600000 * 100)%Q) in *. clearbody x.
  split; lra.
Qed.

Lemma checkOut_inv host coll employeeId' coll' a' :
  checkOut host coll employeeId' = Ok (coll', a') →
  ∃ i a checkedIn,
    coll !! i = Some a
    ∧ today's host employeeId' a
    ∧ Attendance.checkIn a = Some checkedIn
    ∧ Attendance.checkOut a = None
    ∧ a' = calculateHours (set_checkOut (Some (clock host)) a)
    ∧ coll' = <[i:=a']> coll.
Proof.
  unfold checkOut, findOne.
  destruct (list_find _ coll) as [[i a]|] eqn:Hf; [|discriminate].
  apply list_find_Some in Hf as (Hi & Ha & _).
  destruct (Attendance.checkIn a) as [ci|] eqn:Hci; [|discriminate].
  destruct (Attendance.checkOut a) as [co|] eqn:Hco; [discriminate|].
  intros [Hs ->]%save_existing_inv. cbn in Hs.
  exists i, a, ci. split; [done|]. split; [exact Ha|]. by repeat split.
Qed.

(** C9. checkOut is accepted exactly when a record of the employee for the
    current day with a checkIn and no checkOut is on record, and fails
    with an error otherwise; the record it saves has checkOut set to the
    clock and, the stamps being less than 2^51 ms apart, hoursWorked a
    multiple of 0.01 nearest to (checkOut - checkIn) / 3600000: those
    hours rounded to two decimals, where hours halfway between two
    hundredths may go either way.  Checked in at 09:15 and out at 17:42,
    the hours worked are 8.45. *)
Theorem checkOut_accepted_and_hours :
  (∀ host coll employeeId',
     unique_days coll →
     (∀ coll' a',
        checkOut host coll employeeId' = Ok (coll', a') →
        ∃ checkedIn h,
          openToday host coll employeeId' checkedIn
          ∧ a' ∈ coll'
          ∧ Attendance.checkIn a' = Some checkedIn
          ∧ Attendance.checkOut a' = Some (clock host)
          ∧ hoursWorked a' = Some h
          ∧ (near checkedIn (clock host) →
             nearest2 (elapsedHours checkedIn (clock host)) h))
     ∧ (∀ checkedIn,
          openToday host coll employeeId' checkedIn →
          ∃ coll' a', checkOut host coll employeeId' = Ok (coll', a'))
     ∧ ((¬ ∃ checkedIn, openToday host coll employeeId' checkedIn) →
        ∃ message, checkOut host coll employeeId' = Throw (AppError message 400)))
  ∧ (∃ c1 a1 c2 a2 h,
       checkIn monday_0915 [] 1 None false = Ok (c1, a1)
       ∧ checkOut monday_1742 c1 1 = Ok (c2, a2)
       ∧ hoursWorked a2 = Some h ∧ h = hundredth 845).
Proof.
  split.
  - intros host coll employeeId' Hu. split; [|split].
    + intros coll' a' (i & a & ci & Hi & Ha & Hci & Hco & -> & ->)%checkOut_inv.
      exists ci. eexists. split; [|split; [|split; [|split; [|split]]]].
      * exists a. repeat split; try done; try apply Ha.
        apply list_elem_of_lookup; eauto.
      * apply list_elem_of_lookup. exists i.
        apply list_lookup_insert_eq. by eapply lookup_lt_Some.
      * by destruct (calculateHours_keeps (set_checkOut (Some (clock host)) a))
          as (_ & _ & -> & _).
      * by destruct (calculateHours_keeps (set_checkOut (Some (clock host)) a))
          as (_ & _ & _ & -> & _).
      * unfold calculateHours. cbn. rewrite Hci. cbn. reflexivity.
      * apply roundedHours_nearest2.
    + intros ci (b & Hb & Hbt & Hbci & Hbco). unfold checkOut, findOne.
      change (λ a, employeeId a = employeeId'
                   ∧ date a = startOfDay (zone host) (clock host))
        with (today's host employeeId').
      destruct (list_find _ coll) as [[i a]|] eqn:Hf.
      * apply list_find_Some in Hf as (Hi & Ha & _).
        rewrite <- (found_is_the_one _ _ _ _ _ _ Hu Hi Ha Hb Hbt), Hbci, Hbco.
        erewrite save_existing_ok; [eauto|done|exact Hi|].
        rewrite <- (found_is_the_one _ _ _ _ _ _ Hu Hi Ha Hb Hbt). by split.
      * apply list_find_None in Hf. rewrite Forall_forall in Hf.
        by destruct (Hf b Hb).
    + intros Hnone. unfold checkOut, findOne.
      change (λ a, employeeId a = employeeId'
                   ∧ date a = startOfDay (zone host) (clock host))
        with (today's host employeeId').
      destruct (list_find _ coll) as [[i a]|] eqn:Hf; [|eauto].
      apply list_find_Some in Hf as (Hi & Ha & _).
      destruct (Attendance.checkIn a) as [ci|] eqn:Hci; [|eauto].
      destruct (Attendance.checkOut a) as [co|] eqn:Hco; [eauto|].
      destruct Hnone. exists ci, a. repeat split; try done; try apply Ha.
      apply list_elem_of_lookup; eauto.
  - eexists _, _, _, _, _.
    split; [vm_compute; reflexivity|].
    split; [vm_compute; reflexivity|].
    split; [vm_compute; reflexivity|]. by vm_compute.
Qed.

(** The hours are not always rounded halves upwards.  An hour and 18
    seconds are 1.005 hours, stored as 1 and not as 1.01; an hour and 54
    seconds are 1.015 hours, stored as 1.01 and not as 1.02. *)
Lemma checkOut_hours_not_rounded2 :
  (∃ c1 a1 c2 a2 h,
     checkIn monday_0900 [] 1 None false = Ok (c1, a1)
     ∧ checkOut monday_100018 c1 1 = Ok (c2, a2)
     ∧ hoursWorked a2 = Some h
     ∧ (elapsedHours (clock monday_0900) (clock monday_100018) == 1.005)%Q
     ∧ h = hundredth 100
     ∧ ¬ rounded2 (elapsedHours (clock monday_0900) (clock monday_100018)) h)
  ∧ (∃ c1 a1 c2 a2 h,
       checkIn monday_0900 [] 1 None false = Ok (c1, a1)
       ∧ checkOut monday_100054 c1 1 = Ok (c2, a2)
       ∧ hoursWorked a2 = Some h
       ∧ (elapsedHours (clock monday_0900) (clock monday_100054) == 1.015)%Q
       ∧ h = hundredth 101
       ∧ ¬ rounded2 (elapsedHours (clock monday_0900) (clock monday_100054)) h).
Proof.
  split.
  - eexists _, _, _, _, _.
    split; [vm_compute; reflexivity|].
    split; [vm_compute; reflexivity|].
    split; [vm_compute; reflexivity|].
    split; [by vm_compute|]. split; [by vm_compute|].
    intros (n & Hh & Hlo & Hhi).
    assert (n = 101) as ->.
    { clear Hh.
      assert (inject_Z 100 < inject_Z n)%Q as H1.
      { eapply Qle_lt_trans; [|exact Hlo]. by vm_compute. }
      assert (inject_Z n <= inject_Z 101)%Q as H2.
      { eapply Qle_trans; [exact Hhi|]. by vm_compute. }
      apply inject_Z_lt_inv in H1. rewrite <- Zle_Qle in H2. lia. }
    vm_compute in Hh. discriminate.
  - eexists _, _, _, _, _.
    split; [vm_compute; reflexivity|].
    split; [vm_compute; reflexivity|].
    split; [vm_compute; reflexivity|].
    split; [by vm_compute|]. split; [by vm_compute|].
    intros (n & Hh & Hlo & Hhi).
    assert (n = 102) as ->.
    { clear Hh.
      assert (inject_Z 101 < inject_Z n)%Q as H1.
      { eapply Qle_lt_trans; [|exact Hlo]. by vm_compute. }
      assert (inject_Z n <= inject_Z 102)%Q as H2.
      { eapply Qle_trans; [exact Hhi|]. by vm_compute. }
      apply inject_Z_lt_inv in H1. rewrite <- Zle_Qle in H2. lia. }
    vm_compute in Hh. discriminate.
Qed.

(** Hours halfway between two hundredths do go upwards as well: 18
    seconds are 0.005 hours, stored as 0.01. *)
Lemma checkOut_hours_half_upwards :
  ∃ c1 a1 c2 a2 h,
    checkIn monday_0900 [] 1 None false = Ok (c1, a1)
    ∧ checkOut monday_090018 c1 1 = Ok (c2, a2)
    ∧ hoursWorked a2 = Some h
    ∧ (elapsedHours (clock monday_0900) (clock monday_090018) == 0.005)%Q
    ∧ h = hundredth 1
    ∧ rounded2 (elapsedHours (clock monday_0900) (clock monday_090018)) h.
Proof.
  eexists _, _, _, _, _.
  split; [vm_compute; reflexivity|].
  split; [vm_compute; reflexivity|].
  split; [vm_compute; reflexivity|].
  split; [by vm_compute|]. split; [by vm_compute|].
  exists 1. split; [by vm_compute|]. split; by vm_compute.
Qed.

(** The unique index is kept by both operations. *)
Lemma unique_days_insert coll i a x :
  unique_days coll → coll !! i = Some a → same_day x a →
  unique_days (<[i:=x]> coll).
Proof.
  intros Hu Ha [Hx1 Hx2] i1 i2 y1 y2 H1 H2 [Hs1 Hs2].
  pose proof (lookup_lt_Some _ _ _ Ha) as Hlt.
  destruct (decide (i1 = i)) as [->|Hn1], (decide (i2 = i)) as [->|Hn2]; [done|..].
  - rewrite list_lookup_insert_eq in H1 by done. injection H1 as <-.
    rewrite list_lookup_insert_ne in H2 by done.
    apply (Hu i i2 a y2 Ha H2). split; congruence.
  - rewrite list_lookup_insert_eq in H2 by done. injection H2 as <-.
    rewrite list_lookup_insert_ne in H1 by done.
    apply (Hu i1 i y1 a H1 Ha). split; congruence.
  - rewrite list_lookup_insert_ne in H1, H2 by done.
    by apply (Hu i1 i2 y1 y2).
Qed.

Lemma unique_days_app coll x :
  unique_days coll → (∀ y, y ∈ coll → ¬ same_day x y) →
  unique_days (coll ++ [x]).
Proof.
  intros Hu Hfree i1 i2 y1 y2 H1 H2 [Hs1 Hs2].
  apply lookup_app_Some in H1 as [H1|[Hl1 H1]];
    apply lookup_app_Some in H2 as [H2|[Hl2 H2]].
  - by apply (Hu i1 i2 y1 y2).
  - apply list_lookup_singleton_Some in H2 as [_ <-].
    destruct (Hfree y1); [apply list_elem_of_lookup; eauto|]. split; congruence.
  - apply list_lookup_singleton_Some in H1 as [_ <-].
    destruct (Hfree y2); [apply list_elem_of_lookup; eauto|]. by split.
  - apply list_lookup_singleton_Some in H1 as [? _].
    apply list_lookup_singleton_Some in H2 as [? _]. lia.
Qed.

Lemma checkIn_keeps_unique_days host coll employeeId' location' isRemote' coll' a :
  unique_days coll →
  checkIn host coll employeeId' location' isRemote' = Ok (coll', a) →
  unique_days coll'.
Proof.
  intros Hu. unfold checkIn, findOne.
  change (λ a, employeeId a = employeeId'
               ∧ date a = startOfDay (zone host) (clock host))
    with (today's host employeeId').
  destruct (list_find _ coll) as [[i old]|] eqn:Hf.
  - apply list_find_Some in Hf as (Hi & [Ho1 Ho2] & _).
    destruct old as [e d [ci|] co st n l r h]; [discriminate|].
    cbn in Ho1, Ho2.
    intros [-> ->]%save_existing_inv. eapply unique_days_insert; [done..|].
    cbn [pre_save schema].
    match goal with |- context [ calculateHours ?x ] =>
      destruct (calculateHours_keeps x) as (He & Hd & _) end.
    split; cbn in *; congruence.
  - apply list_find_None in Hf. rewrite Forall_forall in Hf.
    intros [-> ->]%save_new_inv. apply unique_days_app; [done|].
    intros y Hy [Hy1 Hy2]. apply (Hf y Hy).
    cbn [pre_save schema] in Hy1, Hy2.
    match type of Hy1 with context [ calculateHours ?x ] =>
      destruct (calculateHours_keeps x) as (He & Hd & _) end.
    split; cbn in *; congruence.
Qed.

Lemma checkOut_keeps_unique_days host coll employeeId' coll' a' :
  unique_days coll →
  checkOut host coll employeeId' = Ok (coll', a') →
  unique_days coll'.
Proof.
  intros Hu (i & a & ci & Hi & Ha & Hci & Hco & -> & ->)%checkOut_inv.
  eapply unique_days_insert; [done..|].
  destruct (calculateHours_keeps (set_checkOut (Some (clock host)) a))
    as (He & Hd & _).
  split; cbn in *; congruence.
Qed.

Lemma unique_days_singleton (a : IAttendance) : unique_days [a].
Proof.
  intros [|i] [|j] x y Hx Hy _; try done;
    rewrite lookup_cons, lookup_nil in *; done.
Defined.

Lemma checkOut_accepted_and_hours_witness :
  unique_days [checked_in_0915]
  ∧ openToday monday_1742 [checked_in_0915] 1 (clock monday_0915)
  ∧ ∃ coll' a', checkOut monday_1742 [checked_in_0915] 1 = Ok (coll', a').
Proof.
  assert (openToday monday_1742 [checked_in_0915] 1 (clock monday_0915)) as Hopen.
  { exists checked_in_0915. split; [left|]. split; [by vm_compute|]. done. }
  split; [apply unique_days_singleton|]. split; [exact Hopen|].
  exact (proj1 (proj2 (proj1 checkOut_accepted_and_hours monday_1742
                         [checked_in_0915] 1 (unique_days_singleton _)))
           (clock monday_0915) Hopen).
Defined.

End AttendanceFacts.

(** * Further properties *)

(** ** The unique index under save *)

Section SaveIndex.

Import StoreSpec.

Context {D : Type} `{Schema D}.
Context (clash_sym : ∀ a b : D, unique_clash a b → unique_clash b a).

Lemma elem_of_delete_other (l : list D) (i j : nat) (y : D) :
  j ≠ i → l !! j = Some y → y ∈ delete i l.
Proof.
  intros Hji Hj. apply list_elem_of_lookup.
  destruct (decide (j < i)%nat).
  - exists j. by rewrite list_lookup_delete_lt.
  - exists (j - 1)%nat. rewrite list_lookup_delete_ge by lia.
    by replace (S (j - 1)) with j by lia.
Qed.

Lemma save_keeps_unique_index (coll : list D) (slot : option nat) (doc : D)
    (coll' : list D) (saved : D) :
  unique_index coll → save coll slot doc = Ok (coll', saved) →
  unique_index coll'.
Proof.
  intros Hu. unfold save. case_decide as Hc; [discriminate|].
  intros [= <- <-]. rewrite Exists_exists in Hc.
  set (doc' := pre_save (slot ≫= findById coll) doc) in *.
  destruct slot as [i|]; intros i1 i2 a b H1 H2 Hab.
  - destruct (decide (i < length coll)%nat) as [Hlt|Hge];
      [|rewrite list_insert_ge in H1, H2 by lia; by apply (Hu i1 i2 a b)].
    destruct (decide (i1 = i)) as [->|Hn1], (decide (i2 = i)) as [->|Hn2]; [done|..].
    + rewrite list_lookup_insert_eq in H1 by done. injection H1 as <-.
      rewrite list_lookup_insert_ne in H2 by done.
      destruct Hc. exists b. split; [by apply (elem_of_delete_other _ _ i2)|done].
    + rewrite list_lookup_insert_eq in H2 by done. injection H2 as <-.
      rewrite list_lookup_insert_ne in H1 by done.
      destruct Hc. exists a. split; [by apply (elem_of_delete_other _ _ i1)|].
      by apply clash_sym.
    + rewrite list_lookup_insert_ne in H1, H2 by done. by apply (Hu i1 i2 a b).
  - apply lookup_app_Some in H1 as [H1|[Hl1 H1]];
      apply lookup_app_Some in H2 as [H2|[Hl2 H2]].
    + by apply (Hu i1 i2 a b).
    + apply list_lookup_singleton_Some in H2 as [_ <-].
      destruct Hc. exists a. split; [apply list_elem_of_lookup; eauto|].
      by apply clash_sym.
    + apply list_lookup_singleton_Some in H1 as [_ <-].
      destruct Hc. exists b. split; [apply list_elem_of_lookup; eauto|done].
    + apply list_lookup_singleton_Some in H1 as [? _].
      apply list_lookup_singleton_Some in H2 as [? _]. lia.
Qed.

(** Saving a loaded document whose key the hook and the caller left alone
    goes through. *)
Lemma save_same_key_ok (coll : list D) (i : nat) (a doc : D) :
  unique_index coll → coll !! i = Some a →
  (∀ y, unique_clash (pre_save (Some a) doc) y → unique_clash a y) →
  save coll (Some i) doc
  = Ok (<[i:=pre_save (Some a) doc]> coll, pre_save (Some a) doc).
Proof.
  intros Hu Ha Hkey. unfold save. cbn [mbind option_bind]. unfold findById.
  rewrite Ha. cbn. rewrite decide_False; [done|].
  intros (y & Hy & Hc)%Exists_exists.
  apply list_elem_of_lookup in Hy as [j Hj]. rewrite list_lookup_delete in Hj.
  apply Hkey in Hc.
  destruct (decide (j < i)%nat).
  - pose proof (Hu i j a y Ha Hj Hc). lia.
  - pose proof (Hu i (S j) a y Ha Hj Hc). lia.
Qed.

End SaveIndex.

(** ** Payroll: index, lifecycle and summary *)

Section PayrollMore.

Import Payroll PayrollService PayrollSpec StoreSpec.

Lemma same_period_sym (a b : IPayroll) : same_period a b → same_period b a.
Proof. intros (? & ? & ?). by repeat split. Qed.

Lemma calculatePay_key (p y : IPayroll) :
  same_period (calculatePay p) y ↔ same_period p y.
Proof. done. Qed.

Lemma calculatePay_fixed (p : IPayroll) : amounts_agree p → calculatePay p = p.
Proof.
  destruct p. unfold amounts_agree, calculatePay. cbn.
  intros (-> & -> & ->). done.
Qed.



Lemma unique_index_nil {D} `{Schema D} : unique_index (@nil D).
Proof. intros i j a b Ha. by rewrite lookup_nil in Ha. Defined.

Lemma unique_index_singleton {D} `{Schema D} (a : D) : unique_index [a].
Proof.
  intros [|i] [|j] x y Hx Hy _; try done;
    rewrite lookup_cons, lookup_nil in *; done.
Defined.


Lemma createPayroll_duplicate host coll payrollData p :
  p ∈ coll → samePeriodAs payrollData p →
  is_Some (directory host (in_employeeId payrollData)) →
  createPayroll host coll payrollData
  = Throw (AppError "Payroll already exists for this employee and period" 400).
Proof.
  intros Hin Hp [e He]. unfold createPayroll, validateEmployee.
  rewrite He. cbn. unfold findOne.
  destruct (list_find _ coll) as [[]|] eqn:Hf; [done|].
  apply list_find_None in Hf. rewrite Forall_forall in Hf.
  by destruct (Hf p Hin).
Qed.

(** X2. createPayroll and generatePayroll store nothing.  For an employee
    the employee service knows they fail with the 400 error "Payroll
    already exists for this employee and period" when a payroll of the
    employee and period is on record, and with the 500 error "Failed to
    create payroll" when none is: the new document does not pass
    validation, its grossPay, totalDeductions and netPay being undefined
    until the pre('save') hook, which runs after validation. *)
Theorem createPayroll_stores_nothing host attendances coll payrollData :
  is_Some (directory host (in_employeeId payrollData)) →
  ((∃ p, p ∈ coll ∧ samePeriodAs payrollData p) →
   createPayroll host coll payrollData
   = Throw (AppError "Payroll already exists for this employee and period" 400)
   ∧ generatePayroll host attendances coll (in_employeeId payrollData)
       (in_payPeriodStart payrollData) (in_payPeriodEnd payrollData)
     = Throw (AppError "Payroll already exists for this employee and period" 400))
  ∧ ((∀ p, p ∈ coll → ¬ samePeriodAs payrollData p) →
     createPayroll host coll payrollData
     = Throw (AppError "Failed to create payroll" 500)
     ∧ generatePayroll host attendances coll (in_employeeId payrollData)
         (in_payPeriodStart payrollData) (in_payPeriodEnd payrollData)
       = Throw (AppError "Failed to create payroll" 500)).
Proof.
  intros [employee He].
  set (generated := generatedPayrollData host attendances employee
                      (in_employeeId payrollData) (in_payPeriodStart payrollData)
                      (in_payPeriodEnd payrollData)).
  assert (is_Some (directory host (in_employeeId generated))) as Hg by (by eexists).
  split.
  - intros (p & Hin & Hp).
    split; [by apply (createPayroll_duplicate _ _ _ p); [| |eexists]|].
    rewrite generatePayroll_outcome, He.
    by apply (createPayroll_duplicate _ _ _ p).
  - intros Hfree.
    assert (∀ data : PayrollInput,
              in_employeeId data = in_employeeId payrollData →
              in_payPeriodStart data = in_payPeriodStart payrollData →
              in_payPeriodEnd data = in_payPeriodEnd payrollData →
              createPayroll host coll data
              = Throw (AppError "Failed to create payroll" 500)) as Hnew.
    { intros data H1 H2 H3. rewrite createPayroll_outcome, H1, He.
      unfold findOne. destruct (list_find _ coll) as [[i p]|] eqn:Hf; [|done].
      apply list_find_Some in Hf as (Hi & (Hp1 & Hp2 & Hp3) & _).
      destruct (Hfree p); [apply list_elem_of_lookup; eauto|].
      repeat split; congruence. }
    split; [by apply Hnew|].
    rewrite generatePayroll_outcome, He. by apply Hnew.
Qed.

Lemma createPayroll_stores_nothing_witness :
  is_Some (directory february_2023 (in_employeeId sample_payroll_input))
  ∧ createPayroll february_2023 [] sample_payroll_input
    = Throw (AppError "Failed to create payroll" 500)
  ∧ generatePayroll february_2023 [] [] 1
      (utc_time 2023 1 1 0 0) (utc_time 2023 1 15 0 0)
    = Throw (AppError "Failed to create payroll" 500)
  ∧ createPayroll february_2023 [draft_payroll] sample_payroll_input
    = Throw (AppError "Payroll already exists for this employee and period" 400).
Proof.
  assert (is_Some (directory february_2023 (in_employeeId sample_payroll_input)))
    as Hdir by (by eexists).
  split; [exact Hdir|].
  destruct (createPayroll_stores_nothing february_2023 [] [] sample_payroll_input Hdir)
    as [_ Hnew].
  destruct (createPayroll_stores_nothing february_2023 [] [draft_payroll]
              sample_payroll_input Hdir) as [Hold _].
  split; [apply Hnew; intros p Hp; by apply not_elem_of_nil in Hp|].
  split; [apply Hnew; intros p Hp; by apply not_elem_of_nil in Hp|].
  apply Hold. exists draft_payroll. split; [by left|by vm_compute].
Defined.

(** X3. updatePayroll that would give a record the employee and period of
    another record on file fails with the store's duplicate-key error,
    which it passes on as it is, not turned into an AppError. *)
Theorem updatePayroll_duplicate_key host coll payrollId updateData userId p j q :
  coll !! payrollId = Some p → coll !! j = Some q → j ≠ payrollId →
  checkHRPermission host userId = true → status p ≠ paid →
  same_period (assign p updateData) q →
  updatePayroll host coll payrollId updateData userId
  = Throw (MongoError "E11000 duplicate key error").
Proof.
  intros Hp Hq Hj Hhr Hs Hkey. unfold updatePayroll, findById.
  rewrite Hp, Hhr. cbn. rewrite decide_False by done.
  unfold save. cbn [mbind option_bind]. rewrite decide_True; [done|].
  apply Exists_exists. exists q.
  split; [by apply (elem_of_delete_other _ _ j)|exact Hkey].
Qed.

Lemma updatePayroll_duplicate_key_witness :
  [draft_payroll; second_half_payroll] !! 1%nat = Some second_half_payroll
  ∧ [draft_payroll; second_half_payroll] !! 0%nat = Some draft_payroll
  ∧ checkHRPermission february_2023 2 = true
  ∧ status second_half_payroll ≠ paid
  ∧ same_period (assign second_half_payroll first_half_period) draft_payroll
  ∧ updatePayroll february_2023 [draft_payroll; second_half_payroll] 1
      first_half_period 2
    = Throw (MongoError "E11000 duplicate key error").
Proof.
  assert (checkHRPermission february_2023 2 = true) as Hhr by (vm_compute; reflexivity).
  assert (status second_half_payroll ≠ paid) as Hs by (vm_compute; discriminate).
  assert (same_period (assign second_half_payroll first_half_period) draft_payroll)
    as Hk by (vm_compute; repeat split).
  do 5 (split; [first [reflexivity | assumption]|]).
  exact (updatePayroll_duplicate_key february_2023
           [draft_payroll; second_half_payroll] 1 first_half_period 2
           second_half_payroll 0 draft_payroll eq_refl eq_refl
           ltac:(discriminate) Hhr Hs Hk).
Defined.

(** X4. On a record on file, updatePayroll, processPayroll and
    markPayrollAsPaid answer a caller without HR permission with a 403
    error, and a caller with it with a 400 error when the record is paid;
    no collection is returned, so nothing is saved. *)
Theorem payroll_guards host coll payrollId userId updateData paymentDate' p :
  findById coll payrollId = Some p →
  (checkHRPermission host userId = false →
   updatePayroll host coll payrollId updateData userId
   = Throw (AppError "Only HR managers can update payroll records" 403)
   ∧ processPayroll host coll payrollId userId
     = Throw (AppError "Only HR managers can process payroll" 403)
   ∧ markPayrollAsPaid host coll payrollId userId paymentDate'
     = Throw (AppError "Only HR managers can mark payroll as paid" 403))
  ∧ (checkHRPermission host userId = true → status p = paid →
     updatePayroll host coll payrollId updateData userId
     = Throw (AppError "Cannot update paid payroll records" 400)
     ∧ processPayroll host coll payrollId userId
       = Throw (AppError "Only draft payrolls can be processed" 400)
     ∧ markPayrollAsPaid host coll payrollId userId paymentDate'
       = Throw (AppError "Only processed payrolls can be marked as paid" 400)).
Proof.
  intros Hp. unfold updatePayroll, processPayroll, markPayrollAsPaid.
  rewrite Hp. split.
  - intros ->. done.
  - intros -> ->. cbn. by repeat case_decide.
Qed.

Lemma payroll_guards_witness :
  findById [set_status paid draft_payroll] 0 = Some (set_status paid draft_payroll)
  ∧ checkHRPermission february_2023 1 = false
  ∧ checkHRPermission february_2023 2 = true
  ∧ updatePayroll february_2023 [set_status paid draft_payroll] 0 (only_status draft) 1
    = Throw (AppError "Only HR managers can update payroll records" 403)
  ∧ updatePayroll february_2023 [set_status paid draft_payroll] 0 (only_status draft) 2
    = Throw (AppError "Cannot update paid payroll records" 400).
Proof.
  assert (checkHRPermission february_2023 1 = false) as H1 by (vm_compute; reflexivity).
  assert (checkHRPermission february_2023 2 = true) as H2 by (vm_compute; reflexivity).
  do 3 (split; [first [reflexivity | assumption]|]).
  split.
  - exact (proj1 (proj1 (payroll_guards february_2023 [set_status paid draft_payroll]
                           0 1 (only_status draft) None _ eq_refl) H1)).
  - exact (proj1 (proj2 (payroll_guards february_2023 [set_status paid draft_payroll]
                           0 2 (only_status draft) None _ eq_refl) H2 eq_refl)).
Defined.

Lemma saved_in_place_ok (coll : list IPayroll) i old doc :
  unique_index coll → coll !! i = Some old → same_period doc old →
  save coll (Some i) doc = Ok (<[i:=calculatePay doc]> coll, calculatePay doc).
Proof.
  intros Hu Ho Hk.
  rewrite (save_same_key_ok coll i old doc Hu Ho); [done|].
  intros y Hy. change (same_period (calculatePay doc) y) in Hy.
  change (same_period old y).
  destruct Hk as (? & ? & ?), Hy as (? & ? & ?). cbn in *.
  repeat split; congruence.
Qed.

(** X5. With the unique index in place, an HR caller takes a draft record
    to paid in two steps: processPayroll makes it processed and then
    markPayrollAsPaid makes it paid, with paymentDate the date given or
    else the clock.  The steps cannot be skipped or repeated:
    markPayrollAsPaid on the draft and processPayroll on the processed
    record fail with a 400 error. *)
Theorem payroll_draft_to_paid host host' coll payrollId userId userId' paymentDate' p :
  unique_index coll →
  coll !! payrollId = Some p → status p = draft →
  checkHRPermission host userId = true →
  checkHRPermission host' userId' = true →
  ∃ coll1 p1 coll2 p2,
    processPayroll host coll payrollId userId = Ok (coll1, Some p1)
    ∧ status p1 = processed
    ∧ markPayrollAsPaid host' coll1 payrollId userId' paymentDate' = Ok (coll2, Some p2)
    ∧ status p2 = paid
    ∧ paymentDate p2 = Some (default (clock host') paymentDate')
    ∧ coll2 !! payrollId = Some p2
    ∧ markPayrollAsPaid host coll payrollId userId paymentDate'
      = Throw (AppError "Only processed payrolls can be marked as paid" 400)
    ∧ processPayroll host' coll1 payrollId userId'
      = Throw (AppError "Only draft payrolls can be processed" 400).
Proof.
  intros Hu Hp Hs Hhr Hhr'.
  assert (processPayroll host coll payrollId userId
          = Ok (<[payrollId:=calculatePay (set_status processed p)]> coll,
                Some (calculatePay (set_status processed p)))) as H1.
  { unfold processPayroll, findById. rewrite Hp, Hhr. cbn.
    rewrite decide_False by (by rewrite Hs; intros []).
    by rewrite (saved_in_place_ok coll payrollId p). }
  set (p1 := calculatePay (set_status processed p)) in *.
  set (coll1 := <[payrollId:=p1]> coll) in *.
  assert (coll1 !! payrollId = Some p1) as Hp1.
  { apply list_lookup_insert_eq. by eapply lookup_lt_Some. }
  assert (unique_index coll1) as Hu1.
  { eapply save_keeps_unique_index; [apply same_period_sym|exact Hu|].
    by apply (saved_in_place_ok coll payrollId p). }
  set (doc2 := set_paymentDate (Some (default (clock host') paymentDate'))
                 (set_status paid p1)).
  exists coll1, p1, (<[payrollId:=calculatePay doc2]> coll1), (calculatePay doc2).
  split; [done|]. split; [done|]. split.
  { unfold markPayrollAsPaid, findById. rewrite Hp1, Hhr'. cbn.
    rewrite decide_False by (intros Hn; by apply Hn).
    rewrite (saved_in_place_ok coll1 payrollId p1 _ Hu1 Hp1); [|done].
    by destruct paymentDate'. }
  split; [done|]. split; [done|]. split.
  { apply list_lookup_insert_eq. by eapply lookup_lt_Some. }
  split.
  - unfold markPayrollAsPaid, findById. rewrite Hp, Hhr. cbn.
    rewrite decide_True; [done|]. by rewrite Hs.
  - unfold processPayroll, findById. rewrite Hp1, Hhr'. cbn.
    by rewrite decide_True.
Qed.

Lemma payroll_draft_to_paid_witness :
  unique_index [draft_payroll]
  ∧ [draft_payroll] !! 0%nat = Some draft_payroll
  ∧ status draft_payroll = draft
  ∧ checkHRPermission february_2023 2 = true
  ∧ ∃ coll1 p1 coll2 p2,
      processPayroll february_2023 [draft_payroll] 0 2 = Ok (coll1, Some p1)
      ∧ status p1 = processed
      ∧ markPayrollAsPaid march_2025 coll1 0 2 None = Ok (coll2, Some p2)
      ∧ status p2 = paid
      ∧ paymentDate p2 = Some (default (clock march_2025) None)
      ∧ coll2 !! 0%nat = Some p2
      ∧ markPayrollAsPaid february_2023 [draft_payroll] 0 2 None
        = Throw (AppError "Only processed payrolls can be marked as paid" 400)
      ∧ processPayroll march_2025 coll1 0 2
        = Throw (AppError "Only draft payrolls can be processed" 400).
Proof.
  assert (checkHRPermission february_2023 2 = true) as Hhr by (vm_compute; reflexivity).
  assert (checkHRPermission march_2025 2 = true) as Hhr' by (vm_compute; reflexivity).
  split; [apply unique_index_singleton|].
  do 3 (split; [first [reflexivity | assumption]|]).
  exact (payroll_draft_to_paid february_2023 march_2025 [draft_payroll] 0 2 2 None
           draft_payroll (unique_index_singleton _) eq_refl eq_refl Hhr Hhr').
Defined.

(** X6. processPayroll and markPayrollAsPaid touch one record only: the
    collection keeps its length and every other record, and the record they
    save is the one on file with the new status (and payment date) and the
    amounts recomputed, which is the record itself with the new status when
    its amounts agreed already. *)
Theorem payroll_status_steps_frame host coll payrollId userId paymentDate' coll' r :
  (processPayroll host coll payrollId userId = Ok (coll', Some r) →
   ∃ old, coll !! payrollId = Some old
          ∧ r = calculatePay (set_status processed old)
          ∧ (amounts_agree old → r = set_status processed old))
  ∧ (markPayrollAsPaid host coll payrollId userId paymentDate' = Ok (coll', Some r) →
     ∃ old, coll !! payrollId = Some old
            ∧ r = calculatePay
                    (set_paymentDate (Some (default (clock host) paymentDate'))
                       (set_status paid old))
            ∧ (amounts_agree old →
               r = set_paymentDate (Some (default (clock host) paymentDate'))
                     (set_status paid old)))
  ∧ (processPayroll host coll payrollId userId = Ok (coll', Some r)
     ∨ markPayrollAsPaid host coll payrollId userId paymentDate' = Ok (coll', Some r) →
     length coll' = length coll
     ∧ coll' !! payrollId = Some r
     ∧ ∀ j, j ≠ payrollId → coll' !! j = coll !! j).
Proof.
  assert (∀ doc old, coll !! payrollId = Some old →
            (save coll (Some payrollId) doc ≫= λ '(c, saved), Ok (c, Some saved))
            = Ok (coll', Some r) →
            r = calculatePay doc ∧ length coll' = length coll
            ∧ coll' !! payrollId = Some r
            ∧ ∀ j, j ≠ payrollId → coll' !! j = coll !! j) as Hsave.
  { intros doc old Ho ([= <-] & -> & Hl)%saved_existing_inv; [|by eauto].
    split; [done|]. split; [apply length_insert|]. split; [done|].
    intros j Hj. by apply list_lookup_insert_ne. }
  assert (processPayroll host coll payrollId userId = Ok (coll', Some r) →
          ∃ old, coll !! payrollId = Some old
                 ∧ (save coll (Some payrollId) (set_status processed old)
                    ≫= λ '(c, saved), Ok (c, Some saved)) = Ok (coll', Some r)) as Hproc.
  { unfold processPayroll, findById.
    destruct (coll !! payrollId) as [old|]; [|discriminate].
    destruct (negb _); [discriminate|]. case_decide; [discriminate|]. eauto. }
  assert (markPayrollAsPaid host coll payrollId userId paymentDate' = Ok (coll', Some r) →
          ∃ old, coll !! payrollId = Some old
                 ∧ (save coll (Some payrollId)
                      (set_paymentDate (Some (default (clock host) paymentDate'))
                         (set_status paid old))
                    ≫= λ '(c, saved), Ok (c, Some saved)) = Ok (coll', Some r)) as Hpaid.
  { unfold markPayrollAsPaid, findById.
    destruct (coll !! payrollId) as [old|]; [|discriminate].
    destruct (negb _); [discriminate|]. case_decide; [discriminate|].
    destruct paymentDate'; eauto. }
  split; [|split].
  - intros (old & Ho & Hs)%Hproc. destruct (Hsave _ _ Ho Hs) as (-> & _).
    exists old. split; [done|]. split; [done|].
    intros Ha. apply calculatePay_fixed.
    destruct old. exact Ha.
  - intros (old & Ho & Hs)%Hpaid. destruct (Hsave _ _ Ho Hs) as (-> & _).
    exists old. split; [done|]. split; [done|].
    intros Ha. apply calculatePay_fixed.
    destruct old. exact Ha.
  - intros [(old & Ho & Hs)%Hproc|(old & Ho & Hs)%Hpaid];
      by destruct (Hsave _ _ Ho Hs) as (_ & ? & ? & ?).
Qed.

Lemma payroll_status_steps_frame_witness :
  ∃ coll' r,
    processPayroll february_2023 [draft_payroll; second_half_payroll] 0 2
    = Ok (coll', Some r)
    ∧ amounts_agree draft_payroll
    ∧ r = set_status processed draft_payroll
    ∧ length coll' = 2%nat
    ∧ coll' !! 1%nat = Some second_half_payroll.
Proof.
  eexists _, _. split; [vm_compute; reflexivity|].
  assert (amounts_agree draft_payroll) as Ha by (by vm_compute).
  split; [exact Ha|].
  lazymatch goal with
  | |- ?r = _ ∧ length ?c = _ ∧ _ =>
      pose proof (payroll_status_steps_frame february_2023
                    [draft_payroll; second_half_payroll] 0 2 None c r)
        as (H1 & _ & H3)
  end.
  split.
  - destruct H1 as (old & Ho & _ & Hr); [vm_compute; reflexivity|].
    injection Ho as <-. exact (Hr Ha).
  - destruct H3 as (Hl & _ & Hj); [left; vm_compute; reflexivity|].
    split; [exact Hl|]. by rewrite Hj.
Defined.

End PayrollMore.

Section PayrollSummaryFacts.

Import Payroll PayrollSpec PayrollReports.

Lemma status_name_inj (s1 s2 : Status) : status_name s1 = status_name s2 → s1 = s2.
Proof. by destruct s1, s2. Qed.

Lemma breakdown_count (st : Status) (l : list IPayroll) (acc : Totals) :
  or0 (acc_statusBreakdown (foldl addPayroll acc l) !! status_name st)
  = or0 (acc_statusBreakdown acc !! status_name st)
    + Z.of_nat (length (filter (λ p, status p = st) l)).
Proof.
  revert acc. induction l as [|p l IH]; intros acc.
  - rewrite filter_nil. cbn. by rewrite Z.add_0_r.
  - cbn [foldl]. rewrite IH, filter_cons. cbn [addPayroll acc_statusBreakdown].
    destruct (decide (status p = st)) as [->|Hne].
    + rewrite lookup_insert_eq. cbn [or0 default length]. unfold id. lia.
    + rewrite lookup_insert_ne; [done|]. by intros ?%status_name_inj.
Qed.

Lemma count_by_status (l : list IPayroll) :
  (length (filter (λ p, status p = draft) l)
   + length (filter (λ p, status p = processed) l)
   + length (filter (λ p, status p = paid) l)
   + length (filter (λ p, status p = cancelled) l))%nat
  = length l.
Proof.
  induction l as [|p l IH]; [done|].
  rewrite !filter_cons.
  destruct (status p); repeat (case_decide; try done); cbn [length]; lia.
Qed.

(** X8. The statusBreakdown of getPayrollSummary holds, for each status, the
    number of payrolls of the range with that status (no entry standing for
    none), and its four counts add up to totalPayrolls. *)
Theorem getPayrollSummary_breakdown (coll : list IPayroll) (startDate endDate : Z) :
  (∀ st,
     or0 (statusBreakdown (getPayrollSummary coll startDate endDate) !! status_name st)
     = Z.of_nat (length (filter (λ p, status p = st)
                           (filter (inRange startDate endDate) coll))))
  ∧ or0 (statusBreakdown (getPayrollSummary coll startDate endDate) !! "draft")
    + or0 (statusBreakdown (getPayrollSummary coll startDate endDate) !! "processed")
    + or0 (statusBreakdown (getPayrollSummary coll startDate endDate) !! "paid")
    + or0 (statusBreakdown (getPayrollSummary coll startDate endDate) !! "cancelled")
    = totalPayrolls (getPayrollSummary coll startDate endDate).
Proof.
  assert (∀ st,
     or0 (statusBreakdown (getPayrollSummary coll startDate endDate) !! status_name st)
     = Z.of_nat (length (filter (λ p, status p = st)
                           (filter (inRange startDate endDate) coll)))) as Hc.
  { intros st. cbn. rewrite breakdown_count. cbn. by rewrite lookup_empty. }
  split; [exact Hc|].
  pose proof (Hc draft) as H1. pose proof (Hc processed) as H2.
  pose proof (Hc paid) as H3. pose proof (Hc cancelled) as H4.
  cbn [status_name] in H1, H2, H3, H4. rewrite H1, H2, H3, H4.
  cbn [totalPayrolls getPayrollSummary].
  rewrite <- (count_by_status (filter (inRange startDate endDate) coll)). lia.
Qed.

End PayrollSummaryFacts.

Section PayrollGenerated.

Import Payroll PayrollService PayrollSpec.



End PayrollGenerated.

(** ** Attendance: every operation *)

Section AttendanceMore.

Import Attendance AttendanceService AttendanceRecords AttendanceSpec AttendanceOps.
Import StoreSpec.

Lemma same_day_sym (a b : IAttendance) : same_day a b → same_day b a.
Proof. intros [? ?]. by split. Qed.

Lemma attendance_via_save coll op coll' r :
  perform coll op = Ok (coll', r) →
  (coll' = coll ∧ r = None)
  ∨ ∃ slot doc, (∀ i, slot = Some i → is_Some (coll !! i))
                ∧ save coll slot doc = Ok (coll', calculateHours doc)
                ∧ r = Some (calculateHours doc).
Proof.
  assert (∀ slot doc c s, save coll slot doc = Ok (c, s) →
            save coll slot doc = Ok (c, calculateHours doc) ∧ s = calculateHours doc)
    as Hshape.
  { intros slot doc c s Hs. unfold save in *. case_decide; [discriminate|].
    injection Hs as <- <-. done. }
  destruct op; cbn.
  - intros ([c s] & Hc & Hr)%bind_Ok. cbn in Hr. injection Hr as <- <-.
    unfold checkIn in Hc.
    destruct (findOne _ coll) as [[i [e d [ci|] co st n l rm h]]|] eqn:Hf;
      [discriminate|..]; apply Hshape in Hc as [Hc ->]; right.
    + apply list_find_Some in Hf as (Hi & _).
      eexists (Some i), _. split; [intros ? [= <-]; eauto|]. eauto.
    + eexists None, _. split; [by intros ? [=]|]. eauto.
  - intros ([c s] & Hc & Hr)%bind_Ok. cbn in Hr. injection Hr as <- <-.
    unfold checkOut in Hc.
    destruct (findOne _ coll) as [[i a]|] eqn:Hf; [|discriminate].
    destruct (Attendance.checkIn a); [|discriminate].
    destruct (Attendance.checkOut a); [discriminate|].
    apply Hshape in Hc as [Hc ->]; right.
    apply list_find_Some in Hf as (Hi & _).
    eexists (Some i), _. split; [intros ? [= <-]; eauto|]. eauto.
  - unfold updateAttendance, findById.
    destruct (coll !! attendanceId) eqn:Hf; [|intros [= <- <-]; by left].
    intros ([c s] & Hc & Hr)%bind_Ok. cbn in Hr. injection Hr as <- <-.
    apply Hshape in Hc as [Hc ->]; right.
    eexists (Some attendanceId), _. split; [intros ? [= <-]; eauto|]. eauto.
  - intros ([c s] & Hc & Hr)%bind_Ok. cbn in Hr. injection Hr as <- <-.
    unfold markAbsent in Hc.
    destruct (findOne _ coll) as [[i a]|] eqn:Hf; apply Hshape in Hc as [Hc ->]; right.
    + apply list_find_Some in Hf as (Hi & _).
      eexists (Some i), _. split; [intros ? [= <-]; eauto|]. eauto.
    + eexists None, _. split; [by intros ? [=]|]. eauto.
Qed.

(** X11. checkIn, checkOut, updateAttendance and markAbsent keep the unique
    index of the attendance collection: when the records on file are one
    per employee and day, they still are after a successful operation. *)
Theorem attendance_operations_keep_unique_days coll op coll' r :
  unique_days coll → perform coll op = Ok (coll', r) → unique_days coll'.
Proof.
  intros Hu [[-> _]|(slot & doc & _ & Hs & _)]%attendance_via_save; [done|].
  change (unique_index coll').
  eapply save_keeps_unique_index; [apply same_day_sym|exact Hu|exact Hs].
Qed.

Lemma attendance_operations_keep_unique_days_witness :
  unique_days [checked_in_0915]
  ∧ ∃ coll' r,
      perform [checked_in_0915] (MarkAbsent monday_1742 2 (clock monday_1742) None)
      = Ok (coll', r)
      ∧ unique_days coll'.
Proof.
  split; [apply unique_days_singleton|].
  eexists _, _. split; [vm_compute; reflexivity|].
  eapply (attendance_operations_keep_unique_days [checked_in_0915]
            (MarkAbsent monday_1742 2 (clock monday_1742) None));
    [apply unique_days_singleton|].
  vm_compute. reflexivity.
Defined.

Lemma calculateHours_agree (a : IAttendance) : hours_agree (calculateHours a).
Proof.
  intros ci co Hci Hco Hnear.
  destruct (calculateHours_keeps a) as (_ & _ & Eci & Eco & _).
  rewrite Eci in Hci. rewrite Eco in Hco.
  unfold calculateHours. rewrite Hci, Hco. cbn.
  eexists. split; [reflexivity|]. by apply roundedHours_nearest2.
Qed.

(** X12. Every record checkIn, checkOut, updateAttendance or markAbsent
    saves that has both a checkIn and a checkOut, less than 2^51 ms apart,
    has as hoursWorked a multiple of 0.01 (as a double) nearest to the time
    between them in hours; and when this holds of the records on file it
    holds of them afterwards. *)
Theorem attendance_hours_on_save coll op coll' r :
  perform coll op = Ok (coll', Some r) →
  hours_agree r ∧ r ∈ coll'
  ∧ (Forall hours_agree coll → Forall hours_agree coll').
Proof.
  intros [[_ [=]]|(slot & doc & Hslot & Hs & [= ->])]%attendance_via_save.
  split; [apply calculateHours_agree|].
  destruct slot as [i|].
  - destruct (Hslot i eq_refl) as [old Hi].
    apply save_existing_inv in Hs as [_ ->]. split.
    + apply list_elem_of_lookup. exists i.
      apply list_lookup_insert_eq. by eapply lookup_lt_Some.
    + intros Hall. apply Forall_insert; [done|]. apply calculateHours_agree.
  - apply save_new_inv in Hs as [_ ->]. split; [set_solver|].
    intros Hall. apply Forall_app. split; [done|].
    repeat constructor. apply calculateHours_agree.
Qed.

Lemma attendance_hours_on_save_witness :
  ∃ coll' r,
    perform [checked_in_0915] (UpdateAttendance 0 left_at_1742 2) = Ok (coll', Some r)
    ∧ hoursWorked r = Some (hundredth 845)
    ∧ hours_agree r ∧ r ∈ coll'
    ∧ (Forall hours_agree [checked_in_0915] → Forall hours_agree coll').
Proof.
  eexists _, _. split; [vm_compute; reflexivity|].
  split; [vm_compute; reflexivity|].
  apply (attendance_hours_on_save [checked_in_0915] (UpdateAttendance 0 left_at_1742 2)).
  vm_compute. reflexivity.
Defined.

Lemma find_today host coll employeeId' a :
  unique_days coll → a ∈ coll → today's host employeeId' a →
  ∃ i, coll !! i = Some a
       ∧ list_find (today's host employeeId') coll = Some (i, a).
Proof.
  intros Hu Hin Ht.
  destruct (list_find (today's host employeeId') coll) as [[i b]|] eqn:Hf.
  - pose proof Hf as (Hi & Hb & _)%list_find_Some.
    rewrite (found_is_the_one _ _ _ _ _ _ Hu Hi Hb Hin Ht). eauto.
  - apply list_find_None in Hf. rewrite Forall_forall in Hf. by destruct (Hf a Hin).
Qed.

Lemma checkOut_open_ok host coll employeeId' a checkedIn :
  unique_days coll → a ∈ coll → today's host employeeId' a →
  Attendance.checkIn a = Some checkedIn → Attendance.checkOut a = None →
  ∃ i, coll !! i = Some a
       ∧ checkOut host coll employeeId'
         = Ok (<[i:=calculateHours (set_checkOut (Some (clock host)) a)]> coll,
               calculateHours (set_checkOut (Some (clock host)) a)).
Proof.
  intros Hu Hin Ht Hci Hco.
  destruct (find_today _ _ _ _ Hu Hin Ht) as (i & Hi & Hf).
  exists i. split; [done|]. unfold checkOut, findOne.
  change (λ a, employeeId a = employeeId'
               ∧ date a = startOfDay (zone host) (clock host))
    with (today's host employeeId').
  rewrite Hf, Hci, Hco. by apply (save_existing_ok _ _ a).
Qed.

Lemma checkOut_closed host coll employeeId' a checkedIn checkedOut :
  unique_days coll → a ∈ coll → today's host employeeId' a →
  Attendance.checkIn a = Some checkedIn → Attendance.checkOut a = Some checkedOut →
  checkOut host coll employeeId'
  = Throw (AppError "You have already checked out today" 400).
Proof.
  intros Hu Hin Ht Hci Hco.
  destruct (find_today _ _ _ _ Hu Hin Ht) as (i & Hi & Hf).
  unfold checkOut, findOne.
  change (λ a, employeeId a = employeeId'
               ∧ date a = startOfDay (zone host) (clock host))
    with (today's host employeeId').
  by rewrite Hf, Hci, Hco.
Qed.

(** checkIn on a day whose record, if any, has no stamp yet. *)
Lemma checkIn_unstamped host coll employeeId' location' isRemote' :
  unique_days coll →
  (∀ a, a ∈ coll → today's host employeeId' a →
        Attendance.checkIn a = None ∧ Attendance.checkOut a = None) →
  ∃ coll' a',
    checkIn host coll employeeId' location' isRemote' = Ok (coll', a')
    ∧ a' ∈ coll' ∧ today's host employeeId' a'
    ∧ Attendance.checkIn a' = Some (clock host)
    ∧ Attendance.checkOut a' = None
    ∧ status a' = (if decide (startOfDay (zone host) (clock host) + 9 * MS_PER_HOUR
                              < clock host) then late else present)
    ∧ ((∃ i old, coll !! i = Some old ∧ today's host employeeId' old
                 ∧ notes a' = notes old ∧ coll' = <[i:=a']> coll)
       ∨ ((∀ a, a ∈ coll → ¬ today's host employeeId' a)
          ∧ coll' = coll ++ [a'])).
Proof.
  intros Hu Hnone. unfold checkIn, findOne.
  change (λ a, employeeId a = employeeId'
               ∧ date a = startOfDay (zone host) (clock host))
    with (today's host employeeId').
  destruct (list_find _ coll) as [[i old]|] eqn:Hf.
  - apply list_find_Some in Hf as (Hi & Ho & _).
    assert (old ∈ coll) as Hin by (apply list_elem_of_lookup; eauto).
    destruct (Hnone old Hin Ho) as [Hci Hco].
    destruct old as [e d ci co st n l r h]. cbn in Hci, Hco. subst ci co.
    erewrite save_existing_ok; [|done|exact Hi|].
    2: { destruct Ho as [Ho1 Ho2]. cbn in Ho1, Ho2. split; cbn; congruence. }
    eexists _, _. split; [reflexivity|].
    match goal with |- context [ calculateHours ?x ] =>
      destruct (calculateHours_keeps x) as (He & Hd & Hci & Hco & Hst);
      assert (notes (calculateHours x) = n) as Hn by done end.
    split.
    { apply list_elem_of_lookup. exists i.
      apply list_lookup_insert_eq. by eapply lookup_lt_Some. }
    split; [by split|]. split; [done|]. split; [done|].
    split; [rewrite Hst; apply isLate_decide|].
    left. eexists i, _. split; [exact Hi|]. split; [exact Ho|]. by split.
  - apply list_find_None in Hf. rewrite Forall_forall in Hf.
    erewrite save_new_ok.
    2: { intros x Hx [Hx1 Hx2]. apply (Hf x Hx). cbn in Hx1, Hx2. split; congruence. }
    eexists _, _. split; [reflexivity|].
    match goal with |- context [ calculateHours ?x ] =>
      destruct (calculateHours_keeps x) as (He & Hd & Hci & Hco & Hst) end.
    split; [apply elem_of_app; right; by left|].
    split; [by split|]. split; [done|]. split; [done|].
    split; [rewrite Hst; apply isLate_decide|].
    right. split; [exact Hf|done].
Qed.

(** X13. One check-in and one check-out a day: on a day whose record, if
    any, has no stamp yet, checkIn goes through, a checkOut later that day
    (less than 2^51 ms later) goes through and leaves as hoursWorked a
    multiple of 0.01 (as a double) nearest to the hours between the two
    clocks, and after that both a second checkOut and a second checkIn fail
    with a 400 error. *)
Theorem checkIn_then_checkOut host1 host2 coll employeeId' location' isRemote' :
  unique_days coll →
  (∀ a, a ∈ coll → today's host1 employeeId' a →
        Attendance.checkIn a = None ∧ Attendance.checkOut a = None) →
  startOfDay (zone host2) (clock host2) = startOfDay (zone host1) (clock host1) →
  near (clock host1) (clock host2) →
  ∃ coll1 a1 coll2 a2 h,
    checkIn host1 coll employeeId' location' isRemote' = Ok (coll1, a1)
    ∧ checkOut host2 coll1 employeeId' = Ok (coll2, a2)
    ∧ Attendance.checkIn a2 = Some (clock host1)
    ∧ Attendance.checkOut a2 = Some (clock host2)
    ∧ hoursWorked a2 = Some h
    ∧ nearest2 (elapsedHours (clock host1) (clock host2)) h
    ∧ checkOut host2 coll2 employeeId'
      = Throw (AppError "You have already checked out today" 400)
    ∧ checkIn host2 coll2 employeeId' location' isRemote'
      = Throw (AppError "You have already checked in today" 400).
Proof.
  intros Hu Hnone Hday Hnear.
  assert (∀ a, today's host2 employeeId' a ↔ today's host1 employeeId' a) as Hsame.
  { intros a. unfold today's. by rewrite Hday. }
  destruct (checkIn_unstamped host1 coll employeeId' location' isRemote' Hu Hnone)
    as (coll1 & a1 & H1 & Hin1 & Ht1 & Hci1 & Hco1 & _).
  pose proof (checkIn_keeps_unique_days _ _ _ _ _ _ _ Hu H1) as Hu1.
  destruct (checkOut_open_ok host2 coll1 employeeId' a1 (clock host1) Hu1 Hin1
              (proj2 (Hsame a1) Ht1) Hci1 Hco1) as (i & Hi & H2).
  set (a2 := calculateHours (set_checkOut (Some (clock host2)) a1)) in *.
  set (coll2 := <[i:=a2]> coll1) in *.
  pose proof (checkOut_keeps_unique_days _ _ _ _ _ Hu1 H2) as Hu2.
  destruct (calculateHours_keeps (set_checkOut (Some (clock host2)) a1))
    as (He & Hd & Hci2 & Hco2 & _).
  cbn in He, Hd, Hci2, Hco2. rewrite Hci1 in Hci2.
  assert (a2 ∈ coll2) as Hin2.
  { apply list_elem_of_lookup. exists i.
    apply list_lookup_insert_eq. by eapply lookup_lt_Some. }
  assert (today's host2 employeeId' a2) as Ht2.
  { destruct (proj2 (Hsame a1) Ht1). split; unfold a2; congruence. }
  destruct (calculateHours_agree (set_checkOut (Some (clock host2)) a1)
              (clock host1) (clock host2) Hci2 Hco2 Hnear) as (h & Hh & Hr).
  exists coll1, a1, coll2, a2, h.
  split; [done|]. split; [done|]. split; [done|]. split; [done|].
  split; [done|]. split; [done|]. split.
  - by apply (checkOut_closed host2 coll2 employeeId' a2 (clock host1) (clock host2)).
  - apply (checkIn_spec host2 coll2 employeeId' location' isRemote' Hu2).
    exists a2. split; [done|]. split; [done|]. unfold a2. rewrite Hci2. by eexists.
Qed.

Lemma checkIn_then_checkOut_witness :
  unique_days (@nil IAttendance)
  ∧ startOfDay (zone monday_1742) (clock monday_1742)
    = startOfDay (zone monday_0915) (clock monday_0915)
  ∧ near (clock monday_0915) (clock monday_1742)
  ∧ ∃ coll1 a1 coll2 a2 h,
      checkIn monday_0915 [] 1 None false = Ok (coll1, a1)
      ∧ checkOut monday_1742 coll1 1 = Ok (coll2, a2)
      ∧ Attendance.checkIn a2 = Some (clock monday_0915)
      ∧ Attendance.checkOut a2 = Some (clock monday_1742)
      ∧ hoursWorked a2 = Some h
      ∧ nearest2 (elapsedHours (clock monday_0915) (clock monday_1742)) h
      ∧ checkOut monday_1742 coll2 1
        = Throw (AppError "You have already checked out today" 400)
      ∧ checkIn monday_1742 coll2 1 None false
        = Throw (AppError "You have already checked in today" 400).
Proof.
  assert (unique_days (@nil IAttendance)) as Hu.
  { intros i j a b Ha. by rewrite lookup_nil in Ha. }
  assert (startOfDay (zone monday_1742) (clock monday_1742)
          = startOfDay (zone monday_0915) (clock monday_0915)) as Hday
    by (vm_compute; reflexivity).
  assert (near (clock monday_0915) (clock monday_1742)) as Hnear
    by (vm_compute; reflexivity).
  split; [exact Hu|]. split; [exact Hday|]. split; [exact Hnear|].
  apply (checkIn_then_checkOut monday_0915 monday_1742 [] 1 None false Hu);
    [|exact Hday|exact Hnear].
  intros a Ha. by apply not_elem_of_nil in Ha.
Defined.

Lemma set_absent_id (reason : option string) (a : IAttendance) :
  status a = absent → notes a = reason → set_absent reason a = a.
Proof. destruct a. cbn. by intros -> ->. Qed.

Lemma calculateHours_idem (a : IAttendance) :
  calculateHours (calculateHours a) = calculateHours a.
Proof.
  unfold calculateHours.
  destruct (Attendance.checkIn a) eqn:Hci, (Attendance.checkOut a) eqn:Hco;
    cbn; by rewrite ?Hci, ?Hco.
Qed.

Lemma markAbsent_shape host coll employeeId' date' reason :
  unique_days coll →
  (∃ i old,
     coll !! i = Some old
     ∧ employeeId old = employeeId'
     ∧ date old = startOfDay (zone host) date'
     ∧ markAbsent host coll employeeId' date' reason
       = Ok (<[i:=calculateHours (set_absent reason old)]> coll,
             calculateHours (set_absent reason old)))
  ∨ ((∀ a, a ∈ coll →
           ¬ (employeeId a = employeeId' ∧ date a = startOfDay (zone host) date'))
     ∧ markAbsent host coll employeeId' date' reason
       = Ok (coll ++ [absent_record employeeId' (startOfDay (zone host) date') reason],
             absent_record employeeId' (startOfDay (zone host) date') reason)).
Proof.
  intros Hu. unfold markAbsent, findOne.
  destruct (list_find _ coll) as [[i old]|] eqn:Hf.
  - apply list_find_Some in Hf as (Hi & [Ho1 Ho2] & _).
    left. exists i, old. split; [done|]. split; [done|]. split; [done|].
    apply (save_existing_ok _ _ old); [done..|]. by split.
  - apply list_find_None in Hf. rewrite Forall_forall in Hf.
    right. split; [exact Hf|].
    rewrite save_new_ok; [done|].
    intros x Hx [Hx1 Hx2]. apply (Hf x Hx). cbn in Hx1, Hx2. by split.
Qed.

(** X14. markAbsent goes through on every collection with the unique index
    in place: the employee's record of that day ends up absent with the
    reason as its notes.  A record that was on file keeps its checkIn and
    checkOut and the collection its length; otherwise a record without
    stamps is added.  Marking the same day absent again with the same
    reason changes nothing. *)
Theorem markAbsent_marks_the_day host coll employeeId' date' reason :
  unique_days coll →
  ∃ coll' r,
    markAbsent host coll employeeId' date' reason = Ok (coll', r)
    ∧ r ∈ coll'
    ∧ employeeId r = employeeId'
    ∧ date r = startOfDay (zone host) date'
    ∧ status r = absent
    ∧ notes r = reason
    ∧ (∀ old, old ∈ coll → employeeId old = employeeId' →
              date old = startOfDay (zone host) date' →
              Attendance.checkIn r = Attendance.checkIn old
              ∧ Attendance.checkOut r = Attendance.checkOut old
              ∧ length coll' = length coll)
    ∧ ((∀ a, a ∈ coll →
             ¬ (employeeId a = employeeId' ∧ date a = startOfDay (zone host) date')) →
       coll' = coll ++ [r]
       ∧ Attendance.checkIn r = None ∧ Attendance.checkOut r = None)
    ∧ markAbsent host coll' employeeId' date' reason = Ok (coll', r).
Proof.
  intros Hu.
  assert (∀ coll' r, unique_days coll' → r ∈ coll' →
            employeeId r = employeeId' → date r = startOfDay (zone host) date' →
            status r = absent → notes r = reason → calculateHours r = r →
            markAbsent host coll' employeeId' date' reason = Ok (coll', r)) as Hagain.
  { intros coll' r Hu' Hin He Hd Hst Hn Hc.
    destruct (markAbsent_shape host coll' employeeId' date' reason Hu')
      as [(i & old & Hi & Ho1 & Ho2 & ->)|[Hfree _]].
    - apply list_elem_of_lookup in Hin as [j Hj].
      assert (i = j) as <- by (apply (Hu' i j old r Hi Hj); split; congruence).
      assert (old = r) as -> by congruence.
      rewrite set_absent_id, Hc by done. by rewrite list_insert_id.
    - by destruct (Hfree r Hin). }
  destruct (markAbsent_shape host coll employeeId' date' reason Hu)
    as [(i & old & Hi & Ho1 & Ho2 & Hm)|[Hfree Hm]].
  - destruct (calculateHours_keeps (set_absent reason old))
      as (He & Hd & Hci & Hco & Hst).
    assert (notes (calculateHours (set_absent reason old)) = reason) as Hn.
    { unfold calculateHours.
      by destruct (Attendance.checkIn (set_absent reason old)),
                  (Attendance.checkOut (set_absent reason old)). }
    cbn in He, Hd, Hci, Hco, Hst.
    set (r := calculateHours (set_absent reason old)) in *.
    assert (r ∈ <[i:=r]> coll) as Hin.
    { apply list_elem_of_lookup. exists i.
      apply list_lookup_insert_eq. by eapply lookup_lt_Some. }
    exists (<[i:=r]> coll), r.
    split; [done|]. split; [done|]. split; [by rewrite He|].
    split; [by rewrite Hd|]. split; [by rewrite Hst|]. split; [done|].
    split; [|split].
    + intros old' [j Hj]%list_elem_of_lookup Ho1' Ho2'.
      assert (j = i) as ->
        by (apply (Hu j i old' old Hj Hi); split; congruence).
      assert (old' = old) as -> by congruence.
      rewrite Hci, Hco. split; [done|]. split; [done|]. apply length_insert.
    + intros Hfree. destruct (Hfree old); [apply list_elem_of_lookup; eauto|done].
    + apply Hagain; try done.
      * apply (unique_days_insert coll i old r Hu Hi). split; congruence.
      * by rewrite He.
      * by rewrite Hd.
      * apply calculateHours_idem.
  - set (r := absent_record employeeId' (startOfDay (zone host) date') reason) in *.
    exists (coll ++ [r]), r.
    split; [done|]. split; [apply elem_of_app; right; by left|].
    split; [done|]. split; [done|]. split; [done|]. split; [done|].
    split; [|split].
    + intros old Hold Ho1 Ho2. by destruct (Hfree old Hold).
    + done.
    + apply Hagain; try done; [|apply elem_of_app; right; by left].
      apply unique_days_app; [done|].
      intros y Hy [Hy1 Hy2]. apply (Hfree y Hy). by split.
Qed.

Lemma markAbsent_marks_the_day_witness :
  unique_days [checked_in_0915]
  ∧ ∃ coll' r,
      markAbsent monday_1742 [checked_in_0915] 1 (clock monday_1742) (Some "sick")
      = Ok (coll', r)
      ∧ status r = absent
      ∧ notes r = Some "sick"
      ∧ Attendance.checkIn r = Some (clock monday_0915)
      ∧ length coll' = 1%nat.
Proof.
  split; [apply unique_days_singleton|].
  destruct (markAbsent_marks_the_day monday_1742 [checked_in_0915] 1
              (clock monday_1742) (Some "sick") (unique_days_singleton _))
    as (coll' & r & Hm & _ & _ & _ & Hst & Hn & Hold & _).
  destruct (Hold checked_in_0915) as (Hci & _ & Hlen);
    [by left|reflexivity|vm_compute; reflexivity|].
  exists coll', r. do 4 (split; [done|]). exact Hlen.
Defined.

Lemma the_day's_record coll (a r : IAttendance) :
  unique_days coll → a ∈ coll → r ∈ coll → same_day a r → a = r.
Proof.
  intros Hu [i Hi]%list_elem_of_lookup [j Hj]%list_elem_of_lookup Hs.
  assert (i = j) as -> by apply (Hu i j a r Hi Hj Hs). congruence.
Qed.

Lemma calculateHours_unstamped (a : IAttendance) :
  Attendance.checkIn a = None → calculateHours a = a.
Proof. intros H. unfold calculateHours. by rewrite H. Qed.

(** markAbsent on the current day of an employee who has not checked in. *)
Lemma markAbsent_unstamped host coll employeeId' date' reason :
  unique_days coll →
  startOfDay (zone host) date' = startOfDay (zone host) (clock host) →
  (∀ a, a ∈ coll → today's host employeeId' a →
        Attendance.checkIn a = None ∧ Attendance.checkOut a = None) →
  ∃ coll1 r1,
    markAbsent host coll employeeId' date' reason = Ok (coll1, r1)
    ∧ unique_days coll1 ∧ r1 ∈ coll1 ∧ today's host employeeId' r1
    ∧ Attendance.checkIn r1 = None ∧ Attendance.checkOut r1 = None
    ∧ status r1 = absent ∧ notes r1 = reason.
Proof.
  intros Hu Hday Hnone.
  destruct (markAbsent_shape host coll employeeId' date' reason Hu)
    as [(i & old & Hi & Ho1 & Ho2 & ->)|[Hfree ->]].
  - assert (old ∈ coll) as Hin by (apply list_elem_of_lookup; eauto).
    destruct (Hnone old Hin) as [Hci Hco]; [split; congruence|].
    rewrite calculateHours_unstamped by done.
    eexists _, _. split; [reflexivity|].
    split; [apply (unique_days_insert coll i old _ Hu Hi); by split|].
    split. { apply list_elem_of_lookup. exists i.
             apply list_lookup_insert_eq. by eapply lookup_lt_Some. }
    split; [split; cbn; congruence|]. by cbn.
  - eexists _, _. split; [reflexivity|].
    split. { apply unique_days_app; [done|].
             intros y Hy [Hy1 Hy2]. apply (Hfree y Hy). by split. }
    split; [apply elem_of_app; right; by left|].
    split; [by split|]. by cbn.
Qed.

(** X15. An employee marked absent for the current day, not having checked
    in, can still check in: checkIn reuses the absent record, so the
    collection keeps its length, the status turns to present or late (late
    when the clock is more than nine hours past the start of the day) and
    the notes keep the reason of the absence.  checkOut, on the other hand,
    is refused for the absent record. *)
Theorem checkIn_after_markAbsent host coll employeeId' date' reason
    location' isRemote' :
  unique_days coll →
  startOfDay (zone host) date' = startOfDay (zone host) (clock host) →
  (∀ a, a ∈ coll → today's host employeeId' a →
        Attendance.checkIn a = None ∧ Attendance.checkOut a = None) →
  ∃ coll1 r1 coll2 r2,
    markAbsent host coll employeeId' date' reason = Ok (coll1, r1)
    ∧ status r1 = absent
    ∧ checkOut host coll1 employeeId'
      = Throw (AppError "You must check in before checking out" 400)
    ∧ checkIn host coll1 employeeId' location' isRemote' = Ok (coll2, r2)
    ∧ length coll2 = length coll1
    ∧ r2 ∈ coll2
    ∧ Attendance.checkIn r2 = Some (clock host)
    ∧ status r2 = (if decide (startOfDay (zone host) (clock host) + 9 * MS_PER_HOUR
                              < clock host) then late else present)
    ∧ notes r2 = reason.
Proof.
  intros Hu Hday Hnone.
  destruct (markAbsent_unstamped host coll employeeId' date' reason Hu Hday Hnone)
    as (coll1 & r1 & Hm & Hu1 & Hin1 & Ht1 & Hci1 & Hco1 & Hst1 & Hn1).
  assert (∀ a, a ∈ coll1 → today's host employeeId' a → a = r1) as Honly.
  { intros a Ha [Ha1 Ha2]. apply (the_day's_record coll1); [done..|].
    destruct Ht1. split; congruence. }
  destruct (checkIn_unstamped host coll1 employeeId' location' isRemote' Hu1)
    as (coll2 & r2 & Hc & Hin2 & Ht2 & Hci2 & Hco2 & Hst2 & Hcase).
  { intros a Ha Hta. by rewrite (Honly a Ha Hta). }
  exists coll1, r1, coll2, r2.
  split; [done|]. split; [done|]. split.
  { destruct (find_today _ _ _ _ Hu1 Hin1 Ht1) as (i & Hi & Hf).
    unfold checkOut, findOne.
    change (λ a, employeeId a = employeeId'
                 ∧ date a = startOfDay (zone host) (clock host))
      with (today's host employeeId').
    by rewrite Hf, Hci1. }
  split; [done|].
  destruct Hcase as [(i & old & Hi & Hto & Hn & ->)|[Hfree _]].
  - split; [apply length_insert|]. split; [done|]. split; [done|].
    split; [done|].
    rewrite Hn, (Honly old); [done| |done]. apply list_elem_of_lookup; eauto.
  - by destruct (Hfree r1 Hin1).
Qed.

Lemma checkIn_after_markAbsent_witness :
  unique_days (@nil IAttendance)
  ∧ startOfDay (zone monday_0915) (utc_time 2024 3 4 0 0)
    = startOfDay (zone monday_0915) (clock monday_0915)
  ∧ ∃ coll1 r1 coll2 r2,
      markAbsent monday_0915 [] 1 (utc_time 2024 3 4 0 0) (Some "sick")
      = Ok (coll1, r1)
      ∧ checkIn monday_0915 coll1 1 None false = Ok (coll2, r2)
      ∧ length coll2 = length coll1
      ∧ status r2 = late
      ∧ notes r2 = Some "sick".
Proof.
  assert (unique_days (@nil IAttendance)) as Hu.
  { intros i j a b Ha. by rewrite lookup_nil in Ha. }
  assert (startOfDay (zone monday_0915) (utc_time 2024 3 4 0 0)
          = startOfDay (zone monday_0915) (clock monday_0915)) as Hday
    by (vm_compute; reflexivity).
  split; [exact Hu|]. split; [exact Hday|].
  destruct (checkIn_after_markAbsent monday_0915 [] 1 (utc_time 2024 3 4 0 0)
              (Some "sick") None false Hu Hday)
    as (coll1 & r1 & coll2 & r2 & Hm & _ & _ & Hc & Hlen & _ & _ & Hst & Hn).
  { intros a Ha. by apply not_elem_of_nil in Ha. }
  exists coll1, r1, coll2, r2. do 3 (split; [done|]). split; [|done].
  rewrite Hst. reflexivity.
Defined.

End AttendanceMore.

Section AttendanceReports.

Import Attendance AttendanceRecords AttendanceSpec ReportSpec.

Lemma summary_from (s : Summary) (l : list IAttendance) :
  totalDays (foldl addRecord s l) = totalDays s + Z.of_nat (length l)
  ∧ presentDays (foldl addRecord s l) = presentDays s + count attended l
  ∧ lateDays (foldl addRecord s l) = lateDays s + count (λ a, status a = late) l
  ∧ absentDays (foldl addRecord s l) = absentDays s + count (λ a, status a = absent) l
  ∧ (totalHours (foldl addRecord s l)
     == totalHours s + PayrollSpec.sumQ (hours <$> l))%Q.
Proof.
  revert s. induction l as [|a l IH]; intros s.
  - unfold count. cbn. repeat split; try lia. ring.
  - cbn [foldl]. destruct (IH (addRecord s a)) as (H1 & H2 & H3 & H4 & H5).
    rewrite H1, H2, H3, H4, H5. clear IH H1 H2 H3 H4 H5.
    unfold count, attended. rewrite !filter_cons.
    split; [cbn; lia|].
    split; [cbn; case_decide as Hs; cbn [length];
            destruct (status a); try lia; destruct Hs; tauto || done|].
    split; [cbn; case_decide as Hs; cbn [length];
            destruct (status a); try lia; done|].
    split; [cbn; case_decide as Hs; cbn [length];
            destruct (status a); try lia; done|].
    unfold hours. cbn. destruct (hoursWorked a) as [h|]; cbn.
    + destruct (Qeq_bool h 0) eqn:Hz.
      * apply Qeq_bool_eq in Hz. rewrite Hz. unfold PayrollSpec.sumQ. ring.
      * unfold PayrollSpec.sumQ. cbn. ring.
    + unfold PayrollSpec.sumQ. cbn. ring.
Qed.

Lemma count_le (P Q' : IAttendance → Prop) `{!∀ a, Decision (P a)}
    `{!∀ a, Decision (Q' a)} (l : list IAttendance) :
  (∀ a, P a → Q' a) → count P l ≤ count Q' l.
Proof.
  intros HPQ. unfold count. apply inj_le.
  induction l as [|a l IH]; [done|]. rewrite !filter_cons.
  repeat case_decide; cbn [length]; try lia. naive_solver.
Qed.

Lemma count_disjoint (P Q' : IAttendance → Prop) `{!∀ a, Decision (P a)}
    `{!∀ a, Decision (Q' a)} (l : list IAttendance) :
  (∀ a, P a → Q' a → False) → count P l + count Q' l ≤ Z.of_nat (length l).
Proof.
  intros HPQ. unfold count.
  enough (length (filter P l) + length (filter Q' l) ≤ length l)%nat by lia.
  induction l as [|a l IH]; [done|]. rewrite !filter_cons.
  repeat case_decide; cbn [length]; try lia. naive_solver.
Qed.

(** X16. calculateAttendanceSummary counts: totalDays is the number of
    records, presentDays those present or late, lateDays those late,
    absentDays those absent, and totalHours the sum of the hours worked (a
    record without hours counting 0).  So the late days are among the
    present days, and present and absent days together never exceed the
    total; half days and holidays make up the difference. *)
Theorem calculateAttendanceSummary_counts (l : list IAttendance) :
  let s := calculateAttendanceSummary l in
  totalDays s = Z.of_nat (length l)
  ∧ presentDays s = count attended l
  ∧ lateDays s = count (λ a, status a = late) l
  ∧ absentDays s = count (λ a, status a = absent) l
  ∧ (totalHours s == PayrollSpec.sumQ (hours <$> l))%Q
  ∧ 0 ≤ lateDays s ≤ presentDays s
  ∧ 0 ≤ absentDays s
  ∧ presentDays s + absentDays s ≤ totalDays s.
Proof.
  cbn zeta. unfold calculateAttendanceSummary.
  destruct (summary_from (mkSummary 0 0 0 0 0) l) as (H1 & H2 & H3 & H4 & H5).
  cbn in H1, H2, H3, H4, H5.
  rewrite H1, H2, H3, H4, H5.
  split; [done|]. split; [done|]. split; [done|]. split; [done|].
  split; [ring|].
  split; [split; [unfold count; lia|apply count_le; unfold attended; tauto]|].
  split; [unfold count; lia|].
  apply count_disjoint. unfold attended. intros a [H|H] Ha; congruence.
Qed.

Lemma ceil_div_bounds (n : Z) (k : positive) :
  (Math_ceil (inject_Z n / inject_Z (Z.pos k)) - 1) * Z.pos k < n
  ≤ Math_ceil (inject_Z n / inject_Z (Z.pos k)) * Z.pos k.
Proof.
  unfold Math_ceil.
  pose proof (Qle_ceiling (inject_Z n / inject_Z (Z.pos k))) as Hle.
  pose proof (Qceiling_lt (inject_Z n / inject_Z (Z.pos k))) as Hlt.
  set (c := Qceiling (inject_Z n / inject_Z (Z.pos k))) in *.
  unfold Qle, Qlt, Qdiv, Qmult, Qinv, inject_Z in Hle, Hlt. cbn in Hle, Hlt.
  lia.
Qed.

Lemma chunks_concat {A} (k n : nat) (l : list A) :
  (length l ≤ n * k)%nat →
  concat ((λ i, take k (drop (i * k) l)) <$> seq 0 n) = l.
Proof.
  revert l. induction n as [|n IH]; intros l Hlen.
  - rewrite (nil_length_inv l); [done|lia].
  - cbn [seq fmap list_fmap concat]. rewrite <- fmap_S_seq, <- list_fmap_compose.
    etrans; [|apply (take_drop k l)]. f_equal.
    rewrite <- (IH (drop k l)) by (rewrite length_drop; lia).
    f_equal. apply list_fmap_ext. intros _ i _. cbn.
    by rewrite drop_drop.
Qed.

(** X17. A page of getAttendanceByEmployee holds records of the employee
    within the date filter, at most [limit] of them, newest first.  total
    is the number of matching records and the totalDays of the summary;
    totalPages is the least number of pages of [limit] records that holds
    them all.  Every page up to totalPages has a record, every page after
    it is empty. *)
Theorem getAttendanceByEmployee_page host months coll employeeId'
    startDate' endDate' page' limit' :
  let r := getAttendanceByEmployee host months coll employeeId'
             startDate' endDate' page' limit' in
  let window := dateFilter host months startDate' endDate' in
  (∀ a, a ∈ attendance r → a ∈ coll ∧ inDates employeeId' window.1 window.2 a)
  ∧ (length (attendance r) ≤ Pos.to_nat limit')%nat
  ∧ StronglySorted newerFirst (attendance r)
  ∧ total r = count (inDates employeeId' window.1 window.2) coll
  ∧ total r = totalDays (summary r)
  ∧ (totalPages r - 1) * Z.pos limit' < total r ≤ totalPages r * Z.pos limit'
  ∧ (Z.pos page' ≤ totalPages r → attendance r ≠ [])
  ∧ (totalPages r < Z.pos page' → attendance r = []).
Proof.
  cbn zeta. unfold getAttendanceByEmployee. cbn [attendance total totalPages summary].
  set (window := dateFilter host months startDate' endDate').
  set (matching := filter (inDates employeeId' window.1 window.2) coll).
  set (sorted := merge_sort newerFirst matching).
  assert (length sorted = length matching) as Hlen
    by apply Permutation_length, merge_sort_Permutation.
  pose proof (ceil_div_bounds (Z.of_nat (length matching)) limit') as Hc.
  set (pages := Math_ceil _) in *.
  set (skip := ((Pos.to_nat page' - 1) * Pos.to_nat limit')%nat).
  split.
  { intros a Ha. apply subseteq_take, subseteq_drop in Ha.
    unfold sorted in Ha. rewrite merge_sort_Permutation in Ha.
    apply list_elem_of_filter in Ha. tauto. }
  split; [rewrite length_take; lia|].
  split.
  { pose proof (StronglySorted_merge_sort newerFirst matching) as Hs.
    fold sorted in Hs. rewrite <- (take_drop skip sorted) in Hs.
    apply StronglySorted_app_1_r in Hs.
    rewrite <- (take_drop (Pos.to_nat limit') (drop skip sorted)) in Hs.
    by apply StronglySorted_app_1_l in Hs. }
  split; [done|].
  split.
  { unfold calculateAttendanceSummary.
    destruct (summary_from (mkSummary 0 0 0 0 0) matching) as (-> & _). cbn. lia. }
  split; [exact Hc|].
  split.
  - intros Hp Hnil. apply (f_equal length) in Hnil.
    rewrite length_take, length_drop, Hlen in Hnil. cbn in Hnil. nia.
  - intros Hp. rewrite drop_ge; [by rewrite take_nil|]. rewrite Hlen. nia.
Qed.

(** X18. Reading the pages 1 to totalPages of getAttendanceByEmployee one
    after the other gives the employee's records within the date filter,
    each one once. *)
Theorem getAttendanceByEmployee_pages_cover host months coll employeeId'
    startDate' endDate' limit' :
  let fetch page' := getAttendanceByEmployee host months coll employeeId'
                       startDate' endDate' page' limit' in
  let window := dateFilter host months startDate' endDate' in
  concat ((λ i, attendance (fetch (Pos.of_succ_nat i)))
            <$> seq 0 (Z.to_nat (totalPages (fetch 1%positive))))
  ≡ₚ filter (inDates employeeId' window.1 window.2) coll.
Proof.
  cbn zeta. unfold getAttendanceByEmployee. cbn [attendance total totalPages summary].
  set (window := dateFilter host months startDate' endDate').
  set (matching := filter (inDates employeeId' window.1 window.2) coll).
  set (sorted := merge_sort newerFirst matching).
  assert (length sorted = length matching) as Hlen
    by apply Permutation_length, merge_sort_Permutation.
  pose proof (ceil_div_bounds (Z.of_nat (length matching)) limit') as Hc.
  set (pages := Math_ceil _) in *.
  rewrite <- (merge_sort_Permutation newerFirst matching). fold sorted.
  erewrite list_fmap_ext.
  - rewrite (chunks_concat (Pos.to_nat limit')); [done|]. rewrite Hlen. nia.
  - intros _ i _. cbn beta. rewrite SuccNat2Pos.id_succ.
    by replace (S i - 1)%nat with i by lia.
Qed.

End AttendanceReports.

Section LeaveMore.

Import LeaveRequest LeaveService LeaveDeletion LeaveSpec LeaveOps.

Lemma filter_delete_skip {A} (P : A → Prop) `{!∀ x, Decision (P x)}
    (l : list A) (i : nat) (x : A) :
  l !! i = Some x → ¬ P x → filter P (delete i l) = filter P l.
Proof.
  intros Hi Hx. rewrite delete_take_drop.
  transitivity (filter P (take i l ++ x :: drop (S i) l));
    [|by rewrite take_drop_middle].
  by rewrite !filter_app, filter_cons_False.
Qed.

Lemma deleteLeaveRequest_cases coll requestId userId :
  (coll !! requestId = None
   ∧ deleteLeaveRequest coll requestId userId = Ok (coll, false))
  ∨ (∃ r, coll !! requestId = Some r ∧ employeeId r = userId ∧ status r = pending
          ∧ deleteLeaveRequest coll requestId userId
            = Ok (delete requestId coll, true))
  ∨ (∃ r, coll !! requestId = Some r
          ∧ (employeeId r ≠ userId ∨ status r ≠ pending)
          ∧ deleteLeaveRequest coll requestId userId
            = Throw (AppError "You can only delete your own pending leave requests" 403)).
Proof.
  unfold deleteLeaveRequest, findById.
  destruct (coll !! requestId) as [r|] eqn:Hr; [|by left].
  right. destruct (decide (employeeId r = userId)) as [He|He].
  - destruct (decide (status r = pending)) as [Hs|Hs].
    + left. exists r. rewrite !bool_decide_eq_false_2 by (intros ?; done). done.
    + right. exists r. rewrite (bool_decide_eq_true_2 (status r ≠ pending)) by done.
      rewrite orb_true_r. auto.
  - right. exists r. rewrite (bool_decide_eq_true_2 (employeeId r ≠ userId)) by done.
    auto.
Qed.

Lemma pending_not_counted host employeeId' (r : ILeaveRequest) :
  status r ≠ approved → ¬ counted host employeeId' r.
Proof. intros Hs (_ & Ha & _). done. Qed.

(** X19. deleteLeaveRequest removes a request only for the employee who
    filed it and only while it is pending: it answers false for an id not
    on record, refuses with 403 a request of someone else or one no longer
    pending, and otherwise takes out that one request and nothing else.
    No leave balance changes by it. *)
Theorem deleteLeaveRequest_own_pending_only coll requestId userId :
  match deleteLeaveRequest coll requestId userId with
  | Ok (coll', deleted) =>
      if deleted then
        ∃ r, coll !! requestId = Some r
             ∧ employeeId r = userId ∧ status r = pending
             ∧ coll ≡ₚ r :: coll'
             ∧ coll' `sublist_of` coll
             ∧ ∀ host employeeId',
                 getLeaveBalance host coll' employeeId'
                 = getLeaveBalance host coll employeeId'
      else coll !! requestId = None ∧ coll' = coll
  | Throw e =>
      e = AppError "You can only delete your own pending leave requests" 403
      ∧ ∃ r, coll !! requestId = Some r
             ∧ (employeeId r ≠ userId ∨ status r ≠ pending)
  end.
Proof.
  destruct (deleteLeaveRequest_cases coll requestId userId)
    as [[Hn ->]|[(r & Hr & He & Hs & ->)|(r & Hr & Hno & ->)]].
  - done.
  - exists r. split; [done|]. split; [done|]. split; [done|].
    split; [by apply delete_Permutation|].
    split; [apply sublist_delete|].
    intros host employeeId'. unfold getLeaveBalance.
    rewrite (filter_delete_skip _ _ _ r); [done..|].
    apply pending_not_counted. by rewrite Hs.
  - eauto.
Qed.

(** X20. createLeaveRequest stores nothing.  It refuses with 400 an
    employee the employee service does not know and, for a known one, dates
    that overlap a pending or approved request of the employee; every
    other call ends in the 500 error "Failed to create leave request",
    because the new document has no daysRequested when save validates it.
    The collection is never changed. *)
Theorem createLeaveRequest_stores_nothing host coll employeeId' leaveData :
  (directory host employeeId' = None →
   createLeaveRequest host coll employeeId' leaveData
   = Throw (AppError "Invalid employee ID" 400))
  ∧ (is_Some (directory host employeeId') →
     (∃ r, r ∈ coll ∧ overlaps employeeId' leaveData r) →
     createLeaveRequest host coll employeeId' leaveData
     = Throw (AppError "You have an overlapping leave request for these dates" 400))
  ∧ (is_Some (directory host employeeId') →
     (∀ r, r ∈ coll → ¬ overlaps employeeId' leaveData r) →
     createLeaveRequest host coll employeeId' leaveData
     = Throw (AppError "Failed to create leave request" 500))
  ∧ ∀ coll' r, createLeaveRequest host coll employeeId' leaveData ≠ Ok (coll', r).
Proof.
  rewrite createLeaveRequest_outcome. split; [by intros ->|]. split; [|split].
  - intros [e ->] (r & Hin & Hr).
    destruct (findOne _ coll) as [[]|] eqn:Hf; [done|].
    apply list_find_None in Hf. rewrite Forall_forall in Hf. by destruct (Hf r Hin).
  - intros [e ->] Hfree.
    destruct (findOne _ coll) as [[i r]|] eqn:Hf; [|done].
    apply list_find_Some in Hf as (Hi & Hr & _).
    destruct (Hfree r); [apply list_elem_of_lookup; eauto|done].
  - intros coll' r. destruct (directory host _); [|done].
    by destruct (findOne _ coll) as [[]|].
Qed.

Lemma createLeaveRequest_stores_nothing_witness :
  createLeaveRequest january_2024 [on_record 10 12] 1 (leave_jan 12 14)
  = Throw (AppError "You have an overlapping leave request for these dates" 400)
  ∧ createLeaveRequest january_2024 [on_record 10 12] 1 (leave_jan 20 22)
    = Throw (AppError "Failed to create leave request" 500).
Proof.
  split.
  - apply (createLeaveRequest_stores_nothing january_2024 [on_record 10 12] 1
             (leave_jan 12 14)); [by eexists|].
    exists (on_record 10 12). split; [by left|]. vm_compute. intuition discriminate.
  - apply (createLeaveRequest_stores_nothing january_2024 [on_record 10 12] 1
             (leave_jan 20 22)); [by eexists|].
    intros r ->%list_elem_of_singleton (_ & _ & _ & H). vm_compute in H. by apply H.
Defined.

Lemma calculateDays_keeps (stored : option ILeaveRequest) (doc : ILeaveRequest) :
  employeeId (calculateDays stored doc) = employeeId doc
  ∧ leaveType (calculateDays stored doc) = leaveType doc
  ∧ startDate (calculateDays stored doc) = startDate doc
  ∧ endDate (calculateDays stored doc) = endDate doc
  ∧ status (calculateDays stored doc) = status doc
  ∧ approverId (calculateDays stored doc) = approverId doc.
Proof. unfold calculateDays. by destruct (_ || _). Qed.

Lemma calculateDays_same_dates (old doc : ILeaveRequest) :
  startDate doc = startDate old → endDate doc = endDate old →
  calculateDays (Some old) doc = doc.
Proof.
  intros Hs He. unfold calculateDays, isModified.
  rewrite !bool_decide_eq_false_2; [done|intros ?; congruence..].
Qed.

(** A decision that went through: the caller is in HR and is set as the
    approver. *)
Lemma updateLeaveRequest_decided host coll requestId updateData userId coll' r :
  up_status updateData = Some approved ∨ up_status updateData = Some rejected →
  updateLeaveRequest host coll requestId updateData userId = Ok (coll', Some r) →
  checkHRPermission host userId = true
  ∧ ∃ old, coll !! requestId = Some old
           ∧ r = calculateDays (Some old)
                   (assign old (set_up_approverId userId updateData))
           ∧ coll' = <[requestId:=r]> coll.
Proof.
  intros Hst. unfold updateLeaveRequest, findById.
  destruct (coll !! requestId) as [old|] eqn:Ho; [|discriminate].
  destruct (_ && _); [discriminate|].
  intros (u & Hu & ([c s] & Hs & Hr)%bind_Ok)%bind_Ok.
  cbn in Hr. injection Hr as <- <-.
  apply save_existing_inv in Hs as [Hs ->]. cbn in Hs. rewrite Ho in Hs.
  destruct (checkHRPermission host userId);
    [|destruct Hst as [Hst|Hst]; rewrite Hst in Hu; discriminate].
  split; [done|]. exists old. split; [done|].
  assert (u = set_up_approverId userId updateData) as ->
    by (destruct Hst as [Hst|Hst]; rewrite Hst in Hu; congruence).
  done.
Qed.

(** X21. Approving or rejecting a leave request through updateLeaveRequest
    takes HR permission: without it the update of a request on record is
    refused with 403, also for the employee's own request.  When the
    update goes through, the saved request has the status asked for and
    the caller as its approver, whatever approver the update named. *)
Theorem leave_decision_needs_hr host coll requestId updateData userId :
  up_status updateData = Some approved ∨ up_status updateData = Some rejected →
  (checkHRPermission host userId = false → is_Some (coll !! requestId) →
   ∃ message,
     updateLeaveRequest host coll requestId updateData userId
     = Throw (AppError message 403))
  ∧ (∀ coll' saved,
       updateLeaveRequest host coll requestId updateData userId
       = Ok (coll', Some saved) →
       checkHRPermission host userId = true
       ∧ coll' !! requestId = Some saved
       ∧ approverId saved = Some userId
       ∧ Some (status saved) = up_status updateData).
Proof.
  intros Hst. split.
  - intros Hhr [old Ho]. unfold updateLeaveRequest, findById. rewrite Ho, Hhr.
    destruct (bool_decide _ && _); [eauto|].
    destruct Hst as [-> | ->]; cbn; eauto.
  - intros coll' saved Hu.
    destruct (updateLeaveRequest_decided _ _ _ _ _ _ _ Hst Hu)
      as (Hhr & old & Ho & -> & ->).
    destruct (calculateDays_keeps (Some old)
                (assign old (set_up_approverId userId updateData)))
      as (_ & _ & _ & _ & Hs & Ha).
    split; [done|]. split.
    { apply list_lookup_insert_eq. by eapply lookup_lt_Some. }
    rewrite Hs, Ha. split; [done|].
    destruct Hst as [Hst|Hst]; cbn; by rewrite Hst.
Qed.

Lemma leave_decision_needs_hr_witness :
  (up_status (decision_by approved 1) = Some approved
   ∨ up_status (decision_by approved 1) = Some rejected)
  ∧ (∃ message,
       updateLeaveRequest january_2024 [on_record 10 12] 0 (decision_by approved 1) 1
       = Throw (AppError message 403))
  ∧ ∃ coll' saved,
      updateLeaveRequest january_2024 [on_record 10 12] 0 (decision_by approved 1) 2
      = Ok (coll', Some saved)
      ∧ approverId saved = Some 2.
Proof.
  assert (up_status (decision_by approved 1) = Some approved
          ∨ up_status (decision_by approved 1) = Some rejected) as Hst by (by left).
  split; [exact Hst|]. split.
  - apply (proj1 (leave_decision_needs_hr january_2024 [on_record 10 12] 0
                    (decision_by approved 1) 1 Hst)); [reflexivity|by eexists].
  - destruct (updateLeaveRequest january_2024 [on_record 10 12] 0
                (decision_by approved 1) 2) as [[coll' [saved|]]|e] eqn:Hu;
      [|vm_compute in Hu; discriminate..].
    exists coll', saved. split; [done|].
    apply (proj2 (leave_decision_needs_hr january_2024 [on_record 10 12] 0
                    (decision_by approved 1) 2 Hst) coll' saved Hu).
Defined.

Lemma sumZ_app (l1 l2 : list Z) : sumZ (l1 ++ l2) = sumZ l1 + sumZ l2.
Proof.
  induction l1 as [|x l1 IH]; [done|].
  change (x + sumZ (l1 ++ l2) = x + sumZ l1 + sumZ l2).
  rewrite IH. apply Z.add_assoc.
Qed.

Lemma approvedDays_middle host l1 (x : ILeaveRequest) l2 employeeId' t :
  approvedDays host (l1 ++ x :: l2) employeeId' t
  = approvedDays host (l1 ++ l2) employeeId' t
    + (if decide (approvedOfType host employeeId' t x) then daysRequested x else 0).
Proof.
  unfold approvedDays. rewrite !filter_app, filter_cons.
  case_decide; rewrite !fmap_app, ?fmap_cons, !sumZ_app; [|lia].
  change (sumZ (daysRequested x :: (daysRequested <$> filter (approvedOfType host employeeId' t) l2)))
    with (daysRequested x + sumZ (daysRequested <$> filter (approvedOfType host employeeId' t) l2)).
  lia.
Qed.

Lemma allocation_less_used host coll employeeId' :
  annual (getLeaveBalance host coll employeeId')
  = 21 - or0 (used (getLeaveBalance host coll employeeId')
              !! leaveType_name LeaveRequest.annual)
  ∧ sick (getLeaveBalance host coll employeeId')
    = 10 - or0 (used (getLeaveBalance host coll employeeId')
                !! leaveType_name LeaveRequest.sick)
  ∧ personal (getLeaveBalance host coll employeeId')
    = 5 - or0 (used (getLeaveBalance host coll employeeId')
               !! leaveType_name LeaveRequest.personal).
Proof. done. Qed.

(** X22. When HR approves a request that was not approved before, leaving
    its employee, type and dates as they are, and the request lies within
    the window of the balance query (it starts no earlier than 00:00 on
    1 January of the current year and ends no later than 00:00 on
    31 December), the employee's used days of that leave type go up by the
    request's daysRequested and the remaining balance of that type goes
    down by as much; the other types and the balances of all other
    employees stay as they were. *)
Theorem approval_lowers_balance host host' coll requestId updateData userId
    old coll' saved :
  coll !! requestId = Some old →
  status old ≠ approved →
  up_status updateData = Some approved →
  keeps_request updateData →
  withinYear host' old →
  updateLeaveRequest host coll requestId updateData userId = Ok (coll', Some saved) →
  let before := getLeaveBalance host' coll (employeeId old) in
  let after := getLeaveBalance host' coll' (employeeId old) in
  let taken t := if decide (leaveType old = t) then daysRequested old else 0 in
  (∀ t, or0 (used after !! leaveType_name t)
        = or0 (used before !! leaveType_name t) + taken t)
  ∧ annual after = annual before - taken LeaveRequest.annual
  ∧ sick after = sick before - taken LeaveRequest.sick
  ∧ personal after = personal before - taken LeaveRequest.personal
  ∧ ∀ employeeId', employeeId' ≠ employeeId old →
      getLeaveBalance host' coll' employeeId'
      = getLeaveBalance host' coll employeeId'.
Proof.
  intros Ho Hnot Hst (Hke & Hkt & Hks & Hkf) Hw Hu. cbn zeta.
  destruct (updateLeaveRequest_decided _ _ _ _ _ _ _ (or_introl Hst) Hu)
    as (_ & old' & Ho' & Hsaved & ->).
  assert (old' = old) as -> by congruence.
  assert (employeeId saved = employeeId old ∧ leaveType saved = leaveType old
          ∧ startDate saved = startDate old ∧ endDate saved = endDate old
          ∧ daysRequested saved = daysRequested old ∧ status saved = approved)
    as (He & Ht & Hs & Hf & Hd & Ha).
  { rewrite Hsaved, calculateDays_same_dates; cbn; rewrite ?Hke, ?Hkt, ?Hks, ?Hkf, ?Hst; done. }
  clear Hsaved Hu.
  pose proof (lookup_lt_Some _ _ _ Ho) as Hlt.
  pose proof (take_drop_middle coll requestId old Ho) as Hcoll.
  rewrite insert_take_drop by done.
  remember (take requestId coll) as l1 eqn:Hl1.
  remember (drop (S requestId) coll) as l2 eqn:Hl2.
  clear Hl1 Hl2 Ho Ho' Hlt. subst coll.
  assert (∀ t, or0 (used (getLeaveBalance host' (l1 ++ saved :: l2) (employeeId old))
                    !! leaveType_name t)
               = or0 (used (getLeaveBalance host' (l1 ++ old :: l2) (employeeId old))
                      !! leaveType_name t)
                 + (if decide (leaveType old = t) then daysRequested old else 0))
    as Hused.
  { intros t. rewrite !remaining_of_type, !approvedDays_middle.
    rewrite (decide_False (P := approvedOfType host' (employeeId old) t old))
      by (intros (_ & ? & _); done).
    destruct (decide (leaveType old = t)) as [Heq|Hne].
    - rewrite decide_True; [lia|].
      unfold approvedOfType, withinYear. rewrite He, Ha, Ht, Hs, Hf. done.
    - rewrite decide_False; [lia|]. intros (_ & _ & Heq & _). congruence. }
  split; [exact Hused|].
  destruct (allocation_less_used host' (l1 ++ saved :: l2) (employeeId old))
    as (-> & -> & ->).
  destruct (allocation_less_used host' (l1 ++ old :: l2) (employeeId old))
    as (-> & -> & ->).
  rewrite !Hused.
  split; [lia|]. split; [lia|]. split; [lia|].
  intros employeeId' Hne. unfold getLeaveBalance.
  rewrite !filter_app, !filter_cons_False; [done|..].
  - intros (? & _). congruence.
  - intros (? & _). congruence.
Qed.

Lemma approval_lowers_balance_witness :
  [on_record 10 12] !! 0%nat = Some (on_record 10 12)
  ∧ status (on_record 10 12) ≠ approved
  ∧ withinYear january_2024 (on_record 10 12)
  ∧ ∃ coll' saved,
      updateLeaveRequest january_2024 [on_record 10 12] 0 (decision approved) 2
      = Ok (coll', Some saved)
      ∧ annual (getLeaveBalance january_2024 coll' 1)
        = annual (getLeaveBalance january_2024 [on_record 10 12] 1) - 3.
Proof.
  assert (status (on_record 10 12) ≠ approved) as Hnot by done.
  assert (withinYear january_2024 (on_record 10 12)) as Hw
    by (split; vm_compute; discriminate).
  split; [done|]. split; [exact Hnot|]. split; [exact Hw|].
  destruct (updateLeaveRequest january_2024 [on_record 10 12] 0
              (decision approved) 2) as [[coll' [saved|]]|e] eqn:Hu;
    [|vm_compute in Hu; discriminate..].
  exists coll', saved. split; [done|].
  exact (proj1 (proj2 (approval_lowers_balance january_2024 january_2024
                         [on_record 10 12] 0 (decision approved) 2
                         (on_record 10 12) coll' saved eq_refl Hnot eq_refl
                         (conj eq_refl (conj eq_refl (conj eq_refl eq_refl)))
                         Hw Hu))).
Defined.

End LeaveMore.

Section Permissions.

(** X24. The routes kept for HR by [restrictTo('hr manager', 'admin')] let
    in only users that the services' own check, checkHRPermission, takes
    for HR as well, the employee service giving the position the request
    carries. *)
Theorem restrictTo_hr_implies_checkHRPermission host (user : Auth.RequestUser)
    (employee : Employee) :
  directory host (Auth.id user) = Some employee →
  position employee = Auth.position user →
  Auth.restrictTo ["hr manager"; "admin"] (Some user) = Ok tt →
  checkHRPermission host (Auth.id user) = true.
Proof.
  intros Hd Hp. unfold Auth.restrictTo, checkHRPermission. rewrite Hd, Hp.
  case_bool_decide as Hin; [|discriminate]. intros _.
  apply elem_of_cons in Hin as [->|Hin]; [done|].
  apply elem_of_cons in Hin as [->|Hin]; [done|].
  by apply elem_of_nil in Hin.
Qed.

Lemma restrictTo_hr_implies_checkHRPermission_witness :
  directory january_2024 2 = Some {| salary := 90000; position := "HR Manager" |}
  ∧ Auth.restrictTo ["hr manager"; "admin"]
      (Some {| Auth.id := 2; Auth.email := "hr@example.com";
               Auth.firstName := "Asha"; Auth.lastName := "Rao";
               Auth.department := "People"; Auth.position := "HR Manager" |})
    = Ok tt
  ∧ checkHRPermission january_2024 2 = true.
Proof.
  split; [reflexivity|]. split; [reflexivity|].
  apply (restrictTo_hr_implies_checkHRPermission january_2024
           {| Auth.id := 2; Auth.email := "hr@example.com";
              Auth.firstName := "Asha"; Auth.lastName := "Rao";
              Auth.department := "People"; Auth.position := "HR Manager" |}
           {| salary := 90000; position := "HR Manager" |});
    reflexivity.
Defined.

End Permissions.

Section AttendanceUpdates.

Import Attendance AttendanceRecords AttendanceSpec AttendanceOps.

(** X25. updateAttendance asks nothing of its caller: on a record on
    file, an update that leaves the employee and the date alone goes
    through for every user id, in place, and the saved record, when it has
    both stamps less than 2^51 ms apart, has as hoursWorked a multiple of
    0.01 (as a double) nearest to the hours between them.  An update that
    would give the record the employee and day of another record fails
    with the store's duplicate-key error. *)
Theorem updateAttendance_any_caller coll attendanceId updateData userId old :
  unique_days coll → coll !! attendanceId = Some old →
  (up_employeeId updateData = None → up_date updateData = None →
   ∃ saved,
     updateAttendance coll attendanceId updateData userId
     = Ok (<[attendanceId:=saved]> coll, Some saved)
     ∧ same_day saved old
     ∧ status saved = default (status old) (up_status updateData)
     ∧ hours_agree saved)
  ∧ (∀ j other,
       j ≠ attendanceId → coll !! j = Some other →
       same_day (assignUpdate old updateData) other →
       updateAttendance coll attendanceId updateData userId
       = Throw (MongoError "E11000 duplicate key error")).
Proof.
  intros Hu Ho. unfold updateAttendance, findById. rewrite Ho. split.
  - intros He Hd.
    exists (calculateHours (assignUpdate old updateData)).
    rewrite (save_existing_ok coll attendanceId old); [|done..|].
    2: { split; cbn; by rewrite ?He, ?Hd. }
    split; [done|].
    destruct (calculateHours_keeps (assignUpdate old updateData))
      as (H1 & H2 & _ & _ & H5).
    split; [split; rewrite ?H1, ?H2; cbn; by rewrite ?He, ?Hd|].
    split; [by rewrite H5|]. apply calculateHours_agree.
  - intros j other Hj Hother [Hk1 Hk2].
    unfold save. cbn [mbind option_bind pre_save unique_clash schema].
    rewrite decide_True; [done|].
    apply Exists_exists. exists other.
    split; [by apply (elem_of_delete_other _ _ j)|].
    destruct (calculateHours_keeps (assignUpdate old updateData)) as (H1 & H2 & _).
    split; congruence.
Qed.

Lemma updateAttendance_any_caller_witness :
  unique_days [worked 2 8; worked 3 8]
  ∧ [worked 2 8; worked 3 8] !! 1%nat = Some (worked 3 8)
  ∧ updateAttendance [worked 2 8; worked 3 8] 1 (dated 2) 7
    = Throw (MongoError "E11000 duplicate key error").
Proof.
  assert (unique_days [worked 2 8; worked 3 8]) as Hu.
  { intros [|[|i]] [|[|j]] a b Ha Hb [_ Hd]; try done;
      cbn in Ha, Hb; simplify_eq; vm_compute in Hd; discriminate. }
  split; [exact Hu|]. split; [reflexivity|].
  apply (proj2 (updateAttendance_any_caller [worked 2 8; worked 3 8] 1 (dated 2) 7
                  (worked 3 8) Hu eq_refl) 0%nat (worked 2 8));
    [discriminate|reflexivity|split; reflexivity].
Defined.

End AttendanceUpdates.
